(** * YNAB files converter: statement analyzers, dispatcher and reconciliation

    A shallow embedding of the TypeScript analyzers of the repository
    (src/app/analyzers, src/app/utils, src/app/components) and the
    properties of its specification that they decide.

    Conventions of the embedding.
    - A JavaScript string is the list of its UTF-16 code units ([jsstring]);
      the Hebrew constants of the sources are written as UTF-8 literals and
      decoded by [u].
    - A JavaScript number is [NaN], an infinity, or a finite decimal
      [mant / 10^scale] kept in lowest scale.  Every finite number the
      analyzers build comes from a decimal literal by multiplication with an
      integer constant, flooring or rounding, so decimals are closed under the
      operations used; the binary rounding of IEEE doubles (beyond 15
      significant digits) and the sign of zero are not represented.
    - Code that can throw returns an [outcome]; a JavaScript object used as a
      record of fields is an association list in insertion order.
    - The parsing libraries are outside the repository: an analyzer is
      modelled from the point where [Papa.parse], [XLSX.read] or
      [XLSX.utils.sheet_to_json] has returned, on what it returned.

    The first part holds the embedding, module by source file; the second
    part, from "Properties" on, the lemmas and the theorems of the claims;
    the third, from "Further properties" on, what the code shows beyond
    them. *)

From Stdlib Require Import ZArith NArith List Bool String Ascii Lia.
From Stdlib Require Import DecimalString.
From Stdlib Require DecimalN DecimalPos.
Import ListNotations.

Local Open Scope N_scope.

(** ** Strings as UTF-16 code units *)

Definition jsstring := list N.

Definition bytes_of (s : string) : list N :=
  map (fun b => N_of_ascii b) (list_ascii_of_string s).

(** UTF-8 decoding of a source literal into code points. *)
Fixpoint utf8_points (bs : list N) : list N :=
  match bs with
  | [] => []
  | b0 :: r0 =>
    if b0 <? 128 then b0 :: utf8_points r0
    else if b0 <? 224 then
      match r0 with
      | b1 :: r1 => ((b0 mod 32) * 64 + b1 mod 64) :: utf8_points r1
      | [] => []
      end
    else if b0 <? 240 then
      match r0 with
      | b1 :: b2 :: r2 =>
        ((b0 mod 16) * 4096 + (b1 mod 64) * 64 + b2 mod 64) :: utf8_points r2
      | _ => []
      end
    else
      match r0 with
      | b1 :: b2 :: b3 :: r3 =>
        ((b0 mod 8) * 262144 + (b1 mod 64) * 4096 + (b2 mod 64) * 64 + b3 mod 64)
          :: utf8_points r3
      | _ => []
      end
  end.

Definition utf16_units (cp : N) : list N :=
  if cp <? 65536 then [cp]
  else [55296 + (cp - 65536) / 1024; 56320 + (cp - 65536) mod 1024].

(** [u "..."] is the JavaScript string written by the literal. *)
Definition u (s : string) : jsstring :=
  flat_map utf16_units (utf8_points (bytes_of s)).

Definition str_eqb (a b : jsstring) : bool :=
  if list_eq_dec N.eq_dec a b then true else false.

(** [String.prototype.startsWith]. *)
Fixpoint startsWith (s p : jsstring) : bool :=
  match p, s with
  | [], _ => true
  | _ :: _, [] => false
  | c :: p', d :: s' => (c =? d) && startsWith s' p'
  end.

(** [String.prototype.includes]. *)
Fixpoint includes (s p : jsstring) : bool :=
  startsWith s p ||
  match s with
  | [] => false
  | _ :: s' => includes s' p
  end.

(** [String.prototype.endsWith]. *)
Definition endsWith (s p : jsstring) : bool :=
  startsWith (rev s) (rev p).

(** [String.prototype.split] with a one-unit separator: the pieces between
    the occurrences of [sep], at least one piece. *)
Fixpoint split_on (sep : N) (s : jsstring) : list jsstring :=
  match s with
  | [] => [[]]
  | c :: s' =>
    if c =? sep then [] :: split_on sep s'
    else match split_on sep s' with
         | [] => [[c]]
         | p :: ps => (c :: p) :: ps
         end
  end.

(** [String.prototype.padStart(n, '0')]. *)
Definition padStart0 (n : nat) (s : jsstring) : jsstring :=
  repeat 48 (n - List.length s) ++ s.

(** [String.prototype.replace] with a one-unit string pattern: only the
    first occurrence is removed. *)
Fixpoint remove_first (c : N) (s : jsstring) : jsstring :=
  match s with
  | [] => []
  | d :: s' => if d =? c then s' else d :: remove_first c s'
  end.

(** White space and line terminators, as [trim] and the regex class [\s]
    take them. *)
Definition is_space (c : N) : bool :=
  ((9 <=? c) && (c <=? 13)) || (c =? 32) || (c =? 160) || (c =? 5760)
  || ((8192 <=? c) && (c <=? 8202)) || (c =? 8232) || (c =? 8233)
  || (c =? 8239) || (c =? 8287) || (c =? 12288) || (c =? 65279).

Definition is_digit (c : N) : bool := (48 <=? c) && (c <=? 57).

Fixpoint trimStart (s : jsstring) : jsstring :=
  match s with
  | [] => []
  | c :: s' => if is_space c then trimStart s' else s
  end.

Definition trim (s : jsstring) : jsstring :=
  rev (trimStart (rev (trimStart s))).

Definition shekel : N := 8362.   (* the sign of the new shekel, U+20AA *)
Definition comma : N := 44.
Definition dot : N := 46.
Definition slash : N := 47.
Definition dash : N := 45.

(** ** Numbers *)

Inductive number : Type :=
| NaN
| Inf (neg : bool)
| Fin (mant : Z) (scale : nat).   (* mant / 10^scale *)

Local Open Scope Z_scope.

(** The representation in lowest scale. *)
Fixpoint norm (m : Z) (e : nat) : number :=
  match e with
  | O => Fin m 0
  | S e' => if m mod 10 =? 0 then norm (m / 10) e' else Fin m e
  end.

Definition num_of_Z (z : Z) : number := Fin z 0.

Definition pow10 (e : nat) : Z := 10 ^ Z.of_nat e.

(** [x * k] for an integer constant [k]. *)
Definition num_mulZ (x : number) (k : Z) : number :=
  match x with
  | NaN => NaN
  | Inf s => if k =? 0 then NaN else Inf (if k <? 0 then negb s else s)
  | Fin m e => norm (m * k) e
  end.

Definition Math_floor (x : number) : number :=
  match x with
  | Fin m e => Fin (m / pow10 e) 0
  | _ => x
  end.

(** [Math.round]: the nearest integer, a tie going up. *)
Definition Math_round (x : number) : number :=
  match x with
  | Fin m e => Fin ((2 * m + pow10 e) / (2 * pow10 e)) 0
  | _ => x
  end.

Definition num_is_nan (x : number) : bool :=
  match x with NaN => true | _ => false end.

Definition num_is_zero (x : number) : bool :=
  match x with Fin m _ => m =? 0 | _ => false end.

(** *** Reading numbers from strings *)

(** The value of a character as a digit in [radix], if it is one. *)
Definition radix_digit (radix : Z) (c : N) : option Z :=
  let v :=
    if is_digit c then Z.of_N c - 48
    else if ((97 <=? c) && (c <=? 122))%N then Z.of_N c - 87
    else if ((65 <=? c) && (c <=? 90))%N then Z.of_N c - 55
    else 99 in
  if v <? radix then Some v else None.

(** The longest prefix of digits in [radix]: its value, how many digits it
    has and what follows it. *)
Fixpoint read_digits (radix : Z) (acc : Z) (n : nat) (s : jsstring)
  : Z * nat * jsstring :=
  match s with
  | [] => (acc, n, [])
  | c :: s' =>
    match radix_digit radix c with
    | Some v => read_digits radix (acc * radix + v) (S n) s'
    | None => (acc, n, s)
    end
  end.

Definition strip_sign (s : jsstring) : bool * jsstring :=
  match s with
  | 45%N :: s' => (true, s')
  | 43%N :: s' => (false, s')
  | _ => (false, s)
  end.

Definition signed (neg : bool) (z : Z) : Z := if neg then - z else z.

(** [parseInt(s)] without a radix argument. *)
Definition parseInt (s : jsstring) : number :=
  let '(neg, t) := strip_sign (trimStart s) in
  let '(radix, t) :=
    match t with
    | 48%N :: (120%N | 88%N) :: t' => (16, t')
    | _ => (10, t)
    end in
  let '(v, n, _) := read_digits radix 0 0 t in
  match n with
  | O => NaN
  | _ => num_of_Z (signed neg v)
  end.

(** The exponent part of a decimal literal, when it is complete. *)
Definition read_exponent (s : jsstring) : option (Z * jsstring) :=
  match s with
  | (101%N | 69%N) :: s' =>
    let '(neg, t) := strip_sign s' in
    let '(v, n, rest) := read_digits 10 0 0 t in
    match n with
    | O => None
    | _ => Some (signed neg v, rest)
    end
  | _ => None
  end.

Definition scaled (neg : bool) (m : Z) (frac : nat) (ex : Z) : number :=
  if 0 <=? ex then norm (signed neg m * 10 ^ ex) frac
  else norm (signed neg m) (frac + Z.to_nat (- ex)).

(** The longest prefix of [s] that is a StrDecimalLiteral, with its value. *)
Definition read_decimal (s : jsstring) : option (number * jsstring) :=
  let '(neg, t) := strip_sign s in
  if startsWith t (u "Infinity") then Some (Inf neg, skipn 8 t)
  else
    let '(ip, n1, r1) := read_digits 10 0 0 t in
    let '(m, n2, r2) :=
      match r1 with
      | 46%N :: r =>
        let '(m, n2, r2) := read_digits 10 ip 0 r in
        match n1, n2 with
        | O, O => (ip, O, r1)
        | _, _ => (m, n2, r2)
        end
      | _ => (ip, O, r1)
      end in
    match n1, n2 with
    | O, O => None
    | _, _ =>
      match read_exponent r2 with
      | Some (ex, r3) => Some (scaled neg m n2 ex, r3)
      | None => Some (scaled neg m n2 0, r2)
      end
    end.

(** [parseFloat(s)]. *)
Definition parseFloat (s : jsstring) : number :=
  match read_decimal (trimStart s) with
  | Some (x, _) => x
  | None => NaN
  end.

(** [Number(s)] on a string: the whole trimmed string must be a numeric
    literal, the empty string being 0. *)
Definition Number_of_string (s : jsstring) : number :=
  let t := trim s in
  let whole radix r :=
    match read_digits radix 0 0 r with
    | (v, S _, []) => num_of_Z v
    | _ => NaN
    end in
  match t with
  | [] => num_of_Z 0
  | 48%N :: (120%N | 88%N) :: r => whole 16 r
  | 48%N :: (111%N | 79%N) :: r => whole 8 r
  | 48%N :: (98%N | 66%N) :: r => whole 2 r
  | _ =>
    match read_decimal t with
    | Some (x, []) => x
    | _ => NaN
    end
  end.

(** *** Writing numbers *)

Definition digits_of (z : Z) : jsstring :=
  bytes_of (NilEmpty.string_of_uint (N.to_uint (Z.to_N z))).

Fixpoint strip_zeros (fuel : nat) (m : Z) (z : nat) : Z * nat :=
  match fuel with
  | O => (m, z)
  | S fuel' =>
    if (m mod 10 =? 0) && negb (m =? 0) then strip_zeros fuel' (m / 10) (S z)
    else (m, z)
  end.

Definition zeros (n : nat) : jsstring := repeat 48%N n.

(** [String(x)] on a number: Number::toString in radix 10. *)
Definition num_to_string (x : number) : jsstring :=
  match x with
  | NaN => u "NaN"
  | Inf neg => (if neg then [45%N] else []) ++ u "Infinity"
  | Fin m e =>
    if m =? 0 then u "0"
    else
      let '(d, z) := strip_zeros (Z.to_nat (Z.log2 (Z.abs m)) + 1) (Z.abs m) 0 in
      let s := digits_of d in
      let k := Z.of_nat (List.length s) in
      let n := k + Z.of_nat z - Z.of_nat e in
      let body :=
        if (k <=? n) && (n <=? 21) then s ++ zeros (Z.to_nat (n - k))
        else if (0 <? n) && (n <=? 21) then
          firstn (Z.to_nat n) s ++ [dot] ++ skipn (Z.to_nat n) s
        else if (-6 <? n) && (n <=? 0) then
          u "0." ++ zeros (Z.to_nat (- n)) ++ s
        else
          let ex := (if n - 1 <? 0 then [45%N] else [43%N])
                      ++ digits_of (Z.abs (n - 1)) in
          match s with
          | [c] => [c] ++ [101%N] ++ ex
          | c :: s' => [c] ++ [dot] ++ s' ++ [101%N] ++ ex
          | [] => []
          end in
      (if m <? 0 then [45%N] else []) ++ body
  end.

(** [x.toFixed(f)]. *)
Definition toFixed (x : number) (f : nat) : jsstring :=
  match x with
  | Fin m e =>
    if pow10 21 * pow10 e <=? Z.abs m then num_to_string x
    else
      (* the integer nearest to |x| * 10^f, the larger one at a tie *)
      let n := (2 * Z.abs m * pow10 f + pow10 e) / (2 * pow10 e) in
      let s := digits_of n in
      let s := zeros (S f - List.length s) ++ s in
      let k := (List.length s - f)%nat in
      (if m <? 0 then [45%N] else [])
        ++ firstn k s ++ (match f with O => [] | _ => [dot] ++ skipn k s end)
  | _ => num_to_string x
  end.

(** ** Values *)

Inductive jsval : Type :=
| VUndefined
| VNull
| VBool (b : bool)
| VNum (x : number)
| VStr (s : jsstring).

(** ToBoolean. *)
Definition truthy (v : jsval) : bool :=
  match v with
  | VUndefined | VNull => false
  | VBool b => b
  | VNum x => negb (num_is_nan x) && negb (num_is_zero x)
  | VStr s => match s with [] => false | _ => true end
  end.

(** ToNumber. *)
Definition ToNumber (v : jsval) : number :=
  match v with
  | VUndefined => NaN
  | VNull => num_of_Z 0
  | VBool b => num_of_Z (if b then 1 else 0)
  | VNum x => x
  | VStr s => Number_of_string s
  end.

(** The global [isNaN], which converts its argument to a number first. *)
Definition isNaN (v : jsval) : bool := num_is_nan (ToNumber v).

(** [String(v)], also the conversion inside a template literal. *)
Definition ToString (v : jsval) : jsstring :=
  match v with
  | VUndefined => u "undefined"
  | VNull => u "null"
  | VBool b => if b then u "true" else u "false"
  | VNum x => num_to_string x
  | VStr s => s
  end.

Definition is_string (v : jsval) : bool :=
  match v with VStr _ => true | _ => false end.

(** ** Exceptions *)

(** What a [catch (error)] clause can see: an [Error] (or a subclass such as
    [TypeError]) with its message, or a thrown value that is no [Error]. *)
Inductive exn : Type :=
| ErrorObj (message : jsstring)
| Thrown (v : jsval).

Inductive outcome (A : Type) : Type :=
| Ok (a : A)
| Throw (e : exn).
Arguments Ok {A} a.
Arguments Throw {A} e.

Definition bind {A B} (m : outcome A) (k : A -> outcome B) : outcome B :=
  match m with
  | Ok a => k a
  | Throw e => Throw e
  end.

Notation "x <- m ;; k" := (bind m (fun x => k))
  (at level 61, m at next level, right associativity).

(** ** Objects as association lists in insertion order *)

Definition object (A : Type) := list (jsstring * A).

Fixpoint obj_get {A} (o : object A) (k : jsstring) : option A :=
  match o with
  | [] => None
  | (k', v) :: o' => if str_eqb k' k then Some v else obj_get o' k
  end.

Fixpoint obj_set {A} (o : object A) (k : jsstring) (v : A) : object A :=
  match o with
  | [] => [(k, v)]
  | (k', v') :: o' =>
    if str_eqb k' k then (k', v) :: o' else (k', v') :: obj_set o' k v
  end.

(** A property read: [undefined] when the key is absent. *)
Definition prop (o : object jsval) (k : jsstring) : jsval :=
  match obj_get o k with
  | Some v => v
  | None => VUndefined
  end.

(** ** Balance reconciliation (components/AccountBalancesReport, and the
    inline report of components/FileUploadWithYNAB.tsx)

    Balances are amounts in milliunits, hence integers. *)

Module Reconcile.

Record Account : Type := mkAccount {
  id : jsstring;
  name : jsstring;
  balance : Z;
  cleared_balance : Z;
  fileName : jsstring;
  fileBalance : option Z        (* [fileBalance?: number] *)
}.



Definition missing_note : jsstring := u "Missing transactions in YNAB".
Definition extra_note : jsstring := u "Extra transactions in YNAB".


(** The older inline report takes a file balance in currency units:
    [account.fileBalance !== undefined ? account.fileBalance * 1000 : null]. *)
Definition inline_difference (a : Account) : option Z :=
  match fileBalance a with
  | Some fb => Some (fb * 1000 - cleared_balance a)
  | None => None
  end.

Definition inline_note (a : Account) : option jsstring :=
  match inline_difference a with
  | Some d =>
    if 0 <? Z.abs d
    then Some (if d <? 0 then missing_note else extra_note)
    else None
  | None => None
  end.

End Reconcile.

(** ** Regular expressions

    The regular expressions of the sources that are more than a character
    class, matched as JavaScript matches them: by backtracking, the first
    alternative first and quantifiers greedy.  The continuation [k] is the
    rest of the pattern; the result is what is left of the input after the
    whole match.  The expressions repeated here always consume a character,
    so an iteration that consumes nothing is not taken. *)

Inductive regex : Type :=
| RSet (p : N -> bool)
| RSeq (a b : regex)
| RAlt (a b : regex)
| RRep (a : regex) (min : nat) (max : option nat).

Local Open Scope nat_scope.

Fixpoint rmatch (r : regex) (s : jsstring) (k : jsstring -> option jsstring)
  : option jsstring :=
  match r with
  | RSet p =>
    match s with
    | c :: s' => if p c then k s' else None
    | [] => None
    end
  | RSeq a b => rmatch a s (fun s1 => rmatch b s1 k)
  | RAlt a b =>
    match rmatch a s k with
    | Some rest => Some rest
    | None => rmatch b s k
    end
  | RRep a mn mx =>
    (fix rep (fuel mn : nat) (mx : option nat) (s : jsstring) {struct fuel} :=
       let stop := match mn with O => k s | S _ => None end in
       match fuel with
       | O => stop
       | S fuel' =>
         let more :=
           match mx with
           | Some O => None
           | _ =>
             rmatch a s (fun s1 =>
               if List.length s1 <? List.length s
               then rep fuel' (pred mn) (option_map pred mx) s1
               else None)
           end in
         match more with
         | Some rest => Some rest
         | None => stop
         end
       end) (S (List.length s)) mn mx s
  end.

(** The match that starts at the head of [s], if there is one. *)
Definition match_here (r : regex) (s : jsstring) : option (jsstring * jsstring) :=
  match rmatch r s Some with
  | Some rest => Some (firstn (List.length s - List.length rest) s, rest)
  | None => None
  end.

(** [s.match(r)] for a regex with the [g] flag: all matches, left to right,
    none of them overlapping. *)
Fixpoint match_all_from (fuel : nat) (r : regex) (s : jsstring) : list jsstring :=
  match fuel with
  | O => []
  | S fuel' =>
    match match_here r s, s with
    | Some ([], _), _ :: s' => [] :: match_all_from fuel' r s'
    | Some ([], _), [] => [[]]
    | Some (m, rest), _ => m :: match_all_from fuel' r rest
    | None, _ :: s' => match_all_from fuel' r s'
    | None, [] => []
    end
  end.

Definition match_all (r : regex) (s : jsstring) : list jsstring :=
  match_all_from (S (List.length s)) r s.

Definition digit : regex := RSet is_digit.
Definition lit (c : N) : regex := RSet (N.eqb c).

(** [s.replace(/[...]/g, '')] for a character class: the characters of the
    class are removed. *)
Definition remove_all (p : N -> bool) (s : jsstring) : jsstring :=
  filter (fun c => negb (p c)) s.

(** [s.replace(/[\n\r]+/g, ' ')]: every run of line breaks becomes a space. *)
Fixpoint breaks_to_space (s : jsstring) : jsstring :=
  let is_break c := ((c =? 10) || (c =? 13))%N in
  match s with
  | [] => []
  | c :: s' =>
    if is_break c then
      match s' with
      | d :: _ => if is_break d then breaks_to_space s' else 32%N :: breaks_to_space s'
      | [] => [32%N]
      end
    else c :: breaks_to_space s'
  end.

(** ** Field mappings and analysis results (analyzers/fileAnalyzer.ts) *)

Record FieldMapping : Type := mkMapping {
  source : jsstring;
  target : jsstring;
  transform : option (jsval -> outcome jsval)
}.

(** [mapping.transform ? mapping.transform(value) : value] *)
Definition apply_mapping (m : FieldMapping) (value : jsval) : outcome jsval :=
  match transform m with
  | Some f => f value
  | None => Ok value
  end.

(** [{ transactions, finalBalance }] as the analyzers return it. *)
Record AnalysisResult : Type := mkResult {
  transactions : list (object jsval);
  finalBalance : jsval
}.

(** [list.forEach] with a body that can throw, threading the state the body
    mutates. *)
Fixpoint forEach {A S : Type} (l : list A) (body : S -> A -> outcome S) (s : S)
  : outcome S :=
  match l with
  | [] => Ok s
  | a :: l' => s' <- body s a ;; forEach l' body s'
  end.

(** [list.map] with a callback that can throw. *)
Fixpoint mapM {A B : Type} (f : A -> outcome B) (l : list A) : outcome (list B) :=
  match l with
  | [] => Ok []
  | a :: l' => b <- f a ;; bs <- mapM f l' ;; Ok (b :: bs)
  end.

(** [list.filter((row) => row !== null)], a [null] entry being [None]. *)
Fixpoint keep_rows {A} (l : list (option A)) : list A :=
  match l with
  | [] => []
  | Some a :: l' => a :: keep_rows l'
  | None :: l' => keep_rows l'
  end.

Definition is_undefined (v : jsval) : bool :=
  match v with VUndefined => true | _ => false end.

(** An array element read: [undefined] past the end. *)
Definition elem (row : list jsval) (i : nat) : jsval := nth i row VUndefined.

Definition TypeError (what : string) : exn := ErrorObj (u what).

(** The body shared by the Poalim, Isracard and Max row transforms:
    [if (value !== undefined && !transformedRow[mapping.target])
       transformedRow[mapping.target] = ...] *)
Definition first_writer (row : object jsval) (acc : object jsval) (m : FieldMapping)
  : outcome (object jsval) :=
  let value := prop row (source m) in
  if negb (is_undefined value) && negb (truthy (prop acc (target m)))
  then v <- apply_mapping m value ;; Ok (obj_set acc (target m) v)
  else Ok acc.

(** The raw record of a sheet row under its headers:
    [headers.forEach((header, index) =>
       { if (header && row[index]) transaction[header] = row[index]; })] *)
Fixpoint raw_record_from (i : nat) (headers row : list jsval) (acc : object jsval)
  : object jsval :=
  match headers with
  | [] => acc
  | header :: hs =>
    raw_record_from (S i) hs row
      (if truthy header && truthy (elem row i)
       then obj_set acc (ToString header) (elem row i)
       else acc)
  end.

Definition raw_record (headers row : list jsval) : object jsval :=
  raw_record_from 0 headers row [].

(** The rows of a transaction block: from [start] up to the first row that is
    missing, empty or has nothing in its first cell. *)
Fixpoint block_rows (rows : list (list jsval)) : list (list jsval) :=
  match rows with
  | [] => []
  | row :: rows' =>
    match row with
    | [] => []
    | c :: _ => if truthy c then row :: block_rows rows' else []
    end
  end.

(** [array.findIndex]: the index of the first element [p] accepts, [p]
    possibly throwing. *)
Fixpoint findIndex {A : Type} (p : A -> outcome bool) (l : list A) (i : nat)
  : outcome (option nat) :=
  match l with
  | [] => Ok None
  | a :: l' =>
    b <- p a ;;
    if b then Ok (Some i) else findIndex p l' (S i)
  end.

(** ** Cal (analyzers/calAnalyzer.ts) *)

Module Cal.

(** The transform of the date column. *)
Definition date_transform (value : jsval) : outcome jsval :=
  match value with
  | VStr s =>
    if negb (truthy value) || negb (includes s [slash]) then Ok value
    else
      let parts := map VStr (split_on slash s) in
      let day := elem parts 0 in
      let month := elem parts 1 in
      let year := elem parts 2 in
      if negb (truthy day) || negb (truthy month) || negb (truthy year)
      then Ok value
      else
        Ok (VStr (u "20" ++ ToString year ++ [dash]
                    ++ padStart0 2 (ToString month) ++ [dash]
                    ++ padStart0 2 (ToString day)))
  | _ => Ok value
  end.

Definition not_a_number : jsstring := u "לא מספר".

(** The transform of the amount column. *)
Definition amount_transform (value : jsval) : outcome jsval :=
  match value with
  | VUndefined | VNull | VStr [] => Ok (VNum (num_of_Z 0))
  | _ =>
    let stringValue := ToString value in
    if str_eqb stringValue not_a_number then Ok VNull
    else
      let cleanValue :=
        remove_all (fun c => (c =? shekel)%N || is_space c || (c =? comma)%N)
                   stringValue in
      let num := parseFloat cleanValue in
      if num_is_nan num then Ok VNull
      else Ok (VNum (Math_floor (num_mulZ num (-1000))))
  end.

Definition CAL_FIELD_MAPPINGS : list FieldMapping :=
  [ mkMapping (u "תאריך עסקה") (u "date") (Some date_transform);
    mkMapping (u "שם בית עסק") (u "payee_name") None;
    mkMapping (u "סכום חיוב") (u "amount") (Some amount_transform);
    mkMapping (u "הערות") (u "memo") None ].

(** [header ? header.replace(/[\n\r]+/g, ' ').trim() : header] *)
Definition normalize_str (s : jsstring) : jsstring :=
  match s with
  | [] => s
  | _ => trim (breaks_to_space s)
  end.

Definition normalizeHeaderString (header : jsval) : outcome jsval :=
  if truthy header then
    match header with
    | VStr s => Ok (VStr (normalize_str s))
    | _ => Throw (TypeError "header.replace is not a function")
    end
  else Ok header.

Definition val_is (v : jsval) (s : jsstring) : bool :=
  match v with VStr t => str_eqb t s | _ => false end.

(** [isCalFile], on the rows [XLSX.utils.sheet_to_json(sheet, {header: 1})]
    gives for the sheet. *)
Definition isCalFile (fileName : jsstring) (sheetJson : list (list jsval))
  : outcome jsval :=
  if negb (startsWith fileName (u "פירוט חיובים לכרטיס")) then Ok VNull
  else
    match nth_error sheetJson 4 with
    | None =>
      Throw (TypeError "Cannot read properties of undefined (reading 'some')")
    | Some firstRow =>
      let isCal :=
        existsb (fun cell =>
          if negb (truthy cell) || negb (is_string cell) then false
          else match normalizeHeaderString cell with
               | Ok n => val_is n (u "תאריך עסקה") || val_is n (u "שם בית עסק")
               | Throw _ => false
               end) firstRow in
      if isCal then Ok (elem (nth 0 sheetJson []) 0) else Ok VNull
    end.

(** The regular expression of [extractAmountFromHebrewText]:
    [/(\d{1,3}(,\d{3})*(\.\d{1,2})?|\d+\.\d{1,2}|\d+,\d{1,2})/g] *)
Definition amount_regex : regex :=
  RAlt (RSeq (RRep digit 1 (Some 3))
          (RSeq (RRep (RSeq (lit comma) (RRep digit 3 (Some 3))) 0 None)
                (RRep (RSeq (lit dot) (RRep digit 1 (Some 2))) 0 (Some 1))))
    (RAlt (RSeq (RRep digit 1 None) (RSeq (lit dot) (RRep digit 1 (Some 2))))
          (RSeq (RRep digit 1 None) (RSeq (lit comma) (RRep digit 1 (Some 2))))).

(** [for (const match of matches)
      if (match.length > longestMatch.length) longestMatch = match;] *)
Definition longest (matches : list jsstring) : jsstring :=
  fold_left (fun longestMatch m =>
               if List.length longestMatch <? List.length m then m
               else longestMatch) matches [].

Definition extractAmountFromHebrewText (text : jsstring) : jsval :=
  match text with
  | [] => VNull
  | _ =>
    match match_all amount_regex text with
    | [] => VNull
    | matches =>
      let amountStr := remove_all (N.eqb comma) (longest matches) in
      let amount := parseFloat amountStr in
      if num_is_nan amount then VNull else VNum amount
    end
  end.

Definition date_header : jsstring := u "תאריך עסקה".
Definition payee_header : jsstring := u "שם בית עסק".

(** [new Map(CAL_FIELD_MAPPINGS.map(
      (mapping) => [normalizeHeaderString(mapping.source), mapping]))] *)
Definition headerMapping : object FieldMapping :=
  fold_left (fun mp m => obj_set mp (normalize_str (source m)) m)
            CAL_FIELD_MAPPINGS [].

Definition initial_row : object jsval :=
  [ (u "date", VStr []); (u "payee_name", VStr []);
    (u "amount", VNum (num_of_Z 0)); (u "memo", VStr []) ].

(** The callback of [transactions.map]: one raw record to one canonical
    record.  [Object.entries] lists integer-like keys before the others;
    no mapped header is integer-like and the four targets exist from the
    start, so the entries are taken in insertion order. *)
Definition transform_row (row : object jsval) : outcome (object jsval) :=
  transformedRow <-
    forEach row (fun acc kv =>
      let '(key, value) := kv in
      match obj_get headerMapping (normalize_str key) with
      | Some mapping =>
        v <- apply_mapping mapping value ;;
        Ok (obj_set acc (target mapping) v)
      | None => Ok acc
      end) initial_row ;;
  if negb (truthy (prop transformedRow (u "memo")))
  then Ok (obj_set transformedRow (u "memo") (VStr []))
  else Ok transformedRow.

(** The balance of row 3, when its first cell holds the phrase. *)
Definition balance_of (sheetJson : list (list jsval)) : jsval :=
  match nth_error sheetJson 2 with
  | Some balanceRow =>
    match elem balanceRow 0 with
    | VStr s =>
      if truthy (VStr s) && includes s (u "עסקאות לחיוב")
      then extractAmountFromHebrewText s
      else VNull
    | _ => VNull
    end
  | None => VNull
  end.

Definition is_header_row (row : list jsval) : outcome bool :=
  if List.length row <? 2 then Ok false
  else
    firstHeader <- normalizeHeaderString (elem row 0) ;;
    secondHeader <- normalizeHeaderString (elem row 1) ;;
    Ok (val_is firstHeader date_header && val_is secondHeader payee_header).

(** [analyzeCalFile] after [XLSX.read] and [sheet_to_json]: on the rows of
    the first sheet, every cell read as text ([raw: false]). *)
Definition analyzeCalRows (sheetJson : list (list jsval)) : outcome AnalysisResult :=
  let finalBalance := balance_of sheetJson in
  headersIndex <- findIndex is_header_row sheetJson 0 ;;
  match headersIndex with
  | None => Ok (mkResult [] finalBalance)
  | Some hi =>
    headers <- mapM normalizeHeaderString (nth hi sheetJson []) ;;
    let raw := map (raw_record headers) (block_rows (skipn (S hi) sheetJson)) in
    transformedTransactions <- mapM transform_row raw ;;
    Ok (mkResult transformedTransactions finalBalance)
  end.

End Cal.

(** A file's content, by what the parsing library makes of it: the result of
    [Papa.parse] for text, of [XLSX.read] for an [ArrayBuffer] (an exception
    when the bytes are no workbook). *)
Inductive content (T B : Type) : Type :=
| Text (parsed : T)
| Binary (parsed : outcome B).
Arguments Text {T B} parsed.
Arguments Binary {T B} parsed.

Definition Error (message : string) : exn := ErrorObj (u message).

(** [analyzeCalFile(content, fileName)] *)
Definition analyzeCalFile {T} (c : content T (list (list jsval)))
  : outcome AnalysisResult :=
  match c with
  | Text _ => Throw (Error "Cal analyzer only supports Excel files")
  | Binary parsed => sheetJson <- parsed ;; Cal.analyzeCalRows sheetJson
  end.

(** ** Isracard (utils/isracardAnalyzer.ts) *)

Module Isracard.

(** The transform of the date column.  [value.includes('/')] leaves at
    least two pieces, so [month.padStart] has a string to work on; the
    year is [undefined] when there are only two. *)
Definition date_transform (value : jsval) : outcome jsval :=
  match value with
  | VStr s =>
    if negb (truthy value) || negb (includes s [slash]) then Ok value
    else
      match split_on slash s with
      | day :: month :: rest =>
        let year := elem (map VStr rest) 0 in
        Ok (VStr (ToString year ++ [dash] ++ padStart0 2 month ++ [dash]
                    ++ padStart0 2 day))
      | _ =>
        Throw (TypeError "Cannot read properties of undefined (reading 'padStart')")
      end
  | _ => Ok value
  end.

(** [Number((value * -1000).toFixed(2))] *)
Definition amount_transform (value : jsval) : outcome jsval :=
  Ok (VNum (Number_of_string (toFixed (num_mulZ (ToNumber value) (-1000)) 2))).

Definition ISRACARD_FIELD_MAPPINGS : list FieldMapping :=
  [ mkMapping (u "תאריך רכישה") (u "date") (Some date_transform);
    mkMapping (u "שם בית עסק") (u "payee_name") None;
    mkMapping (u "סכום חיוב") (u "amount") (Some amount_transform);
    mkMapping (u "פירוט נוסף") (u "memo") None ].

Definition header_cell (cell : jsval) : bool :=
  truthy cell &&
  match cell with
  | VStr s => includes s (u "תאריך רכישה") || includes s (u "שם בית עסק")
  | _ => false
  end.

(** [isIsracardFile], on the rows of [sheet_to_json(sheet, {header: 1})]. *)
Definition isIsracardFile (fileName : jsstring) (sheetJson : list (list jsval))
  : outcome jsval :=
  if negb (startsWith fileName (u "Export_")) then Ok VNull
  else
    match nth_error sheetJson 5 with
    | None =>
      Throw (TypeError "Cannot read properties of undefined (reading 'some')")
    | Some firstRow =>
      if existsb header_cell firstRow
      then Ok (elem (nth 3 sheetJson []) 0)
      else Ok VNull
    end.

(** [row[i] === 'text'] *)
Definition val_is (v : jsval) (s : jsstring) : bool :=
  match v with VStr t => str_eqb t s | _ => false end.

(** The header lines of the two tables of a statement. *)
Definition domestic_header (row : list jsval) : outcome bool :=
  Ok (val_is (elem row 0) (u "תאריך רכישה") && val_is (elem row 1) (u "שם בית עסק")).

Definition foreign_header (row : list jsval) : outcome bool :=
  Ok (val_is (elem row 0) (u "תאריך רכישה") && val_is (elem row 1) (u "תאריך חיוב")).

(** The rows of the table of purchases abroad: a row of daily totals is
    passed over ([continue]), a row without a first cell ends the table
    ([break]). *)
Fixpoint foreign_rows (rows : list (list jsval)) : list (list jsval) :=
  match rows with
  | [] => []
  | row :: rows' =>
    if val_is (elem row 2) (u "TOTAL FOR DATE") then foreign_rows rows'
    else
      match row with
      | [] => []
      | c :: _ => if truthy c then row :: foreign_rows rows' else []
      end
  end.

(** The payee of the line that sums a card up; the text has a quotation
    mark in it. *)
Definition total_marker : jsstring := u "סך חיוב בש" ++ [34%N] ++ u "ח".

(** [transformedRow.payee_name?.includes(marker)]: nothing to call on
    [undefined] and [null], a call of [undefined] on a number or a
    boolean. *)
Definition payee_is_total (payee_name : jsval) : outcome bool :=
  match payee_name with
  | VUndefined | VNull => Ok false
  | VStr s => Ok (includes s total_marker)
  | _ => Throw (TypeError "transformedRow.payee_name?.includes is not a function")
  end.

(** The callback of [transactions.map]; [None] is the [null] that the
    [filter] after it removes. *)
Definition transform_row (row : object jsval) : outcome (option (object jsval)) :=
  transformedRow <- forEach ISRACARD_FIELD_MAPPINGS (first_writer row) [] ;;
  total <- payee_is_total (prop transformedRow (u "payee_name")) ;;
  if total then Ok None
  else if isNaN (prop transformedRow (u "amount")) then Ok None
  else Ok (Some transformedRow).

(** The raw records under the header line at [start], if there is one. *)
Definition table (block : list (list jsval) -> list (list jsval))
           (sheetJson : list (list jsval)) (start : option nat)
  : list (object jsval) :=
  match start with
  | Some i =>
    map (raw_record (nth i sheetJson [])) (block (skipn (S i) sheetJson))
  | None => []
  end.

(** [analyzeIsracardFile], on the rows of
    [sheet_to_json(firstSheet, {header: 1})]. *)
Definition analyzeIsracardRows (sheetJson : list (list jsval))
  : outcome (list (object jsval)) :=
  domesticStartIndex <- findIndex domestic_header sheetJson 0 ;;
  foreignStartIndex <- findIndex foreign_header sheetJson 0 ;;
  let transactions :=
    table block_rows sheetJson domesticStartIndex
    ++ table foreign_rows sheetJson foreignStartIndex in
  rows <- mapM transform_row transactions ;;
  Ok (keep_rows rows).

End Isracard.

(** [analyzeIsracardFile(content, fileName)] *)
Definition analyzeIsracardFile {T} (c : content T (list (list jsval)))
  : outcome (list (object jsval)) :=
  match c with
  | Text _ => Throw (Error "Isracard analyzer only supports Excel files")
  | Binary parsed => sheetJson <- parsed ;; Isracard.analyzeIsracardRows sheetJson
  end.

(** ** Max (utils/maxAnalyzer.ts) *)

Module Max.

(** The transform of the date column. *)
Definition date_transform (value : jsval) : outcome jsval :=
  match value with
  | VStr s =>
    if negb (truthy value) || negb (includes s [dash]) then Ok value
    else
      match split_on dash s with
      | day :: month :: rest =>
        let year := elem (map VStr rest) 0 in
        Ok (VStr (ToString year ++ [dash] ++ padStart0 2 month ++ [dash]
                    ++ padStart0 2 day))
      | _ =>
        Throw (TypeError "Cannot read properties of undefined (reading 'padStart')")
      end
  | _ => Ok value
  end.

(** The transform of the amount column. *)
Definition amount_transform (value : jsval) : outcome jsval :=
  if negb (truthy value) then Ok VNull
  else
    match value with
    | VStr s =>
      let cleanValue :=
        remove_all (fun c => (c =? shekel)%N || is_space c || (c =? comma)%N) s in
      let num := parseFloat cleanValue in
      Ok (if num_is_nan num then VNull
          else VNum (Math_floor (num_mulZ num (-1000))))
    | VNum x => Ok (VNum (Math_round (num_mulZ x (-1000))))
    | _ => Ok VNull
    end.

Definition MAX_FIELD_MAPPINGS : list FieldMapping :=
  [ mkMapping (u "תאריך עסקה") (u "date") (Some date_transform);
    mkMapping (u "שם בית העסק") (u "payee_name") None;
    mkMapping (u "סכום חיוב") (u "amount") (Some amount_transform);
    mkMapping (u "הערות") (u "memo") None ].

Definition header_cell (cell : jsval) : bool :=
  truthy cell &&
  match cell with
  | VStr s => includes s (u "תאריך עסקה") || includes s (u "שם בית העסק")
  | _ => false
  end.

(** [isMaxFile] of utils/maxAnalyzer.ts, which answers with a boolean.
    [String.prototype.toLowerCase] is a parameter. *)
Definition isMaxFile (toLowerCase : jsstring -> jsstring)
           (fileName : jsstring) (sheetJson : list (list jsval)) : outcome jsval :=
  if negb (includes (toLowerCase fileName) (u "transaction-details_export_"))
  then Ok (VBool false)
  else
    match nth_error sheetJson 3 with
    | None =>
      Throw (TypeError "Cannot read properties of undefined (reading 'some')")
    | Some firstRow => Ok (VBool (existsb header_cell firstRow))
    end.

Definition val_is (v : jsval) (s : jsstring) : bool :=
  match v with VStr t => str_eqb t s | _ => false end.

(** The callback of [transactions.map]: [None] is the [null] that the
    [filter] after it removes. *)
Definition transform_row (row : object jsval) : outcome (option (object jsval)) :=
  transformedRow <- forEach MAX_FIELD_MAPPINGS (first_writer row) [] ;;
  if isNaN (prop transformedRow (u "amount")) then Ok None
  else Ok (Some transformedRow).

(** [processMaxSheet], on the rows of [sheet_to_json(sheet, {header: 1})]. *)
Definition processMaxSheet (sheetJson : list (list jsval))
  : outcome (list (object jsval)) :=
  headersIndex <-
    findIndex (fun row =>
                 Ok (val_is (elem row 0) (u "תאריך עסקה")
                     && val_is (elem row 1) (u "שם בית העסק")))
              sheetJson 0 ;;
  match headersIndex with
  | None => Ok []
  | Some hi =>
    let headers := nth hi sheetJson [] in
    let raw := map (raw_record headers) (block_rows (skipn (S hi) sheetJson)) in
    rows <- mapM transform_row raw ;;
    Ok (keep_rows rows)
  end.

End Max.

(** ** Bank Hapoalim (analyzers/poalimAnalyzer.ts) *)

Module Poalim.

(** [parseInt(value.replace('.', ''))] and the scaling by [k]. *)
Definition scaled_int (k : Z) (value : jsval) : outcome jsval :=
  if negb (truthy value) then Ok VNull
  else
    match value with
    | VStr s =>
      let num := parseInt (remove_first dot s) in
      Ok (if num_is_nan num then VNull else VNum (num_mulZ num k))
    | _ => Throw (TypeError "value.replace is not a function")
    end.

Definition debit_transform : jsval -> outcome jsval := scaled_int (-10).
Definition credit_transform : jsval -> outcome jsval := scaled_int 10.

Definition debit_column : jsstring := u "חובה".
Definition credit_column : jsstring := u "זכות".
Definition balance_column : jsstring := u "יתרה לאחר פעולה".

Definition POALIM_FIELD_MAPPINGS : list FieldMapping :=
  [ mkMapping (u "תאריך") (u "date") None;
    mkMapping (u "תיאור הפעולה") (u "payee_name") None;
    mkMapping (u "פרטים") (u "memo") None;
    mkMapping debit_column (u "amount") (Some debit_transform);
    mkMapping credit_column (u "amount") (Some credit_transform) ].

(** The callback of [result.data.map]. *)
Definition transform_row (row : object jsval) : outcome (object jsval) :=
  forEach POALIM_FIELD_MAPPINGS (first_writer row) [].

(** What [Papa.parse(content, { header: true, skipEmptyLines: true })]
    returns: the rows under the header names, and how many errors. *)
Record PapaResult : Type := mkPapa {
  data : list (object jsval);
  errors : nat;
  fields : list jsstring
}.

(** [analyzePoalimFile] *)
Definition analyzePoalimFile {B} (c : content PapaResult B) : outcome AnalysisResult :=
  match c with
  | Text result =>
    if 0 <? errors result then Throw (Error "Failed to parse CSV file")
    else
      txs <- mapM transform_row (data result) ;;
      match last (map Some (data result)) None with
      | None =>
        Throw (TypeError "Cannot read properties of undefined (reading 'יתרה לאחר פעולה')")
      | Some lastRow =>
        let cell := prop lastRow balance_column in
        Ok (mkResult txs
              (if truthy cell
               then VNum (parseFloat (remove_first comma (ToString cell)))
               else VNull))
      end
  | Binary _ => Throw (Error "POALIM analyzer only supports CSV files")
  end.

(** [s.substring(a, b)] for [a <= b]; both ends are cut to the length
    of [s]. *)
Definition substring (a b : nat) (s : jsstring) : jsstring :=
  firstn (b - a) (skipn a s).

Definition requiredHeaders : list jsstring :=
  [ u "תאריך"; u "תיאור הפעולה"; u "פרטים"; u "חובה"; u "זכות";
    u "יתרה לאחר פעולה" ].

(** [isPoalimFile] of utils/poalimAnalyzer.ts, on the name of the file
    and the names of its columns.  [String.prototype.toLowerCase] is a
    parameter. *)
Definition isPoalimFile (toLowerCase : jsstring -> jsstring)
           (fileName : jsstring) (headers : list jsstring) : jsval :=
  let isShekelFile := startsWith (toLowerCase fileName) (u "shekel") in
  let hasRequiredHeaders :=
    forallb (fun header => existsb (str_eqb header) headers) requiredHeaders in
  if isShekelFile && hasRequiredHeaders
  then VStr (substring 6 15 fileName)
  else VNull.

(** [array.join()] of strings. *)
Fixpoint join (l : list jsstring) : jsstring :=
  match l with
  | [] => []
  | [a] => a
  | a :: l' => a ++ [comma] ++ join l'
  end.

Definition header_line : jsstring :=
  u "תאריך,תיאור הפעולה,פרטים,חשבון,אסמכתא,תאריך ערך,חובה,זכות,יתרה לאחר פעולה,".

(** The detector that [getPoalimVendorInfo] of analyzers/poalimAnalyzer.ts
    registers, on what [analyzeCSVContent] hands it: the array of the
    parsed rows.  [Object.values] of the array are the rows, and [join]
    writes each row, a plain object, as [[object Object]]. *)
Definition isVendorFile_of_rows (toLowerCase : jsstring -> jsstring)
           (fileName : jsstring) (sheet : list (object jsval)) : jsval :=
  let headers := map (fun _ : object jsval => u "[object Object]") sheet in
  let isShekelFile := startsWith (toLowerCase fileName) (u "shekel") in
  let hasPoalimHeaders := str_eqb (join headers) header_line in
  if isShekelFile && hasPoalimHeaders
  then VStr (substring 6 15 fileName)
  else VNull.

End Poalim.

(** ** Workbooks

    What [XLSX.read] returns, as far as the analyzers look at it: the sheet
    names in order and the sheets by name; a sheet gives, for a cell
    reference such as [B1], the value [.v] of the cell there. *)

Definition sheet := object jsval.

Record workbook : Type := mkWorkbook {
  SheetNames : list jsstring;
  Sheets : object sheet
}.

(** [sheet[ref] && sheet[ref].v !== undefined] *)
Definition has_value (sh : sheet) (ref : jsstring) : bool :=
  negb (is_undefined (prop sh ref)).

(** ** Mizrahi Tfahot (analyzers/mizrahiTfahotAnalyzer.ts) *)

Module Mizrahi.

Definition date_transform (value : jsval) : outcome jsval :=
  match value with
  | VStr s =>
    if negb (truthy value) || negb (includes s [slash]) then Ok value
    else
      match split_on slash (trim s) with
      | day :: month :: rest =>
        let year := elem (map VStr rest) 0 in
        Ok (VStr (u "20" ++ ToString year ++ [dash] ++ padStart0 2 month
                    ++ [dash] ++ padStart0 2 day))
      | _ =>
        Throw (TypeError "Cannot read properties of undefined (reading 'padStart')")
      end
  | _ => Ok value
  end.

(** The debit ([k = -1000]) and credit ([k = 1000]) transforms:
    [Number((numericValue * k).toFixed(0))], 0 for an empty cell. *)
Definition milliunits (k : Z) (value : jsval) : outcome jsval :=
  if negb (truthy value) then Ok (VNum (num_of_Z 0))
  else
    match value with
    | VStr s =>
      if str_eqb (trim s) [] || str_eqb (trim s) (u "&nbsp;")
      then Ok (VNum (num_of_Z 0))
      else
        let numericValue := Number_of_string (remove_all (N.eqb comma) (trim s)) in
        Ok (VNum (Number_of_string (toFixed (num_mulZ numericValue k) 0)))
    | _ => Throw (TypeError "value.trim is not a function")
    end.

Definition debit_column : jsstring := u "חובה".
Definition credit_column : jsstring := u "זכות".

Definition MIZRAHI_TFAHOT_FIELD_MAPPINGS : list FieldMapping :=
  [ mkMapping (u "תאריך") (u "date") (Some date_transform);
    mkMapping (u "סוג תנועה") (u "payee_name") None;
    mkMapping debit_column (u "amount") (Some (milliunits (-1000)));
    mkMapping credit_column (u "amount") (Some (milliunits 1000));
    mkMapping (u "אסמכתא") (u "memo") None ].

(** [row[col] && String(row[col]).trim() !== ''] *)
Definition populated (row : object jsval) (col : jsstring) : bool :=
  truthy (prop row col) && negb (str_eqb (trim (ToString (prop row col))) []).

Definition initial_row : object jsval :=
  [ (u "date", VStr []); (u "amount", VNum (num_of_Z 0));
    (u "payee_name", VStr []); (u "memo", VStr []) ].

(** [transaction.amount === 0] *)
Definition amount_is_zero (t : object jsval) : bool :=
  match prop t (u "amount") with
  | VNum x => num_is_zero x
  | _ => false
  end.

(** [mapping.transform ? mapping.transform(String(value)) : value] *)
Definition apply_to_string (m : FieldMapping) (value : jsval) : outcome jsval :=
  match transform m with
  | Some f => f (VStr (ToString value))
  | None => Ok value
  end.

(** The second pass: [MAPPINGS.find((m) => m.source === col)] applied to
    the cell of [col] again. *)
Definition reapply (col : jsstring) (row t : object jsval) : outcome (object jsval) :=
  match find (fun m => str_eqb (source m) col) MIZRAHI_TFAHOT_FIELD_MAPPINGS with
  | Some m =>
    match transform m with
    | Some f =>
      v <- f (VStr (ToString (prop row col))) ;;
      Ok (obj_set t (u "amount") v)
    | None => Ok t
    end
  | None => Ok t
  end.

(** The body of [MIZRAHI_TFAHOT_FIELD_MAPPINGS.forEach]. *)
Definition apply_field (row : object jsval) (hasCredit hasDebit : bool)
           (t : object jsval) (mapping : FieldMapping) : outcome (object jsval) :=
  if str_eqb (source mapping) credit_column && hasDebit && negb hasCredit
  then Ok t
  else if str_eqb (source mapping) debit_column && hasCredit && negb hasDebit
  then Ok t
  else
    let value := prop row (source mapping) in
    if negb (is_undefined value)
    then v <- apply_to_string mapping value ;;
         Ok (obj_set t (target mapping) v)
    else Ok t.

(** The callback of [transactions.filter(...).map]. *)
Definition transform_row (row : object jsval) : outcome (object jsval) :=
  let hasCredit := populated row credit_column in
  let hasDebit := populated row debit_column in
  transaction <-
    forEach MIZRAHI_TFAHOT_FIELD_MAPPINGS (apply_field row hasCredit hasDebit)
            initial_row ;;
  if amount_is_zero transaction && hasCredit
  then reapply credit_column row transaction
  else if amount_is_zero transaction && hasDebit
  then reapply debit_column row transaction
  else Ok transaction.

(** [transformTransactions]; an entry [None] is a [null] or [undefined]
    in the list, which the filter removes. *)
Definition transformTransactions (rows : list (option (object jsval)))
  : outcome (list (object jsval)) :=
  mapM transform_row (keep_rows rows).

(** [findBalanceInWorkbook]; the [catch] gives [null] when the second
    sheet is not in [workbook.Sheets]. *)
Definition findBalanceInWorkbook (wb : workbook) : jsval :=
  match SheetNames wb with
  | _ :: second :: _ =>
    match obj_get (Sheets wb) second with
    | Some transactionSheet =>
      if has_value transactionSheet (u "B1")
      then prop transactionSheet (u "B1")
      else VNull
    | None => VNull
    end
  | _ => VNull
  end.

Definition is_null (v : jsval) : bool :=
  match v with VNull => true | _ => false end.

(** [extractBalanceFromCell] *)
Definition extractBalanceFromCell (value : jsval) : jsval :=
  match value with
  | VNum x => VNum x
  | VStr s =>
    let numericValue :=
      Number_of_string
        (remove_all (fun c => negb (is_digit c || (c =? dot)%N || (c =? dash)%N)) s) in
    if negb (num_is_nan numericValue) then VNum numericValue
    else VNum (num_of_Z 0)
  | _ => VNull
  end.

(** The texts that mark a statement of the bank. *)
Definition marks_statement (cellValue : jsval) : bool :=
  match cellValue with
  | VStr s =>
    includes s (u "יתרה ותנועות בחשבון") || includes s (u "מספר חשבון:")
    || includes s (u "מזרחי טפחות")
  | _ => false
  end.

(** [x || fallback] on strings that may be [undefined]. *)
Definition or_else (x : jsval) (fallback : jsstring) : jsstring :=
  match x with
  | VStr (c :: s) => c :: s
  | _ => fallback
  end.

(** [sheet[ref]?.v?.toString()] *)
Definition cell_text (sh : sheet) (ref : jsstring) : jsval :=
  match prop sh ref with
  | VUndefined | VNull => VUndefined
  | v => VStr (ToString v)
  end.

(** [isMizrahiTfahotFile], on the sheet and on the rows that
    [sheet_to_json(sheet, { header: 'A', raw: false })] gives for it: the
    cells of each row under the letters of their columns. *)
Definition isMizrahiTfahotFile (sh : option sheet) (data : list (object jsval))
  : jsval :=
  match sh with
  | Some sh =>
    if existsb (fun row => existsb (fun kv => marks_statement (snd kv)) row) data
    then VStr (or_else (cell_text sh (u "B3")) (u "Mizrahi Tfahot Account"))
    else
      match prop sh (u "A1") with
      | VStr htmlContent =>
        if truthy (VStr htmlContent)
           && includes htmlContent (u "יתרה ותנועות בחשבון")
           && (includes htmlContent (u "מספר חשבון:")
               || includes htmlContent (u "יתרה בחשבון"))
        then VStr (u "Mizrahi Tfahot Account Statement")
        else VNull
      | _ => VNull
      end
  | None => VNull
  end.

Section Analyze.

(** [extractTransactionsFromWorkbook], whose body is one [try] that
    answers [[]] in its [catch]: it returns a list whatever the workbook. *)
Variable extractTransactionsFromWorkbook : workbook -> list (option (object jsval)).

(** [analyzeMizrahiTfahotFile].  The [console.table] call reads
    [workbook.Sheets[name]['!ref']] for every sheet name, inside the
    [try]. *)
Definition analyzeMizrahiTfahotFile {T} (c : content T workbook)
  : outcome AnalysisResult :=
  match c with
  | Binary parsed =>
    let failed := Throw (Error "Failed to process Mizrahi Tfahot Excel file") in
    match parsed with
    | Ok wb =>
      if forallb (fun name => match obj_get (Sheets wb) name with
                              | Some _ => true
                              | None => false
                              end) (SheetNames wb)
      then
        let finalBalance := findBalanceInWorkbook wb in
        let transactions := extractTransactionsFromWorkbook wb in
        transformedTransactions <- transformTransactions transactions ;;
        Ok (mkResult transformedTransactions
              (if is_null finalBalance then VNum (num_of_Z 0) else finalBalance))
      else failed
    | Throw _ => failed
    end
  | Text _ => Throw (Error "Mizrahi Tfahot analyzer expects an Excel file")
  end.

End Analyze.

Section Extract.

(** The functions of the library that the extraction calls:
    [XLSX.utils.decode_range(ref).e], the last row and the last column of
    the range ([None] when the call throws);
    [XLSX.utils.encode_cell({ r, c })]; and
    [XLSX.utils.sheet_to_json(sheet, { raw: false })]. *)
Variable decode_range : jsstring -> option (nat * nat).
Variable encode_cell : nat -> nat -> jsstring.
Variable sheet_to_json : sheet -> list (option (object jsval)).

(** The texts of the cells of row [r] that have a value, in the columns
    before [bound]:
    [for (let c = 0; c < Math.min(sheetRange.e.c, 15); c++)]. *)
Definition headers_row (sh : sheet) (bound r : nat) : list jsstring :=
  flat_map (fun c =>
              if has_value sh (encode_cell r c)
              then [ToString (prop sh (encode_cell r c))]
              else [])
           (seq 0 bound).

(** [array.includes(x)] on strings. *)
Definition array_includes (l : list jsstring) (x : jsstring) : bool :=
  existsb (str_eqb x) l.

Definition expected_headers (headersRow : list jsstring) : bool :=
  array_includes headersRow (u "תאריך")
  && (array_includes headersRow (u "סוג תנועה")
      || array_includes headersRow (u "פרטים"))
  && (array_includes headersRow debit_column
      || array_includes headersRow credit_column).

(** The scan for the header line: the line found and the row after it. *)
Fixpoint find_headers (sh : sheet) (bound : nat) (rows : list nat)
  : option (list jsstring * nat) :=
  match rows with
  | [] => None
  | r :: rows' =>
    let headersRow := headers_row sh bound r in
    if expected_headers headersRow then Some (headersRow, S r)
    else find_headers sh bound rows'
  end.

(** [headers.indexOf(x)], [None] for -1. *)
Fixpoint indexOf (l : list jsstring) (x : jsstring) (i : nat) : option nat :=
  match l with
  | [] => None
  | h :: l' => if str_eqb h x then Some i else indexOf l' x (S i)
  end.

(** The value of the cell of row [r] in the column [index], if there is
    such a column. *)
Definition cell_at (sh : sheet) (r : nat) (index : option nat) : jsval :=
  match index with
  | Some c => prop sh (encode_cell r c)
  | None => VUndefined
  end.

(** [if (sheet[ref] && sheet[ref].v) row[key] = ...], the value as it is
    or as a text. *)
Definition put (as_text : bool) (key : jsstring) (v : jsval) (row : object jsval)
  : object jsval :=
  if truthy v then obj_set row key (if as_text then VStr (ToString v) else v)
  else row.

(** The body of the loop over the rows below the header line; [None] is a
    row that is not pushed. *)
Definition transaction_of (sh : sheet) (headers : list jsstring) (r : nat)
  : option (object jsval) :=
  let dateIndex := indexOf headers (u "תאריך") 0 in
  let payeeIndex :=
    match indexOf headers (u "סוג תנועה") 0 with
    | Some i => Some i
    | None => indexOf headers (u "פרטים") 0
    end in
  let debitIndex := indexOf headers debit_column 0 in
  let creditIndex := indexOf headers credit_column 0 in
  let memoIndex := indexOf headers (u "אסמכתא") 0 in
  let transactionRow := put true (u "תאריך") (cell_at sh r dateIndex) [] in
  if negb (truthy (prop transactionRow (u "תאריך"))) then None
  else
    let transactionRow :=
      put true (u "סוג תנועה") (cell_at sh r payeeIndex) transactionRow in
    let transactionRow :=
      put false debit_column (cell_at sh r debitIndex) transactionRow in
    let transactionRow :=
      put false credit_column (cell_at sh r creditIndex) transactionRow in
    let transactionRow :=
      put true (u "אסמכתא") (cell_at sh r memoIndex) transactionRow in
    if truthy (prop transactionRow (u "תאריך"))
       && (truthy (prop transactionRow debit_column)
           || truthy (prop transactionRow credit_column))
    then Some transactionRow
    else None.

(** The extraction from the sheet of the transactions.  The key [!ref] of
    a sheet holds its range, a text. *)
Definition extract_sheet (transactionSheet : sheet) : list (option (object jsval)) :=
  match prop transactionSheet (u "!ref") with
  | VStr ref =>
    if truthy (VStr ref) then
      match decode_range ref with
      | Some (er, ec) =>
        match find_headers transactionSheet (Nat.min ec 15) (seq 0 (Nat.min er 20)) with
        | Some (headers, startRow) =>
          map Some
              (keep_rows (map (transaction_of transactionSheet headers)
                              (seq startRow (S er - startRow))))
        | None => sheet_to_json transactionSheet
        end
      | None => []
      end
    else []
  | _ => []
  end.

(** [extractTransactionsFromWorkbook] *)
Definition extractTransactionsFromWorkbook (wb : workbook)
  : list (option (object jsval)) :=
  let transactionSheetIndex :=
    if 1 <? List.length (SheetNames wb) then 1 else 0 in
  match obj_get (Sheets wb)
                (nth transactionSheetIndex (SheetNames wb) (u "undefined")) with
  | Some transactionSheet => extract_sheet transactionSheet
  | None => []
  end.

End Extract.

End Mizrahi.

(** ** Discount (src/unnamed/part_017, discountAnalyzer.ts) *)

Module Discount.

(** [isDiscountFile] *)
Definition isDiscountFile (fileName : jsstring) (sh : option sheet) : jsval :=
  match sh with
  | Some sh =>
    if startsWith fileName (u "עובר ושב_")
       && match prop sh (u "A1") with
          | VStr s => str_eqb s (u "עובר ושב")
          | _ => false
          end
    then
      let accountInfo :=
        if truthy (prop sh (u "A2")) then prop sh (u "A2")
        else VStr (u "Discount Account") in
      VStr (ToString accountInfo)
    else VNull
  | None => VNull
  end.

(** The transform of the amount column, which holds credits and debits
    with their signs. *)
Definition amount_transform (value : jsval) : outcome jsval :=
  if negb (truthy value) then Ok (VNum (num_of_Z 0))
  else
    match value with
    | VStr s =>
      if str_eqb (trim s) [] then Ok (VNum (num_of_Z 0))
      else
        let numericValue := Number_of_string (remove_all (N.eqb comma) s) in
        Ok (VNum (Number_of_string (toFixed (num_mulZ numericValue 1000) 0)))
    | _ => Throw (TypeError "value.trim is not a function")
    end.

Section Dates.

(** The date of an Excel serial number, written [YYYY-MM-DD]: the result
    of the arithmetic on [Date] in the first branch of the transform,
    which depends on the time zone. *)
Variable serial_date : number -> jsstring.

(** The transform of the date column. *)
Definition date_transform (value : jsval) : outcome jsval :=
  if negb (isNaN value) then Ok (VStr (serial_date (ToNumber value)))
  else
    match value with
    | VStr s =>
      if includes s [slash] then
        match split_on slash (trim s) with
        | [p0; p1; p2] =>
          let month := padStart0 2 p0 in
          let day := padStart0 2 p1 in
          let year := if (List.length p2 =? 2)%nat then u "20" ++ p2 else p2 in
          Ok (VStr (year ++ [dash] ++ month ++ [dash] ++ day))
        | _ => Ok value
        end
      else Ok value
    | _ => Ok value
    end.

End Dates.

(** [extractBalanceFromSheet]; [None] is a first sheet that is missing. *)
Definition extractBalanceFromSheet (sh : option sheet) : jsval :=
  match sh with
  | Some sh =>
    if has_value sh (u "E9") then
      match prop sh (u "E9") with
      | VNum x => VNum x
      | VStr s =>
        let numericString :=
          remove_all (fun c => negb (is_digit c || (c =? dot)%N || (c =? dash)%N)) s in
        let numericValue := Number_of_string numericString in
        if num_is_nan numericValue then VNull else VNum numericValue
      | _ => VNull
      end
    else VNull
  | None => VNull
  end.

Section Analyze.

(** [extractTransactionsFromSheet] (its body is one [try] whose [catch]
    only logs) and [transformTransactions] (a filter and a map whose
    transforms do not throw on the strings they are given). *)
Variable extractTransactionsFromSheet : option sheet -> list (object jsval).
Variable transformTransactions : list (object jsval) -> list (object jsval).

(** [analyzeDiscountFile]: text is read by [XLSX.read] as well. *)
Definition analyzeDiscountFile (c : content (outcome workbook) workbook)
  : outcome AnalysisResult :=
  let go (parsed : outcome workbook) (message : string) :=
    match parsed with
    | Ok wb =>
      let firstSheet := obj_get (Sheets wb) (nth 0 (SheetNames wb) (u "undefined")) in
      let finalBalance := extractBalanceFromSheet firstSheet in
      let transactions := extractTransactionsFromSheet firstSheet in
      Ok (mkResult (transformTransactions transactions)
            (if Mizrahi.is_null finalBalance then VNum (num_of_Z 0)
             else finalBalance))
    | Throw _ => Throw (Error message)
    end in
  match c with
  | Binary parsed => go parsed "Failed to process Discount bank file"%string
  | Text parsed => go parsed "Failed to process Discount bank CSV file"%string
  end.

End Analyze.

End Discount.

(** ** The tabs of a Max workbook (utils/maxAnalyzer.ts) *)

Section MaxWorkbook.

(** [XLSX.utils.sheet_to_json(sheet, { header: 1 })]; the sheet is
    [undefined] when the workbook has none of that name. *)
Variable sheet_to_json : option sheet -> list (list jsval).

(** The name of the tab of purchases abroad holds this text, which has
    two quotation marks in it. *)
Definition foreign_tab : jsstring :=
  u "חו" ++ [34%N] ++ u "ל ומט" ++ [34%N] ++ u "ח".

(** [analyzeMaxFile] *)
Definition analyzeMaxFile {T} (c : content T workbook)
  : outcome (list (object jsval)) :=
  match c with
  | Text _ => Throw (Error "Max analyzer only supports Excel files")
  | Binary parsed =>
    wb <- parsed ;;
    let domesticSheet :=
      obj_get (Sheets wb) (nth 0 (SheetNames wb) (u "undefined")) in
    domesticTransactions <-
      match domesticSheet with
      | Some _ => Max.processMaxSheet (sheet_to_json domesticSheet)
      | None => Ok []
      end ;;
    foreignTransactions <-
      match find (fun name => includes name foreign_tab) (SheetNames wb) with
      | Some foreignSheetName =>
        Max.processMaxSheet (sheet_to_json (obj_get (Sheets wb) foreignSheetName))
      | None => Ok []
      end ;;
    Ok (domesticTransactions ++ foreignTransactions)
  end.

End MaxWorkbook.

(** ** The normalization pipeline *)

(** A reference that can be [undefined], [null] or set. *)
Inductive maybe (A : Type) : Type :=
| Undefined
| Null
| Just (a : A).
Arguments Undefined {A}.
Arguments Null {A}.
Arguments Just {A} a.

(** A promise, by how it settles: [Ok] fulfilled, [Throw] rejected. *)
Definition Promise (A : Type) : Type := outcome A.

(** [Promise.all]: the values in the order of the promises, or a rejection. *)
Definition Promise_all {A : Type} (ps : list (Promise A)) : Promise (list A) :=
  mapM (fun p => p) ps.

(** [error instanceof Error ? error.message : 'Unknown error occurred'] *)
Definition message_of (e : exn) : jsstring :=
  match e with
  | ErrorObj message => message
  | Thrown _ => u "Unknown error occurred"
  end.

(** [try { ... } catch (error) { handler }] *)
Definition try_catch {A} (body : outcome A) (handler : exn -> outcome A) : outcome A :=
  match body with
  | Ok a => Ok a
  | Throw e => handler e
  end.

Section Vendors.

(** [Content] is what an analyzer is handed (the text or the [ArrayBuffer]),
    [Sheet] what a detector is handed, [Data] what an analysis resolves to. *)
Variables Content Sheet Data : Type.

Record VendorInfo : Type := mkVendor {
  name : jsstring;
  confidence : number;
  uniqueIdentifiers : list jsstring;
  fieldMappings : list FieldMapping;
  analyzeFile : option (Content -> jsstring -> Promise Data);
  isVendorFile : option (jsstring -> Sheet -> outcome jsval)
}.

Record FileAnalysis : Type := mkAnalysis {
  fileName : jsstring;
  vendorInfo : maybe VendorInfo;
  error : option jsstring;
  data : maybe Data;
  fa_finalBalance : jsval;
  identifier : maybe jsval
}.

(** The envelope of the [catch] clause of [analyzeFile]. *)
Definition failure (fileName : jsstring) (e : exn) : FileAnalysis :=
  mkAnalysis fileName Null (Some (message_of e)) Undefined VUndefined Null.

End Vendors.

Arguments mkVendor {Content Sheet Data}.
Arguments name {Content Sheet Data}.
Arguments analyzeFile {Content Sheet Data}.
Arguments isVendorFile {Content Sheet Data}.
Arguments mkAnalysis {Content Sheet Data}.
Arguments fileName {Content Sheet Data}.
Arguments vendorInfo {Content Sheet Data}.
Arguments error {Content Sheet Data}.
Arguments data {Content Sheet Data}.
Arguments fa_finalBalance {Content Sheet Data}.
Arguments identifier {Content Sheet Data}.
Arguments failure {Content Sheet Data}.

(** *** analyzers/fileAnalyzer.ts *)

Module Analyzers.

Section Pipeline.

Variables Buffer Data : Type.

(** A [File]: its name and how [file.text()] and [file.arrayBuffer()] settle. *)
Record File : Type := mkFile {
  file_name : jsstring;
  text : Promise jsstring;
  arrayBuffer : Promise Buffer
}.

Definition Content : Type := (jsstring + Buffer)%type.
Definition Vendor : Type := VendorInfo Content (list (object jsval)) Data.
Definition Analysis : Type := FileAnalysis Content (list (object jsval)) Data.

(** [Papa.parse(text, { header, skipEmptyLines: true, delimiter }).data],
    with and without a header row. *)
Variable papa_objects : jsstring -> jsstring -> outcome (list (object jsval)).
Variable papa_arrays : jsstring -> jsstring -> outcome (list (list jsval)).

Variable REGISTERED_ANALYZERS : list Vendor.

Variable toLowerCase : jsstring -> jsstring.

(** The workbook dispatcher, by its result or the exception of [XLSX.read]
    or of a detector. *)
Variable analyzeExcelContent :
  Buffer -> jsstring -> outcome (maybe Vendor * maybe jsval).

Variable finalBalance_of : Data -> jsval.

Definition count (c : N) (s : jsstring) : nat :=
  List.length (filter (N.eqb c) s).

(** [detectDelimiter].  The count is that of the matches of
    [new RegExp(delimiter, 'g')]; for ['|'] that regular expression is an
    alternation of two empty patterns, which matches once at every
    position of the line. *)
Definition detectDelimiter (csvText : jsstring) : jsstring :=
  let firstLine := nth 0 (split_on 10%N csvText) [] in
  let counts :=
    [ ([comma], count comma firstLine);
      ([59%N], count 59%N firstLine);
      ([9%N], count 9%N firstLine);
      ([124%N], S (List.length firstLine)) ] in
  fst (fold_left (fun best dc =>
                    if snd best <? snd dc then dc else best)
                 counts ([comma], 0)).

(** [headers.forEach((header, i) => { obj[header] = row[i]; })] *)
Fixpoint zip_headers (i : nat) (headers row : list jsval) (obj : object jsval)
  : object jsval :=
  match headers with
  | [] => obj
  | header :: hs =>
    zip_headers (S i) hs row (obj_set obj (ToString header) (elem row i))
  end.

(** The [for] loop over the registered analyzers. *)
Fixpoint dispatch (analyzers : list Vendor) (content fileName : jsstring)
         (results : list (object jsval)) : Promise Data :=
  match analyzers with
  | [] =>
    Throw (Error "Unknown file format. Could not determine bank or credit card format.")
  | analyzer :: rest =>
    isMatch <- match isVendorFile analyzer with
               | Some detect => detect fileName results
               | None => Throw (TypeError "analyzer.isVendorFile is not a function")
               end ;;
    if truthy isMatch then
      match analyzeFile analyzer with
      | Some f => f (inl content) fileName
      | None => Throw (TypeError "analyzer.analyzeFile is not a function")
      end
    else dispatch rest content fileName results
  end.

(** [analyzeCSVContent], an [async] function: what it throws rejects the
    promise it returns. *)
Definition analyzeCSVContent (content fileName : jsstring) : Promise Data :=
  let contentWithoutBOM :=
    match content with
    | 65279%N :: rest => rest
    | _ => content
    end in
  let detectedDelimiter := detectDelimiter contentWithoutBOM in
  results <-
    try_catch (papa_objects contentWithoutBOM detectedDelimiter)
      (fun e => Throw (ErrorObj (u "Failed to parse CSV file: "
                                   ++ match e with
                                      | ErrorObj m => m
                                      | Thrown v => ToString v
                                      end))) ;;
  let results :=
    if List.length results <? 2 then
      match papa_arrays contentWithoutBOM detectedDelimiter with
      | Ok (headers :: second :: more) =>
        map (fun row => zip_headers 0 headers row []) (second :: more)
      | _ => results
      end
    else results in
  dispatch REGISTERED_ANALYZERS content fileName results.

Definition is_excel_name (fileName : jsstring) : bool :=
  endsWith (toLowerCase fileName) (u ".xls")
  || endsWith (toLowerCase fileName) (u ".xlsx")
  || endsWith (toLowerCase fileName) (u ".xlsm").

(** The [try] block of [analyzeFile].  In the [.csv] branch the promise of
    [analyzeCSVContent] is not awaited: [analysis.vendorInfo] and
    [analysis.identifier] are properties of the promise object, hence
    [undefined], and the promise is left to settle on its own. *)
Definition analyzeFile_try (file : File) : outcome Analysis :=
  if endsWith (file_name file) (u ".csv") then
    content <- text file ;;
    let analysis := analyzeCSVContent content (file_name file) in
    Ok (mkAnalysis (file_name file) Undefined None Null VUndefined Undefined)
  else if is_excel_name (file_name file) then
    buffer <- arrayBuffer file ;;
    analysis <- analyzeExcelContent buffer (file_name file) ;;
    let '(vendorInfo, identifier) := analysis in
    match vendorInfo with
    | Just v =>
      match analyzeFile v with
      | Some f =>
        d <- f (inr buffer) (file_name file) ;;
        Ok (mkAnalysis (file_name file) vendorInfo None (Just d)
                       (finalBalance_of d) identifier)
      | None =>
        Ok (mkAnalysis (file_name file) vendorInfo None Null VUndefined identifier)
      end
    | _ =>
      Ok (mkAnalysis (file_name file) vendorInfo None Null VUndefined identifier)
    end
  else Ok (mkAnalysis (file_name file) Null None Null VUndefined Null).

(** [analyzeFile] *)
Definition analyzeFile (file : File) : Promise Analysis :=
  try_catch (analyzeFile_try file)
            (fun e => Ok (failure (file_name file) e)).

(** [analyzeFiles]: [Promise.all(files.map((file) => analyzeFile(file)))] *)
Definition analyzeFiles (files : list File) : Promise (list Analysis) :=
  Promise_all (map analyzeFile files).

End Pipeline.

End Analyzers.

(** *** utils/fileAnalyzer.ts *)

Module Utils.

Section Pipeline.

Variables Buffer Data : Type.

Definition Content : Type := (jsstring + Buffer)%type.
Definition Vendor : Type := VendorInfo Content (list jsstring) Data.

Variable toUpperCase : jsstring -> jsstring.

(** [getPoalimVendorInfo()] *)
Variable poalimVendorInfo : Vendor.

(** [VENDOR_IDENTIFIERS], each name with its patterns. *)
Definition VENDOR_IDENTIFIERS : list (jsstring * list jsstring) :=
  [ (u "AMAZON", [u "AMAZON"; u "AMZN"; u "AMAZON.COM"]);
    (u "STARBUCKS", [u "STARBUCKS"; u "SBUX"]);
    (u "NETFLIX", [u "NETFLIX"; u "NETFLIX.COM"]);
    (u "SPOTIFY", [u "SPOTIFY"; u "SPOTIFY USA"]);
    (u "APPLE", [u "APPLE"; u "APPLE.COM"; u "ITUNES"]);
    (u "GOOGLE", [u "GOOGLE"; u "GOOGLE *"; u "GOOGLE.COM"]) ].

(** [findVendorInText] *)
Definition findVendorInText (text : jsstring) : option Vendor :=
  let upperText := toUpperCase text in
  let hit (entry : jsstring * list jsstring) :=
    match find (fun pattern => includes upperText pattern) (snd entry) with
    | Some pattern =>
      Some (mkVendor (fst entry) (Fin 9 1) [pattern] [] None None)
    | None => None
    end in
  fold_right (fun entry later =>
                match hit entry with
                | Some v => Some v
                | None => later
                end) None VENDOR_IDENTIFIERS.

Definition commonColumns : list jsstring :=
  [u "description"; u "merchant"; u "vendor"; u "payee"; u "name"].

(** The scan of the common columns of the rows: the first cell that holds
    the text of a known vendor, with that vendor. *)
Fixpoint scan_columns (row : object jsval) (columns : list jsstring)
  : option (Vendor * jsstring) :=
  match columns with
  | [] => None
  | column :: rest =>
    match prop row column with
    | VStr value =>
      match (if truthy (VStr value) then findVendorInText value else None) with
      | Some v => Some (v, value)
      | None => scan_columns row rest
      end
    | _ => scan_columns row rest
    end
  end.

Fixpoint scan_rows (rows : list (object jsval)) : option (Vendor * jsstring) :=
  match rows with
  | [] => None
  | row :: rest =>
    match scan_columns row commonColumns with
    | Some hit => Some hit
    | None => scan_rows rest
    end
  end.

(** [analyzeCSVContent], on what [Papa.parse(content, { header: true,
    skipEmptyLines: true })] returns for the content. *)
Definition analyzeCSVContent (result : Poalim.PapaResult) (fileName : jsstring)
  : outcome (maybe Vendor * maybe jsval) :=
  if 0 <? Poalim.errors result then Ok (Null, Null)
  else
    poalimIdentifier <-
      match isVendorFile poalimVendorInfo with
      | Some detect => detect fileName (Poalim.fields result)
      | None => Ok VUndefined
      end ;;
    if truthy poalimIdentifier
    then Ok (Just poalimVendorInfo, Just poalimIdentifier)
    else
      match scan_rows (Poalim.data result) with
      | Some (v, value) => Ok (Just v, Just (VStr value))
      | None => Ok (Null, Null)
      end.

Definition Analysis : Type := FileAnalysis Content (list jsstring) Data.

Variable toLowerCase : jsstring -> jsstring.

(** [Papa.parse(content, { header: true, skipEmptyLines: true })], or the
    exception it throws. *)
Variable papa : jsstring -> outcome Poalim.PapaResult.

(** The workbook dispatcher, by its result or the exception of [XLSX.read]
    or of a detector. *)
Variable analyzeExcelContent :
  Buffer -> jsstring -> outcome (maybe Vendor * maybe jsval).

(** [data?.finalBalance] *)
Variable finalBalance_of : Data -> jsval.

(** The steps that the two branches of [analyzeFile] share: the call of
    the vendor's analyzer, when the vendor has one, and the record. *)
Definition analysed (fileName : jsstring) (content : Content)
           (analysis : maybe Vendor * maybe jsval) : outcome Analysis :=
  let '(vendorInfo, identifier) := analysis in
  match vendorInfo with
  | Just v =>
    match analyzeFile v with
    | Some f =>
      d <- f content fileName ;;
      Ok (mkAnalysis fileName vendorInfo None (Just d) (finalBalance_of d) identifier)
    | None => Ok (mkAnalysis fileName vendorInfo None Null VUndefined identifier)
    end
  | _ => Ok (mkAnalysis fileName vendorInfo None Null VUndefined identifier)
  end.

(** The [try] block of [analyzeFile]. *)
Definition analyzeFile_try (file : Analyzers.File Buffer) : outcome Analysis :=
  let name := Analyzers.file_name Buffer file in
  if endsWith name (u ".csv") then
    content <- Analyzers.text Buffer file ;;
    result <- papa content ;;
    analysis <- analyzeCSVContent result name ;;
    analysed name (inl content) analysis
  else if endsWith (toLowerCase name) (u ".xls")
          || endsWith (toLowerCase name) (u ".xlsx")
          || endsWith (toLowerCase name) (u ".xlsm")
  then
    buffer <- Analyzers.arrayBuffer Buffer file ;;
    analysis <- analyzeExcelContent buffer name ;;
    analysed name (inr buffer) analysis
  else Ok (mkAnalysis name Null None Null VUndefined Null).

(** [analyzeFile] *)
Definition analyzeFile (file : Analyzers.File Buffer) : Promise Analysis :=
  try_catch (analyzeFile_try file)
            (fun e => Ok (failure (Analyzers.file_name Buffer file) e)).

(** [analyzeFiles] *)
Definition analyzeFiles (files : list (Analyzers.File Buffer))
  : Promise (list Analysis) :=
  Promise_all (map analyzeFile files).

End Pipeline.

End Utils.

(** ** The upload component (components/FileUploadWithYNAB.tsx) *)

Module Upload.

(** What an analysis resolves to.  The analyzers of Isracard and Max in
    utils return the array of the rows; the others return an object with
    the rows and the balance. *)
Inductive Data : Type :=
| Rows (rows : list (object jsval))
| Result (r : AnalysisResult).

(** [analysis?.data?.transactions] *)
Definition data_transactions (d : maybe Data) : option (list (object jsval)) :=
  match d with
  | Just (Result r) => Some (transactions r)
  | _ => None
  end.

(** [analysis?.data?.finalBalance] *)
Definition data_finalBalance (d : maybe Data) : jsval :=
  match d with
  | Just (Result r) => finalBalance r
  | _ => VUndefined
  end.

Definition value_of (m : maybe jsval) : jsval :=
  match m with
  | Just v => v
  | Null => VNull
  | Undefined => VUndefined
  end.

Section Found.

Variables Content Sheet : Type.

(** What the component's [analyzeFile] returns for the analysis of a
    file: [identifier: analysis?.identifier], ... *)
Definition found_identifier (analysis : FileAnalysis Content Sheet Data) : jsval :=
  value_of (identifier analysis).

(** ... [transactions: analysis?.data?.transactions], and with their
    number [rowCount], ... *)
Definition found_transactions (analysis : FileAnalysis Content Sheet Data)
  : option (list (object jsval)) :=
  data_transactions (data analysis).

(** ... and [analysis?.finalBalance || analysis?.data?.finalBalance]. *)
Definition found_finalBalance (analysis : FileAnalysis Content Sheet Data) : jsval :=
  if truthy (fa_finalBalance analysis) then fa_finalBalance analysis
  else data_finalBalance (data analysis).

End Found.

(** [FileWithYNAB]: the file by its name, the budget, the account (a
    string, or [undefined] when no account is stored for the identifier)
    and what the analysis found. *)
Record FileWithYNAB : Type := mkEntry {
  file_name : jsstring;
  budgetId : jsstring;
  accountId : jsval;
  identifier : jsval;
  rowCount : option nat;
  transactions : option (list (object jsval));
  finalBalance : jsval
}.

Section Entries.

Variables Content Sheet : Type.

(** The entry that [handleDrop] and [handleFileSelect] make of an analysed
    file:
    [accountId = identifier ? storedMappings[identifier] : '';
     budgetId = primaryBudget?.id || ''].  [primaryBudgetId] is that
    budget id. *)
Definition entry_of (storedMappings : object jsval) (primaryBudgetId : jsstring)
           (analysis : FileAnalysis Content Sheet Data) : FileWithYNAB :=
  let identifier := found_identifier Content Sheet analysis in
  let transactions := found_transactions Content Sheet analysis in
  mkEntry (fileName analysis) primaryBudgetId
          (if truthy identifier then prop storedMappings (ToString identifier)
           else VStr [])
          identifier
          (option_map (@List.length _) transactions)
          transactions
          (found_finalBalance Content Sheet analysis).

End Entries.

(** What [handleSendToYNAB] remembers of an account that a file uses. *)
Record UsedAccount : Type := mkUsed {
  used_budgetId : jsstring;
  used_accountId : jsval;
  used_fileName : jsstring;
  used_finalBalance : jsval
}.

(** [`${file.budgetId}_${file.accountId}`] *)
Definition account_key (file : FileWithYNAB) : jsstring :=
  budgetId file ++ u "_" ++ ToString (accountId file).

(** [file.transactions && file.budgetId && file.accountId] *)
Definition ready (file : FileWithYNAB) : bool :=
  match transactions file with
  | Some _ => truthy (VStr (budgetId file)) && truthy (accountId file)
  | None => false
  end.

(** [{ ...t, account_id: file.accountId }] for the transactions of a file. *)
Definition transactionsWithAccount (file : FileWithYNAB) : list (object jsval) :=
  match transactions file with
  | Some txs => map (fun t => obj_set t (u "account_id") (accountId file)) txs
  | None => []
  end.

(** The body of the first [files.forEach] of [handleSendToYNAB], on the
    two objects it fills. *)
Definition group_file
           (st : object (list (object jsval)) * object UsedAccount)
           (file : FileWithYNAB)
  : object (list (object jsval)) * object UsedAccount :=
  let '(transactionsByBudget, usedAccounts) := st in
  if ready file then
    let transactionsByBudget :=
      match obj_get transactionsByBudget (budgetId file) with
      | Some _ => transactionsByBudget
      | None => obj_set transactionsByBudget (budgetId file) []
      end in
    let transactionsByBudget :=
      match obj_get transactionsByBudget (budgetId file) with
      | Some sofar =>
        obj_set transactionsByBudget (budgetId file)
                (sofar ++ transactionsWithAccount file)
      | None => transactionsByBudget
      end in
    let key := account_key file in
    let usedAccounts :=
      match obj_get usedAccounts key with
      | Some _ => usedAccounts
      | None =>
        obj_set usedAccounts key
                (mkUsed (budgetId file) (accountId file) (file_name file)
                        (finalBalance file))
      end in
    (transactionsByBudget, usedAccounts)
  else st.

(** The transactions to send, by budget, and the accounts to report on. *)
Definition group_files (files : list FileWithYNAB)
  : object (list (object jsval)) * object UsedAccount :=
  fold_left group_file files ([], []).

(** The second [files.forEach]:
    [if (file.identifier && file.accountId)
       storedMappings[file.identifier] = file.accountId;] *)
Definition store_mappings (files : list FileWithYNAB) (storedMappings : object jsval)
  : object jsval :=
  fold_left (fun m file =>
               if truthy (identifier file) && truthy (accountId file)
               then obj_set m (ToString (identifier file)) (accountId file)
               else m)
            files storedMappings.

End Upload.

(** * Properties *)

Local Open Scope Z_scope.

(** ** Strings and objects *)

Lemma str_eqb_eq (a b : jsstring) : str_eqb a b = true <-> a = b.
Proof.
  unfold str_eqb. destruct (list_eq_dec N.eq_dec a b); split; congruence.
Qed.

Lemma str_eqb_refl (a : jsstring) : str_eqb a a = true.
Proof. now apply str_eqb_eq. Qed.

Lemma str_eqb_neq (a b : jsstring) : a <> b -> str_eqb a b = false.
Proof.
  intros H. destruct (str_eqb a b) eqn:E; [|reflexivity].
  apply str_eqb_eq in E. contradiction.
Qed.

Lemma obj_get_set_same {A} (o : object A) (k : jsstring) (v : A) :
  obj_get (obj_set o k v) k = Some v.
Proof.
  induction o as [|[k' v'] o IH]; simpl.
  - now rewrite str_eqb_refl.
  - destruct (str_eqb k' k) eqn:E; simpl; rewrite E; auto.
Qed.

Lemma obj_get_set_other {A} (o : object A) (k k' : jsstring) (v : A) :
  k <> k' -> obj_get (obj_set o k v) k' = obj_get o k'.
Proof.
  intros N. induction o as [|[k0 v0] o IH]; simpl.
  - now rewrite (str_eqb_neq k k').
  - destruct (str_eqb k0 k) eqn:E; simpl.
    + apply str_eqb_eq in E. subst k0. now rewrite (str_eqb_neq k k').
    + destruct (str_eqb k0 k'); auto.
Qed.

Lemma prop_set_same (o : object jsval) (k : jsstring) (v : jsval) :
  prop (obj_set o k v) k = v.
Proof. unfold prop. now rewrite obj_get_set_same. Qed.

Lemma prop_set_other (o : object jsval) (k k' : jsstring) (v : jsval) :
  k <> k' -> prop (obj_set o k v) k' = prop o k'.
Proof. intros N. unfold prop. now rewrite obj_get_set_other. Qed.

(** ** Balance reconciliation *)



(** The inline report of FileUploadWithYNAB.tsx scales the file balance,
    given in currency units, to milliunits before the same subtraction. *)
Lemma inline_report_difference :
  forall (i n fn : jsstring) (b cb fb : Z),
    Reconcile.inline_difference (Reconcile.mkAccount i n b cb fn (Some fb))
    = Some (fb * 1000 - cb)
    /\ Reconcile.inline_difference (Reconcile.mkAccount i n b cb fn None) = None
    /\ Reconcile.inline_note
         (Reconcile.mkAccount i n b 14500000 fn (Some 14800))
       = Some Reconcile.extra_note.
Proof. intros. repeat split. Qed.

(** ** Date transforms *)

Lemma startsWith_single (s : jsstring) (c : N) :
  startsWith s [c] = match s with d :: _ => (c =? d)%N | [] => false end.
Proof.
  destruct s as [|d s]; simpl; [reflexivity|].
  destruct s; simpl; now rewrite andb_true_r.
Qed.

Lemma includes_single (s : jsstring) (c : N) :
  includes s [c] = true <-> In c s.
Proof.
  induction s as [|d s IH].
  - simpl. split; [discriminate | contradiction].
  - change (includes (d :: s) [c])
      with (startsWith (d :: s) [c] || includes s [c]).
    rewrite startsWith_single, orb_true_iff, IH, N.eqb_eq. simpl.
    split; intros [H|H]; auto.
Qed.

Lemma includes_single_false (s : jsstring) (c : N) :
  ~ In c s -> includes s [c] = false.
Proof.
  intros H. destruct (includes s [c]) eqn:E; [|reflexivity].
  apply includes_single in E. contradiction.
Qed.

Lemma split_on_head (sep : N) (a b : jsstring) :
  ~ In sep a -> split_on sep (a ++ sep :: b) = a :: split_on sep b.
Proof.
  induction a as [|c a IH]; intros H; simpl.
  - now rewrite N.eqb_refl.
  - destruct (N.eqb_spec c sep) as [->|N].
    + exfalso. apply H. now left.
    + rewrite IH; [reflexivity|]. intros I. apply H. now right.
Qed.

Lemma split_on_last (sep : N) (a : jsstring) :
  ~ In sep a -> split_on sep a = [a].
Proof.
  induction a as [|c a IH]; intros H; simpl; [reflexivity|].
  destruct (N.eqb_spec c sep) as [->|N].
  - exfalso. apply H. now left.
  - rewrite IH; [reflexivity|]. intros I. apply H. now right.
Qed.

(** The pieces of [d sep m sep y]. *)
Lemma split_three (sep : N) (d m y : jsstring) :
  ~ In sep d -> ~ In sep m -> ~ In sep y ->
  split_on sep (d ++ sep :: m ++ sep :: y) = [d; m; y].
Proof.
  intros Hd Hm Hy.
  rewrite split_on_head, split_on_head, split_on_last; auto.
Qed.

Definition all_digits (s : jsstring) : Prop := Forall (fun c => is_digit c = true) s.

Lemma digits_free_of (s : jsstring) (c : N) :
  all_digits s -> is_digit c = false -> ~ In c s.
Proof.
  intros H Hc I. unfold all_digits in H. rewrite Forall_forall in H.
  apply H in I. congruence.
Qed.

Lemma truthy_str (s : jsstring) : s <> [] -> truthy (VStr s) = true.
Proof. destruct s; [contradiction | reflexivity]. Qed.

Lemma truthy_joined (a b : jsstring) (c : N) : truthy (VStr (a ++ c :: b)) = true.
Proof. destruct a; reflexivity. Qed.

Lemma includes_joined (a b : jsstring) (c : N) : includes (a ++ c :: b) [c] = true.
Proof. apply includes_single, in_or_app. right. now left. Qed.

(** Two-digit padding, as the claim reads it. *)
Lemma padStart0_one (c : N) : padStart0 2 [c] = [48%N; c].
Proof. reflexivity. Qed.

Lemma padStart0_two (c d : N) (s : jsstring) : padStart0 2 (c :: d :: s) = c :: d :: s.
Proof. reflexivity. Qed.

(** C4, as the code has it.  For a day, a month and a year written in
    digits: Cal turns [D/M/Y] into [20Y-MM-DD], prefixing "20" whatever the
    length of the year; Isracard turns [D/M/Y] and Max turns [D-M-Y] into
    [Y-MM-DD], the year as it is written; day and month are padded to two
    digits.  A value that is not a string, or a string without the
    vendor's separator, is returned unchanged by all three, and Cal also
    returns a string unchanged when one of the first three components is
    empty or missing. *)
Theorem date_transforms_by_vendor :
  (forall d m y : jsstring,
      all_digits d -> all_digits m -> all_digits y ->
      d <> [] -> m <> [] -> y <> [] ->
      Cal.date_transform (VStr (d ++ slash :: m ++ slash :: y))
      = Ok (VStr (u "20" ++ y ++ [dash] ++ padStart0 2 m ++ [dash] ++ padStart0 2 d))
      /\ Isracard.date_transform (VStr (d ++ slash :: m ++ slash :: y))
         = Ok (VStr (y ++ [dash] ++ padStart0 2 m ++ [dash] ++ padStart0 2 d))
      /\ Max.date_transform (VStr (d ++ dash :: m ++ dash :: y))
         = Ok (VStr (y ++ [dash] ++ padStart0 2 m ++ [dash] ++ padStart0 2 d)))
  /\ (forall v : jsval,
         (forall s, v = VStr s -> ~ In slash s) ->
         Cal.date_transform v = Ok v /\ Isracard.date_transform v = Ok v)
  /\ (forall v : jsval,
         (forall s, v = VStr s -> ~ In dash s) ->
         Max.date_transform v = Ok v)
  /\ (forall d m y : jsstring,
         ~ In slash d -> ~ In slash m -> ~ In slash y ->
         d = [] \/ m = [] \/ y = [] ->
         Cal.date_transform (VStr (d ++ slash :: m ++ slash :: y))
         = Ok (VStr (d ++ slash :: m ++ slash :: y)))
  /\ (forall d m : jsstring,
         ~ In slash d -> ~ In slash m ->
         Cal.date_transform (VStr (d ++ slash :: m)) = Ok (VStr (d ++ slash :: m))).
Proof.
  split; [|split; [|split; [|split]]].
  - intros d m y Dd Dm Dy Nd Nm Ny.
    assert (Fs : forall s, all_digits s -> ~ In slash s)
      by (intros s H; now apply digits_free_of).
    assert (Fd : forall s, all_digits s -> ~ In dash s)
      by (intros s H; now apply digits_free_of).
    split; [|split].
    + unfold Cal.date_transform.
      rewrite truthy_joined, includes_joined. simpl negb. simpl orb.
      rewrite split_three by auto. cbn [map elem nth].
      rewrite !truthy_str by assumption. reflexivity.
    + unfold Isracard.date_transform.
      rewrite truthy_joined, includes_joined. simpl negb. simpl orb.
      rewrite split_three by auto. reflexivity.
    + unfold Max.date_transform.
      rewrite truthy_joined, includes_joined. simpl negb. simpl orb.
      rewrite split_three by auto. reflexivity.
  - intros v H. destruct v as [| | b | x | s]; try (split; reflexivity).
    unfold Cal.date_transform, Isracard.date_transform.
    rewrite (includes_single_false s slash) by (now apply H).
    rewrite orb_true_r. split; reflexivity.
  - intros v H. destruct v as [| | b | x | s]; try reflexivity.
    unfold Max.date_transform.
    rewrite (includes_single_false s dash) by (now apply H).
    now rewrite orb_true_r.
  - intros d m y Hd Hm Hy E. unfold Cal.date_transform.
    rewrite truthy_joined, includes_joined. simpl negb. simpl orb.
    rewrite split_three by auto. cbn [map elem nth].
    destruct E as [E|[E|E]]; subst; simpl truthy; simpl negb;
      rewrite ?orb_true_r; reflexivity.
  - intros d m Hd Hm. unfold Cal.date_transform.
    rewrite truthy_joined, includes_joined. simpl negb. simpl orb.
    rewrite split_on_head, split_on_last by auto. cbn [map elem nth].
    simpl truthy. simpl negb. rewrite ?orb_true_r. reflexivity.
Qed.

(** The transforms at the date 15 April 2025 in each vendor's format. *)
Lemma date_transforms_by_vendor_witness :
  Cal.date_transform (VStr (u "15/04/25")) = Ok (VStr (u "2025-04-15"))
  /\ Isracard.date_transform (VStr (u "15/04/2025")) = Ok (VStr (u "2025-04-15"))
  /\ Max.date_transform (VStr (u "15-04-2025")) = Ok (VStr (u "2025-04-15")).
Proof.
  assert (D : forall s, forallb is_digit s = true -> all_digits s).
  { intros s H. apply Forall_forall. now apply forallb_forall. }
  pose proof (proj1 date_transforms_by_vendor (u "15") (u "04") (u "25")
                (D (u "15") eq_refl) (D (u "04") eq_refl) (D (u "25") eq_refl)
                ltac:(discriminate) ltac:(discriminate) ltac:(discriminate)) as H2.
  pose proof (proj1 date_transforms_by_vendor (u "15") (u "04") (u "2025")
                (D (u "15") eq_refl) (D (u "04") eq_refl) (D (u "2025") eq_refl)
                ltac:(discriminate) ltac:(discriminate) ltac:(discriminate)) as H4.
  split; [exact (proj1 H2) | split].
  - exact (proj1 (proj2 H4)).
  - exact (proj2 (proj2 H4)).
Defined.

(** Against C4 as stated: Cal writes a four-digit year after "20",
    Isracard leaves a two-digit year as it is, and Max does not return a
    string with one separator unchanged. *)
Lemma date_transforms_counterexample :
  Cal.date_transform (VStr (u "15/04/2025")) = Ok (VStr (u "202025-04-15"))
  /\ Isracard.date_transform (VStr (u "15/04/25")) = Ok (VStr (u "25-04-15"))
  /\ Max.date_transform (VStr (u "invalid-date"))
     = Ok (VStr (u "undefined-date-invalid")).
Proof. repeat split. Qed.

(** ** Bank Hapoalim: which column gives the amount *)

Local Abbreviation amount := (u "amount").

(** The amount of a Poalim record, from the debit cell [D] and the credit
    cell [C] of its row ([undefined] for a missing column). *)
Definition poalim_amount (D C : jsval) : outcome jsval :=
  after_debit <- (if is_undefined D then Ok VUndefined else Poalim.debit_transform D) ;;
  if negb (is_undefined C) && negb (truthy after_debit)
  then Poalim.credit_transform C
  else Ok after_debit.

Lemma first_writer_other (row acc : object jsval) (src tgt : jsstring) :
  tgt <> amount ->
  exists acc', first_writer row acc (mkMapping src tgt None) = Ok acc'
               /\ prop acc' amount = prop acc amount.
Proof.
  intros N. unfold first_writer. simpl.
  destruct (negb (is_undefined (prop row src)) && negb (truthy (prop acc tgt))).
  - eexists. split; [reflexivity|]. now apply prop_set_other.
  - eexists. split; reflexivity.
Qed.

Lemma first_writer_amount (row acc : object jsval) (src : jsstring)
      (f : jsval -> outcome jsval) :
  first_writer row acc (mkMapping src amount (Some f))
  = if negb (is_undefined (prop row src)) && negb (truthy (prop acc amount))
    then v <- f (prop row src) ;; Ok (obj_set acc amount v)
    else Ok acc.
Proof. reflexivity. Qed.

Lemma poalim_amount_rule (row : object jsval) :
  match poalim_amount (prop row Poalim.debit_column) (prop row Poalim.credit_column) with
  | Ok a => exists t, Poalim.transform_row row = Ok t /\ prop t amount = a
  | Throw e => Poalim.transform_row row = Throw e
  end.
Proof.
  unfold Poalim.transform_row, Poalim.POALIM_FIELD_MAPPINGS.
  cbn [forEach].
  destruct (first_writer_other row [] (u "תאריך") (u "date")) as (a1 & E1 & P1);
    [vm_compute; discriminate|].
  rewrite E1. cbn [bind].
  destruct (first_writer_other row a1 (u "תיאור הפעולה") (u "payee_name"))
    as (a2 & E2 & P2); [vm_compute; discriminate|].
  rewrite E2. cbn [bind].
  destruct (first_writer_other row a2 (u "פרטים") (u "memo")) as (a3 & E3 & P3);
    [vm_compute; discriminate|].
  rewrite E3. cbn [bind].
  assert (U : prop a3 amount = VUndefined) by (rewrite P3, P2, P1; reflexivity).
  rewrite first_writer_amount, U. cbn [truthy negb]. rewrite andb_true_r.
  unfold poalim_amount.
  destruct (is_undefined (prop row Poalim.debit_column)) eqn:ED; cbn [negb bind].
  - (* no debit cell *)
    rewrite first_writer_amount, U. cbn [truthy negb]. rewrite !andb_true_r.
    destruct (negb (is_undefined (prop row Poalim.credit_column))).
    + destruct (Poalim.credit_transform (prop row Poalim.credit_column)) as [v|e];
        cbn [bind]; [|reflexivity].
      eexists. split; [reflexivity|]. apply prop_set_same.
    + eexists. split; [reflexivity|]. exact U.
  - destruct (Poalim.debit_transform (prop row Poalim.debit_column)) as [d|e];
      cbn [bind]; [|reflexivity].
    rewrite first_writer_amount, prop_set_same.
    destruct (negb (is_undefined (prop row Poalim.credit_column)) && negb (truthy d)).
    + destruct (Poalim.credit_transform (prop row Poalim.credit_column)) as [v|e];
        cbn [bind]; [|reflexivity].
      eexists. split; [reflexivity|]. apply prop_set_same.
    + eexists. split; [reflexivity|]. apply prop_set_same.
Qed.

Lemma poalim_falsy_cell (k : Z) (D : jsval) :
  truthy D = false -> Poalim.scaled_int k D = Ok VNull.
Proof. intros H. unfold Poalim.scaled_int. now rewrite H. Qed.

(** The amount when the debit cell is empty or missing: the credit cell's. *)
Lemma poalim_credit_only (row : object jsval) (c : jsstring) (a : jsval) :
  truthy (prop row Poalim.debit_column) = false ->
  prop row Poalim.credit_column = VStr c ->
  Poalim.credit_transform (VStr c) = Ok a ->
  exists t, Poalim.transform_row row = Ok t /\ prop t amount = a.
Proof.
  intros HD HC HA. pose proof (poalim_amount_rule row) as R.
  unfold poalim_amount in R. rewrite HC in R.
  destruct (is_undefined (prop row Poalim.debit_column)) eqn:EU; cbn [bind] in R.
  - cbn in R. rewrite HA in R. exact R.
  - unfold Poalim.debit_transform in R. rewrite (poalim_falsy_cell _ _ HD) in R.
    cbn in R. rewrite HA in R. exact R.
Qed.

(** The amount when the debit cell gives a number other than zero: that
    number, whatever the credit cell holds. *)
Lemma poalim_debit_first (row : object jsval) (d : jsstring) (a : jsval) :
  prop row Poalim.debit_column = VStr d ->
  Poalim.debit_transform (VStr d) = Ok a ->
  truthy a = true ->
  exists t, Poalim.transform_row row = Ok t /\ prop t amount = a.
Proof.
  intros HD HA HT. pose proof (poalim_amount_rule row) as R.
  unfold poalim_amount in R. rewrite HD in R. cbn [is_undefined] in R.
  rewrite HA in R. cbn [bind] in R. rewrite HT in R.
  cbn [negb] in R. rewrite andb_false_r in R. exact R.
Qed.

(** C2, as the code has it.  [parseInt(value.replace('.', '')) * 10] reads
    a cell with two decimals as milliunits: a credit cell "5000.00" gives
    5000000 and a debit cell "200.00" gives -200000; the cells "5000" and
    "200" of the claim give 50000 and -2000.  The credit cell decides when
    the debit cell is empty or missing, the debit cell whatever the credit
    cell holds. *)
Theorem poalim_credit_and_debit_amounts :
  forall row : object jsval,
    (truthy (prop row Poalim.debit_column) = false ->
     (prop row Poalim.credit_column = VStr (u "5000") ->
      exists t, Poalim.transform_row row = Ok t
                /\ prop t amount = VNum (num_of_Z 50000))
     /\ (prop row Poalim.credit_column = VStr (u "5000.00") ->
         exists t, Poalim.transform_row row = Ok t
                   /\ prop t amount = VNum (num_of_Z 5000000)))
    /\ (prop row Poalim.debit_column = VStr (u "200") ->
        exists t, Poalim.transform_row row = Ok t
                  /\ prop t amount = VNum (num_of_Z (-2000)))
    /\ (prop row Poalim.debit_column = VStr (u "200.00") ->
        exists t, Poalim.transform_row row = Ok t
                  /\ prop t amount = VNum (num_of_Z (-200000))).
Proof.
  intros row. split; [intros HD; split; intros HC | split; intros HD].
  - now apply (poalim_credit_only row (u "5000")).
  - now apply (poalim_credit_only row (u "5000.00")).
  - now apply (poalim_debit_first row (u "200")).
  - now apply (poalim_debit_first row (u "200.00")).
Qed.

(** The two rows of the statement in the specification's first scenario. *)
Definition salary_row : object jsval :=
  [ (u "תאריך", VStr (u "01/05/2025")); (u "תיאור הפעולה", VStr (u "משכורת"));
    (u "פרטים", VStr (u "העברה מחשבון 12345")); (u "חשבון", VStr []);
    (u "אסמכתא", VStr (u "123456")); (u "תאריך ערך", VStr (u "01/05/2025"));
    (Poalim.debit_column, VStr []); (Poalim.credit_column, VStr (u "5000"));
    (Poalim.balance_column, VStr (u "15000")) ].

Definition grocery_row : object jsval :=
  [ (u "תאריך", VStr (u "05/05/2025")); (u "תיאור הפעולה", VStr (u "סופרמרקט"));
    (u "פרטים", VStr (u "קניות לבית")); (u "חשבון", VStr []);
    (u "אסמכתא", VStr (u "654321")); (u "תאריך ערך", VStr (u "05/05/2025"));
    (Poalim.debit_column, VStr (u "200")); (Poalim.credit_column, VStr []);
    (Poalim.balance_column, VStr (u "14800")) ].

Lemma poalim_credit_and_debit_amounts_witness :
  (exists t, Poalim.transform_row salary_row = Ok t
             /\ prop t amount = VNum (num_of_Z 50000))
  /\ (exists t, Poalim.transform_row grocery_row = Ok t
                /\ prop t amount = VNum (num_of_Z (-2000))).
Proof.
  split.
  - exact (proj1 (proj1 (poalim_credit_and_debit_amounts salary_row) eq_refl) eq_refl).
  - exact (proj1 (proj2 (poalim_credit_and_debit_amounts grocery_row)) eq_refl).
Defined.

(** Against C2 as stated: the credit cell "5000" gives 50000, not 5000000,
    and the debit cell "200" gives -2000, not -200000. *)
Lemma poalim_amounts_counterexample :
  (exists t, Poalim.transform_row salary_row = Ok t
             /\ prop t amount = VNum (num_of_Z 50000)
             /\ prop t amount <> VNum (num_of_Z 5000000))
  /\ (exists t, Poalim.transform_row grocery_row = Ok t
                /\ prop t amount = VNum (num_of_Z (-2000))
                /\ prop t amount <> VNum (num_of_Z (-200000))).
Proof.
  split; eexists; (split; [vm_compute; reflexivity|]);
    split; [reflexivity | vm_compute; discriminate | reflexivity
            | vm_compute; discriminate].
Qed.

(** ** Mizrahi Tfahot: which column gives the amount *)

Lemma trimStart_keeps (c : N) (s : jsstring) :
  is_space c = false -> In c s -> In c (trimStart s).
Proof.
  intros Hc. induction s as [|d s IH]; simpl; [auto|].
  intros [E|I].
  - subst d. rewrite Hc. now left.
  - destruct (is_space d); [auto | now right].
Qed.

Lemma trim_keeps (c : N) (s : jsstring) :
  is_space c = false -> In c s -> In c (trim s).
Proof.
  intros Hc I. unfold trim. rewrite <- in_rev.
  apply trimStart_keeps; [assumption|]. rewrite <- in_rev.
  now apply trimStart_keeps.
Qed.

Lemma split_on_nonempty (sep : N) (s : jsstring) : split_on sep s <> [].
Proof.
  destruct s as [|c s]; simpl; [discriminate|].
  destruct (c =? sep)%N; [discriminate|].
  destruct (split_on sep s); discriminate.
Qed.

(** A string that holds the separator splits into two pieces at least. *)
Lemma split_on_two (sep : N) (s : jsstring) :
  In sep s -> exists a b rest, split_on sep s = a :: b :: rest.
Proof.
  induction s as [|c s IH]; [contradiction|].
  intros I. simpl. destruct (N.eqb_spec c sep) as [E|NE].
  - destruct (split_on sep s) as [|b rest] eqn:S.
    + exfalso. now apply (split_on_nonempty sep s).
    + now exists [], b, rest.
  - destruct I as [E|I]; [congruence|].
    destruct (IH I) as (a & b & rest & S). rewrite S.
    now exists (c :: a), b, rest.
Qed.

Lemma mizrahi_date_total (v : jsval) : exists r, Mizrahi.date_transform v = Ok r.
Proof.
  destruct v as [| | b | x | s]; try (eexists; reflexivity).
  unfold Mizrahi.date_transform.
  destruct (negb (truthy (VStr s)) || negb (includes s [slash])) eqn:E;
    [eexists; reflexivity|].
  apply orb_false_elim in E. destruct E as [_ E].
  apply negb_false_iff, includes_single in E.
  destruct (split_on_two slash (trim s)) as (a & b & rest & S).
  { now apply trim_keeps. }
  rewrite S. eexists. reflexivity.
Qed.

Lemma mizrahi_milliunits_total (k : Z) (s : jsstring) :
  exists x, Mizrahi.milliunits k (VStr s) = Ok (VNum x).
Proof.
  unfold Mizrahi.milliunits.
  destruct (negb (truthy (VStr s))); [eexists; reflexivity|].
  destruct (str_eqb (trim s) [] || str_eqb (trim s) (u "&nbsp;"));
    eexists; reflexivity.
Qed.

(** A mapping that neither reads the debit or credit column nor writes the
    amount leaves the amount as it is. *)
Lemma mizrahi_field_other (row t : object jsval) (hc hd : bool) (m : FieldMapping) :
  str_eqb (source m) Mizrahi.credit_column = false ->
  str_eqb (source m) Mizrahi.debit_column = false ->
  target m <> amount ->
  (forall f, transform m = Some f -> forall v, exists r, f v = Ok r) ->
  exists t', Mizrahi.apply_field row hc hd t m = Ok t'
             /\ prop t' amount = prop t amount.
Proof.
  intros E1 E2 NT TF. unfold Mizrahi.apply_field. rewrite E1, E2. cbn [andb].
  destruct (negb (is_undefined (prop row (source m)))).
  - unfold Mizrahi.apply_to_string.
    destruct (transform m) as [f|] eqn:F.
    + destruct (TF f eq_refl (VStr (ToString (prop row (source m))))) as (r & R).
      rewrite R. cbn [bind]. eexists. split; [reflexivity|].
      now apply prop_set_other.
    + cbn [bind]. eexists. split; [reflexivity|]. now apply prop_set_other.
  - eexists. split; reflexivity.
Qed.

Definition mizrahi_date : FieldMapping :=
  mkMapping (u "תאריך") (u "date") (Some Mizrahi.date_transform).
Definition mizrahi_payee : FieldMapping := mkMapping (u "סוג תנועה") (u "payee_name") None.
Definition mizrahi_debit : FieldMapping :=
  mkMapping Mizrahi.debit_column amount (Some (Mizrahi.milliunits (-1000))).
Definition mizrahi_credit : FieldMapping :=
  mkMapping Mizrahi.credit_column amount (Some (Mizrahi.milliunits 1000)).
Definition mizrahi_memo : FieldMapping := mkMapping (u "אסמכתא") (u "memo") None.

Lemma mizrahi_mappings :
  Mizrahi.MIZRAHI_TFAHOT_FIELD_MAPPINGS
  = [mizrahi_date; mizrahi_payee; mizrahi_debit; mizrahi_credit; mizrahi_memo].
Proof. reflexivity. Qed.

Ltac mizrahi_other t' H :=
  match goal with
  | |- context [Mizrahi.apply_field ?row ?hc ?hd ?t ?m] =>
    let E := fresh "E" in
    destruct (mizrahi_field_other row t hc hd m) as (t' & E & H);
    [ vm_compute; reflexivity | vm_compute; reflexivity
    | vm_compute; discriminate
    | let F := fresh "F" in
      intros ? F ?; inversion F; subst; try apply mizrahi_date_total
    | rewrite E; cbn [bind]; clear E ]
  end.

Lemma populated_defined (row : object jsval) (col : jsstring) :
  Mizrahi.populated row col = true -> is_undefined (prop row col) = false.
Proof.
  unfold Mizrahi.populated. intros H. apply andb_prop in H. destruct H as [H _].
  destruct (prop row col); [discriminate | reflexivity..].
Qed.

Lemma mizrahi_credit_field (row t : object jsval) (hc hd : bool) :
  Mizrahi.apply_field row hc hd t mizrahi_credit
  = if hd && negb hc then Ok t
    else if negb (is_undefined (prop row Mizrahi.credit_column))
         then v <- Mizrahi.milliunits 1000
                     (VStr (ToString (prop row Mizrahi.credit_column))) ;;
              Ok (obj_set t amount v)
         else Ok t.
Proof.
  unfold Mizrahi.apply_field, Mizrahi.apply_to_string.
  cbn [source target transform mizrahi_credit].
  rewrite str_eqb_refl.
  replace (str_eqb Mizrahi.credit_column Mizrahi.debit_column) with false
    by (vm_compute; reflexivity).
  reflexivity.
Qed.

Lemma mizrahi_debit_field (row t : object jsval) (hc hd : bool) :
  Mizrahi.apply_field row hc hd t mizrahi_debit
  = if hc && negb hd then Ok t
    else if negb (is_undefined (prop row Mizrahi.debit_column))
         then v <- Mizrahi.milliunits (-1000)
                     (VStr (ToString (prop row Mizrahi.debit_column))) ;;
              Ok (obj_set t amount v)
         else Ok t.
Proof.
  unfold Mizrahi.apply_field, Mizrahi.apply_to_string.
  cbn [source target transform mizrahi_debit].
  rewrite str_eqb_refl.
  replace (str_eqb Mizrahi.debit_column Mizrahi.credit_column) with false
    by (vm_compute; reflexivity).
  reflexivity.
Qed.

(** The debit and the credit step always go through. *)
Lemma mizrahi_debit_step (row t : object jsval) (hc hd : bool) :
  exists t', Mizrahi.apply_field row hc hd t mizrahi_debit = Ok t'.
Proof.
  rewrite mizrahi_debit_field.
  destruct (hc && negb hd); [eexists; reflexivity|].
  destruct (negb (is_undefined (prop row Mizrahi.debit_column)));
    [|eexists; reflexivity].
  destruct (mizrahi_milliunits_total (-1000)
              (ToString (prop row Mizrahi.debit_column))) as (x & X).
  rewrite X. eexists. reflexivity.
Qed.

Lemma mizrahi_credit_step (row t : object jsval) (hc hd : bool) :
  exists t', Mizrahi.apply_field row hc hd t mizrahi_credit = Ok t'.
Proof.
  rewrite mizrahi_credit_field.
  destruct (hd && negb hc); [eexists; reflexivity|].
  destruct (negb (is_undefined (prop row Mizrahi.credit_column)));
    [|eexists; reflexivity].
  destruct (mizrahi_milliunits_total 1000
              (ToString (prop row Mizrahi.credit_column))) as (x & X).
  rewrite X. eexists. reflexivity.
Qed.

Lemma mizrahi_reapply (row t : object jsval) (col : jsstring) (k : Z) (v : jsval) :
  (col = Mizrahi.credit_column /\ k = 1000)
  \/ (col = Mizrahi.debit_column /\ k = -1000) ->
  Mizrahi.milliunits k (VStr (ToString (prop row col))) = Ok v ->
  Mizrahi.reapply col row t = Ok (obj_set t amount v).
Proof.
  intros [[-> ->]|[-> ->]] H; unfold Mizrahi.reapply.
  - replace (find (fun m => str_eqb (source m) Mizrahi.credit_column)
                  Mizrahi.MIZRAHI_TFAHOT_FIELD_MAPPINGS)
      with (Some mizrahi_credit) by reflexivity.
    cbn [transform mizrahi_credit]. now rewrite H.
  - replace (find (fun m => str_eqb (source m) Mizrahi.debit_column)
                  Mizrahi.MIZRAHI_TFAHOT_FIELD_MAPPINGS)
      with (Some mizrahi_debit) by reflexivity.
    cbn [transform mizrahi_debit]. now rewrite H.
Qed.

(** A populated credit cell gives the amount, whatever the debit cell. *)
Lemma mizrahi_credit_wins (row : object jsval) (v : jsval) :
  Mizrahi.populated row Mizrahi.credit_column = true ->
  Mizrahi.milliunits 1000 (VStr (ToString (prop row Mizrahi.credit_column))) = Ok v ->
  exists t, Mizrahi.transform_row row = Ok t /\ prop t amount = v.
Proof.
  intros HC HV. unfold Mizrahi.transform_row. rewrite HC, mizrahi_mappings.
  cbn [forEach].
  mizrahi_other t1 P1. mizrahi_other t2 P2.
  destruct (mizrahi_debit_step row t2 true
              (Mizrahi.populated row Mizrahi.debit_column)) as (t3 & E3).
  rewrite E3. cbn [bind]. clear E3.
  rewrite mizrahi_credit_field. cbn [negb]. rewrite andb_false_r.
  rewrite (populated_defined _ _ HC). cbn [negb].
  rewrite HV. cbn [bind].
  mizrahi_other t5 P5.
  rewrite prop_set_same in P5.
  rewrite !andb_true_r.
  destruct (Mizrahi.amount_is_zero t5).
  - rewrite (mizrahi_reapply row t5 Mizrahi.credit_column 1000 v); auto.
    eexists. split; [reflexivity|]. apply prop_set_same.
  - cbn [andb]. eexists. split; [reflexivity|]. exact P5.
Qed.

(** A populated debit cell gives the amount when the credit cell is not
    populated. *)
Lemma mizrahi_debit_only (row : object jsval) (v : jsval) :
  Mizrahi.populated row Mizrahi.credit_column = false ->
  Mizrahi.populated row Mizrahi.debit_column = true ->
  Mizrahi.milliunits (-1000) (VStr (ToString (prop row Mizrahi.debit_column))) = Ok v ->
  exists t, Mizrahi.transform_row row = Ok t /\ prop t amount = v.
Proof.
  intros HC HD HV. unfold Mizrahi.transform_row. rewrite HC, HD, mizrahi_mappings.
  cbn [forEach].
  mizrahi_other t1 P1. mizrahi_other t2 P2.
  rewrite mizrahi_debit_field. cbn [negb andb].
  rewrite (populated_defined _ _ HD). cbn [negb].
  rewrite HV. cbn [bind].
  rewrite mizrahi_credit_field. cbn [negb andb bind].
  mizrahi_other t5 P5.
  rewrite prop_set_same in P5.
  rewrite !andb_false_r, !andb_true_r.
  destruct (Mizrahi.amount_is_zero t5).
  - rewrite (mizrahi_reapply row t5 Mizrahi.debit_column (-1000) v); auto.
    eexists. split; [reflexivity|]. apply prop_set_same.
  - eexists. split; [reflexivity|]. exact P5.
Qed.

(** ** Two columns for one amount *)

(** In Poalim a debit result of 0 or [null] gives way to the credit cell. *)
Lemma poalim_sentinel_overwritten (row : object jsval) (d c : jsstring) (a0 a : jsval) :
  prop row Poalim.debit_column = VStr d ->
  Poalim.debit_transform (VStr d) = Ok a0 ->
  truthy a0 = false ->
  prop row Poalim.credit_column = VStr c ->
  Poalim.credit_transform (VStr c) = Ok a ->
  exists t, Poalim.transform_row row = Ok t /\ prop t amount = a.
Proof.
  intros HD H0 HF HC HA. pose proof (poalim_amount_rule row) as R.
  unfold poalim_amount in R. rewrite HD, HC in R. cbn [is_undefined] in R.
  rewrite H0 in R. cbn [bind negb andb] in R. rewrite HF in R.
  cbn [negb] in R. rewrite HA in R. exact R.
Qed.

(** C5, as the code has it.  Poalim takes the mappings in order and lets
    the first result that is not 0 or [null] stand: the debit cell gives the
    amount when its result is such a number; the credit cell gives it when
    the debit cell is empty or missing, or when the debit result is 0 or
    [null].  Mizrahi Tfahot prefers the credit column: a populated credit
    cell gives the amount whether or not the debit cell is populated, and
    the debit cell gives it when it alone is populated. *)
Theorem debit_and_credit_columns :
  forall row : object jsval,
    (forall d a,
        prop row Poalim.debit_column = VStr d ->
        Poalim.debit_transform (VStr d) = Ok a -> truthy a = true ->
        exists t, Poalim.transform_row row = Ok t /\ prop t amount = a)
    /\ (forall c a,
           truthy (prop row Poalim.debit_column) = false ->
           prop row Poalim.credit_column = VStr c ->
           Poalim.credit_transform (VStr c) = Ok a ->
           exists t, Poalim.transform_row row = Ok t /\ prop t amount = a)
    /\ (forall d c a0 a,
           prop row Poalim.debit_column = VStr d ->
           Poalim.debit_transform (VStr d) = Ok a0 -> truthy a0 = false ->
           prop row Poalim.credit_column = VStr c ->
           Poalim.credit_transform (VStr c) = Ok a ->
           exists t, Poalim.transform_row row = Ok t /\ prop t amount = a)
    /\ (forall a,
           Mizrahi.populated row Mizrahi.credit_column = true ->
           Mizrahi.milliunits 1000
             (VStr (ToString (prop row Mizrahi.credit_column))) = Ok a ->
           exists t, Mizrahi.transform_row row = Ok t /\ prop t amount = a)
    /\ (forall a,
           Mizrahi.populated row Mizrahi.credit_column = false ->
           Mizrahi.populated row Mizrahi.debit_column = true ->
           Mizrahi.milliunits (-1000)
             (VStr (ToString (prop row Mizrahi.debit_column))) = Ok a ->
           exists t, Mizrahi.transform_row row = Ok t /\ prop t amount = a).
Proof.
  intros row. repeat split.
  - intros d a. apply poalim_debit_first.
  - intros c a. apply poalim_credit_only.
  - intros d c a0 a. apply poalim_sentinel_overwritten.
  - intros a. apply mizrahi_credit_wins.
  - intros a. apply mizrahi_debit_only.
Qed.

(** A Mizrahi row with both cells populated, as in the analyzer's test. *)
Definition correction_row : object jsval :=
  [ (u "תאריך", VStr (u "01/05/25")); (u "סוג תנועה", VStr (u "תיקון"));
    (Mizrahi.debit_column, VStr (u "300")); (Mizrahi.credit_column, VStr (u "500"));
    (u "אסמכתא", VStr (u "12345")) ].

(** A Poalim row whose debit cell holds a zero and whose credit cell is
    empty. *)
Definition zero_debit_row : object jsval :=
  [ (u "תאריך", VStr (u "03/05/2025")); (u "תיאור הפעולה", VStr (u "עמלה"));
    (u "פרטים", VStr (u "עמלת ניהול"));
    (Poalim.debit_column, VStr (u "0")); (Poalim.credit_column, VStr []) ].

Lemma debit_and_credit_columns_witness :
  (exists t, Poalim.transform_row grocery_row = Ok t
             /\ prop t amount = VNum (num_of_Z (-2000)))
  /\ (exists t, Mizrahi.transform_row correction_row = Ok t
                /\ prop t amount = VNum (num_of_Z 500000)).
Proof.
  split.
  - exact (proj1 (debit_and_credit_columns grocery_row)
                 (u "200") (VNum (num_of_Z (-2000))) eq_refl eq_refl eq_refl).
  - exact (proj1 (proj2 (proj2 (proj2 (debit_and_credit_columns correction_row))))
                 (VNum (num_of_Z 500000)) eq_refl eq_refl).
Defined.

(** Against C5 as stated.  In Mizrahi the mapping listed later decides when
    both cells are populated: debit "300" and credit "500" give 500000,
    though the debit mapping comes first and gives -300000.  In Poalim a
    debit cell "0" with an empty credit cell gives [null], not the zero of
    the debit transform. *)
Lemma debit_and_credit_columns_counterexample :
  (Mizrahi.populated correction_row Mizrahi.debit_column = true
   /\ Mizrahi.populated correction_row Mizrahi.credit_column = true
   /\ Mizrahi.milliunits (-1000) (VStr (u "300")) = Ok (VNum (num_of_Z (-300000)))
   /\ exists t, Mizrahi.transform_row correction_row = Ok t
                /\ prop t amount = VNum (num_of_Z 500000))
  /\ (Poalim.debit_transform (VStr (u "0")) = Ok (VNum (num_of_Z 0))
      /\ exists t, Poalim.transform_row zero_debit_row = Ok t
                   /\ prop t amount = VNull).
Proof.
  repeat split; try (eexists; split; vm_compute; reflexivity).
Qed.

(** ** The amount in a Hebrew phrase *)

(** The example of the function's documentation. *)
Lemma extract_amount_documented_example :
  match_all Cal.amount_regex (u "עסקאות לחיוב ב-02/05/2025: 5,259.19 ₪")
  = [u "02"; u "05"; u "202"; u "5"; u "5,259.19"]
  /\ Cal.extractAmountFromHebrewText (u "עסקאות לחיוב ב-02/05/2025: 5,259.19 ₪")
     = VNum (Fin 525919 2).
Proof. split; vm_compute; reflexivity. Qed.

(** No match can start at a character that is not a digit. *)
Lemma amount_regex_needs_digit (c : N) (s : jsstring) (k : jsstring -> option jsstring) :
  is_digit c = false -> rmatch Cal.amount_regex (c :: s) k = None.
Proof.
  intros H. unfold Cal.amount_regex, digit.
  cbn [rmatch List.length]. rewrite H. reflexivity.
Qed.

Lemma match_all_without_digits (fuel : nat) (s : jsstring) :
  Forall (fun c => is_digit c = false) s ->
  match_all_from fuel Cal.amount_regex s = [].
Proof.
  revert s. induction fuel as [|fuel IH]; intros s H; [reflexivity|].
  destruct H as [|c s Hc Hs].
  - reflexivity.
  - cbn [match_all_from]. unfold match_here.
    rewrite amount_regex_needs_digit by assumption. now apply IH.
Qed.

(** A text without a digit has no amount. *)
Lemma extract_amount_without_digits (text : jsstring) :
  Forall (fun c => is_digit c = false) text ->
  Cal.extractAmountFromHebrewText text = VNull.
Proof.
  intros H. unfold Cal.extractAmountFromHebrewText, match_all.
  rewrite match_all_without_digits by assumption. now destruct text.
Qed.

(** C9 at a failing input.  The first alternative of the regular
    expression takes at most three digits before it looks for a comma or a
    decimal point, and it never fails where a digit stands, so the
    alternatives [\d+\.\d{1,2}] and [\d+,\d{1,2}] after it are never tried:
    "1234.56" is matched as "123" and "4.56", and the longer of the two,
    4.56, is returned where the text holds the number 1234.56. *)
Theorem extract_amount_splits_unseparated_number :
  match_all Cal.amount_regex (u "עסקאות לחיוב ב-02/05/2025: 1234.56 ₪")
  = [u "02"; u "05"; u "202"; u "5"; u "123"; u "4.56"]
  /\ Cal.extractAmountFromHebrewText (u "עסקאות לחיוב ב-02/05/2025: 1234.56 ₪")
     = VNum (Fin 456 2)
  /\ Cal.extractAmountFromHebrewText (u "1234.56") = VNum (Fin 456 2)
  /\ parseFloat (u "1234.56") = Fin 123456 2.
Proof. repeat split; vm_compute; reflexivity. Qed.

(** ** Detectors *)

Lemma nth_error_short {A} (l : list A) (n : nat) :
  (List.length l <= n)%nat -> nth_error l n = None.
Proof. apply nth_error_None. Qed.

(** A file with the Cal name and a sheet of fewer than five rows makes
    [isCalFile] throw; so do [isIsracardFile] with fewer than six rows and
    [isMaxFile] with fewer than four. *)
Lemma short_sheet_throws :
  forall (fileName : jsstring) (sheetJson : list (list jsval)),
    (startsWith fileName (u "פירוט חיובים לכרטיס") = true ->
     (List.length sheetJson <= 4)%nat ->
     Cal.isCalFile fileName sheetJson
     = Throw (TypeError "Cannot read properties of undefined (reading 'some')"))
    /\ (startsWith fileName (u "Export_") = true ->
        (List.length sheetJson <= 5)%nat ->
        Isracard.isIsracardFile fileName sheetJson
        = Throw (TypeError "Cannot read properties of undefined (reading 'some')"))
    /\ (forall toLowerCase,
           includes (toLowerCase fileName) (u "transaction-details_export_") = true ->
           (List.length sheetJson <= 3)%nat ->
           Max.isMaxFile toLowerCase fileName sheetJson
           = Throw (TypeError "Cannot read properties of undefined (reading 'some')")).
Proof.
  intros fileName sheetJson. split; [|split].
  - intros P L. unfold Cal.isCalFile. rewrite P. cbn [negb].
    now rewrite nth_error_short.
  - intros P L. unfold Isracard.isIsracardFile. rewrite P. cbn [negb].
    now rewrite nth_error_short.
  - intros lower P L. unfold Max.isMaxFile. rewrite P. cbn [negb].
    now rewrite nth_error_short.
Qed.

(** C10 at failing inputs.  A statement named as a Cal export whose first
    sheet has three rows: [sheetJson[4]] is [undefined] and
    [firstRow.some] throws a [TypeError]; likewise for an Isracard export
    with an empty sheet.  And a Cal sheet whose first row is empty is
    answered with [undefined]: neither [null] nor an identifier. *)
Theorem detectors_throw_on_short_sheets :
  Cal.isCalFile (u "פירוט חיובים לכרטיס 1234.xlsx")
                [[VStr (u "1234")]; []; [VStr (u "עסקאות לחיוב")]]
  = Throw (TypeError "Cannot read properties of undefined (reading 'some')")
  /\ Isracard.isIsracardFile (u "Export_05_2025.xlsx") []
     = Throw (TypeError "Cannot read properties of undefined (reading 'some')")
  /\ Cal.isCalFile (u "פירוט חיובים לכרטיס 1234.xlsx")
                   [[]; []; []; []; [VStr (u "תאריך עסקה"); VStr (u "שם בית עסק")]]
     = Ok VUndefined.
Proof. repeat split; vm_compute; reflexivity. Qed.

(** ** The pipeline of analyzers/fileAnalyzer.ts *)

Lemma mapM_length {A B} (f : A -> outcome B) (l : list A) (bs : list B) :
  mapM f l = Ok bs -> List.length bs = List.length l.
Proof.
  revert bs. induction l as [|a l IH]; intros bs H; simpl in H.
  - now inversion H.
  - destruct (f a); [|discriminate]. cbn [bind] in H.
    destruct (mapM f l) as [bs'|]; [|discriminate]. cbn [bind] in H.
    inversion H. simpl. f_equal. now apply IH.
Qed.

Lemma mapM_total {A B} (f : A -> outcome B) (l : list A) :
  (forall a, In a l -> exists b, f a = Ok b) -> exists bs, mapM f l = Ok bs.
Proof.
  induction l as [|a l IH]; intros H; simpl.
  - now eexists.
  - destruct (H a (or_introl eq_refl)) as (b & Eb). rewrite Eb. cbn [bind].
    destruct IH as (bs & BS); [intros; apply H; now right|].
    rewrite BS. now eexists.
Qed.

(** [Promise.all] over promises that all fulfil. *)
Lemma Promise_all_map {A B} (f : A -> Promise B) (l : list A) :
  (forall a, exists b, f a = Ok b) ->
  exists rs,
    Promise_all (map f l) = Ok rs
    /\ List.length rs = List.length l
    /\ Forall2 (fun a r => f a = Ok r) l rs.
Proof.
  intros T. unfold Promise_all. induction l as [|a l IH].
  - exists []. repeat split. constructor.
  - destruct IH as (rs & E & L & F). destruct (T a) as (r & R).
    exists (r :: rs). cbn [map mapM]. rewrite R. cbn [bind]. rewrite E.
    cbn [bind]. repeat split.
    + simpl. now f_equal.
    + now constructor.
Qed.

Section AnalyzersPipeline.

Variables Buffer Data : Type.
Variable papa_objects : jsstring -> jsstring -> outcome (list (object jsval)).
Variable papa_arrays : jsstring -> jsstring -> outcome (list (list jsval)).
Variable REGISTERED_ANALYZERS : list (Analyzers.Vendor Buffer Data).
Variable toLowerCase : jsstring -> jsstring.
Variable analyzeExcelContent :
  Buffer -> jsstring ->
  outcome (maybe (Analyzers.Vendor Buffer Data) * maybe jsval).
Variable finalBalance_of : Data -> jsval.

Let File := Analyzers.File Buffer.
Let analyzeFile_try : File -> outcome (Analyzers.Analysis Buffer Data) :=
  Analyzers.analyzeFile_try Buffer Data papa_objects papa_arrays REGISTERED_ANALYZERS
                            toLowerCase analyzeExcelContent finalBalance_of.
Let analyzeFile : File -> Promise (Analyzers.Analysis Buffer Data) :=
  Analyzers.analyzeFile Buffer Data papa_objects papa_arrays REGISTERED_ANALYZERS
                        toLowerCase analyzeExcelContent finalBalance_of.
Let analyzeFiles : list File -> Promise (list (Analyzers.Analysis Buffer Data)) :=
  Analyzers.analyzeFiles Buffer Data papa_objects papa_arrays REGISTERED_ANALYZERS
                         toLowerCase analyzeExcelContent finalBalance_of.
Let analyzeCSVContent : jsstring -> jsstring -> Promise Data :=
  Analyzers.analyzeCSVContent Buffer Data papa_objects papa_arrays
                              REGISTERED_ANALYZERS.

(** [analyzeFile] always fulfils its promise. *)
Lemma analyzeFile_fulfils (file : File) : exists r, analyzeFile file = Ok r.
Proof.
  unfold analyzeFile, Analyzers.analyzeFile, try_catch.
  destruct (Analyzers.analyzeFile_try _ _ _ _ _ _ _ _ file); now eexists.
Qed.

(** An exception of the [try] block becomes the error envelope. *)
Lemma analyzeFile_catches (file : File) (e : exn) :
  analyzeFile_try file = Throw e ->
  analyzeFile file
  = Ok (mkAnalysis (Analyzers.file_name Buffer file) Null (Some (message_of e))
                   Undefined VUndefined Null).
Proof.
  intros H. unfold analyzeFile, Analyzers.analyzeFile, try_catch.
  unfold analyzeFile_try in H. now rewrite H.
Qed.

(** [analyzeFiles] fulfils with one result for each file, in the order of
    the files, each the result of [analyzeFile] on that file alone. *)
Lemma analyzeFiles_in_order (files : list File) :
  exists results,
    analyzeFiles files = Ok results
    /\ List.length results = List.length files
    /\ Forall2 (fun file r => analyzeFile file = Ok r) files results.
Proof.
  apply Promise_all_map, analyzeFile_fulfils.
Qed.

(** The promise of [analyzeCSVContent] is not awaited: the record of a
    [.csv] file whose text can be read is the same whatever that promise
    does, and it carries no error. *)
Lemma csv_analysis_is_not_awaited (file : File) (content : jsstring) :
  endsWith (Analyzers.file_name Buffer file) (u ".csv") = true ->
  Analyzers.text Buffer file = Ok content ->
  analyzeFile file
  = Ok (mkAnalysis (Analyzers.file_name Buffer file) Undefined None Null
                   VUndefined Undefined).
Proof.
  intros N T. unfold analyzeFile, Analyzers.analyzeFile, Analyzers.analyzeFile_try.
  rewrite N, T. reflexivity.
Qed.

Definition no_match (fileName : jsstring) (v : Analyzers.Vendor Buffer Data) : Prop :=
  exists detect,
    isVendorFile v = Some detect
    /\ forall results, exists answer,
        detect fileName results = Ok answer /\ truthy answer = false.

(** When no registered detector matches, the dispatch loop ends in the
    [throw] after it. *)
Lemma dispatch_unknown (content fileName : jsstring) (results : list (object jsval))
      (analyzers : list (Analyzers.Vendor Buffer Data)) :
  Forall (no_match fileName) analyzers ->
  Analyzers.dispatch Buffer Data analyzers content fileName results
  = Throw (Error "Unknown file format. Could not determine bank or credit card format.").
Proof.
  induction 1 as [|v vs (detect & D & A) _ IH]; [reflexivity|].
  cbn [Analyzers.dispatch]. rewrite D.
  destruct (A results) as (answer & E & F). rewrite E. cbn [bind].
  now rewrite F.
Qed.

Lemma analyzeCSVContent_unknown (content fileName : jsstring) :
  (forall text delimiter, exists rows, papa_objects text delimiter = Ok rows) ->
  Forall (no_match fileName) REGISTERED_ANALYZERS ->
  analyzeCSVContent content fileName
  = Throw (Error "Unknown file format. Could not determine bank or credit card format.").
Proof.
  intros P N. unfold analyzeCSVContent, Analyzers.analyzeCSVContent.
  match goal with
  | |- context [papa_objects ?t ?d] => destruct (P t d) as (rows & R); rewrite R
  end.
  cbn [try_catch bind]. now apply dispatch_unknown.
Qed.

End AnalyzersPipeline.

(** *** A text file that no analyzer recognises *)

(** [toLowerCase] on the letters A to Z, which is all of it for a name in
    ASCII. *)
Definition lower_ascii (s : jsstring) : jsstring :=
  map (fun c => if ((65 <=? c) && (c <=? 90))%N then (c + 32)%N else c) s.

(** The detectors of the registered analyzers as [analyzeCSVContent] calls
    them, with the parsed rows in the place of a worksheet.
    [sheet_to_json] finds no range in such an array and gives no rows, so
    Cal, Isracard and Max see an empty sheet; the others find neither their
    header line nor their cells and answer [null]. *)
Definition csv_registry : list (Analyzers.Vendor unit AnalysisResult) :=
  [ mkVendor (u "Cal") (Fin 1 0) [u "Cal Statement"] Cal.CAL_FIELD_MAPPINGS None
             (Some (fun fileName _ => Cal.isCalFile fileName []));
    mkVendor (u "Isracard") (Fin 1 0) [u "Isracard Statement"]
             Isracard.ISRACARD_FIELD_MAPPINGS None
             (Some (fun fileName _ => Isracard.isIsracardFile fileName []));
    mkVendor (u "Max") (Fin 1 0) [u "Max Statement"] Max.MAX_FIELD_MAPPINGS None
             (Some (fun fileName _ => Max.isMaxFile lower_ascii fileName []));
    mkVendor (u "MizrahiTfahot") (Fin 1 0) [u "Mizrahi Tfahot Account Statement"]
             Mizrahi.MIZRAHI_TFAHOT_FIELD_MAPPINGS None
             (Some (fun _ _ => Ok VNull));
    mkVendor (u "Bank Hapoalim") (Fin 1 0) [u "POALIM Bank Statement"]
             Poalim.POALIM_FIELD_MAPPINGS None
             (Some (fun _ _ => Ok VNull));
    mkVendor (u "Discount") (Fin 1 0) [u "עובר ושב"] [] None
             (Some (fun _ _ => Ok VNull)) ].

(** A text of two columns, and the rows [Papa.parse] reads in it. *)
Definition unknown_text : jsstring :=
  u "day,sum" ++ [10%N] ++ u "1,5" ++ [10%N] ++ u "2,7" ++ [10%N].

Definition unknown_rows : list (object jsval) :=
  [ [(u "day", VStr (u "1")); (u "sum", VStr (u "5"))];
    [(u "day", VStr (u "2")); (u "sum", VStr (u "7"))] ].

Definition unknown_file : Analyzers.File unit :=
  Analyzers.mkFile unit (u "statement.csv") (Ok unknown_text) (Ok tt).

Definition unknown_format : exn :=
  Error "Unknown file format. Could not determine bank or credit card format.".

(** C1 at a failing input.  The text file [statement.csv] is recognised by
    no analyzer, and [analyzeCSVContent] rejects with "Unknown file
    format"; [analyzeFile] did not await that promise, so its [catch] never
    sees the rejection: the record of the file has no [error], and its
    [vendorInfo] and [identifier] are [undefined] instead of [null]. *)
Theorem csv_rejection_is_not_reported :
  let papa_objects := fun _ _ : jsstring => Ok unknown_rows in
  let papa_arrays := fun _ _ : jsstring => Ok [] in
  let excel := fun (_ : unit) (_ : jsstring) => Ok (Null, Null) in
  Analyzers.analyzeCSVContent unit AnalysisResult papa_objects papa_arrays
                              csv_registry unknown_text (u "statement.csv")
  = Throw unknown_format
  /\ Analyzers.analyzeFile unit AnalysisResult papa_objects papa_arrays
                           csv_registry lower_ascii excel finalBalance unknown_file
     = Ok (mkAnalysis (u "statement.csv") Undefined None Null VUndefined Undefined)
  /\ Analyzers.analyzeFiles unit AnalysisResult papa_objects papa_arrays
                            csv_registry lower_ascii excel finalBalance
                            [unknown_file]
     = Ok [mkAnalysis (u "statement.csv") Undefined None Null VUndefined Undefined].
Proof. repeat split; vm_compute; reflexivity. Qed.

(** ** The dispatcher of utils/fileAnalyzer.ts *)

Lemma utils_no_match (Buffer Data : Type) (toUpperCase : jsstring -> jsstring)
      (poalim : Utils.Vendor Buffer Data) (result : Poalim.PapaResult)
      (fileName : jsstring) :
  (forall detect, isVendorFile poalim = Some detect ->
                  exists answer, detect fileName (Poalim.fields result) = Ok answer
                                 /\ truthy answer = false) ->
  Utils.scan_rows Buffer Data toUpperCase (Poalim.data result) = None ->
  Utils.analyzeCSVContent Buffer Data toUpperCase poalim result fileName
  = Ok (Null, Null).
Proof.
  intros D S. unfold Utils.analyzeCSVContent.
  destruct (0 <? Poalim.errors result)%nat; [reflexivity|].
  destruct (isVendorFile poalim) as [detect|].
  - destruct (D detect eq_refl) as (answer & E & F). rewrite E. cbn [bind].
    now rewrite F, S.
  - cbn [bind truthy]. now rewrite S.
Qed.

Lemma utils_parse_errors (Buffer Data : Type) (toUpperCase : jsstring -> jsstring)
      (poalim : Utils.Vendor Buffer Data) (result : Poalim.PapaResult)
      (fileName : jsstring) :
  (0 < Poalim.errors result)%nat ->
  Utils.analyzeCSVContent Buffer Data toUpperCase poalim result fileName
  = Ok (Null, Null).
Proof.
  intros H. unfold Utils.analyzeCSVContent.
  apply Nat.ltb_lt in H. now rewrite H.
Qed.

(** C8, as the code has it.  In analyzers/fileAnalyzer.ts a text file that
    [Papa.parse] reads and that no registered detector matches makes
    [analyzeCSVContent] throw the error "Unknown file format. Could not
    determine bank or credit card format.".  In utils/fileAnalyzer.ts
    [analyzeCSVContent] answers [{vendorInfo: null, identifier: null}]
    without throwing when the detector does not match and no cell of the
    common columns names a known merchant, and also when the parse
    reported errors. *)
Theorem csv_dispatch_without_match :
  (forall (Buffer Data : Type) papa_objects papa_arrays
          (registry : list (Analyzers.Vendor Buffer Data))
          (content fileName : jsstring),
      (forall text delimiter, exists rows, papa_objects text delimiter = Ok rows) ->
      Forall (no_match Buffer Data fileName) registry ->
      Analyzers.analyzeCSVContent Buffer Data papa_objects papa_arrays registry
                                  content fileName
      = Throw unknown_format)
  /\ (forall (Buffer Data : Type) toUpperCase (poalim : Utils.Vendor Buffer Data)
             (result : Poalim.PapaResult) (fileName : jsstring),
         (forall detect, isVendorFile poalim = Some detect ->
                         exists answer,
                           detect fileName (Poalim.fields result) = Ok answer
                           /\ truthy answer = false) ->
         Utils.scan_rows Buffer Data toUpperCase (Poalim.data result) = None ->
         Utils.analyzeCSVContent Buffer Data toUpperCase poalim result fileName
         = Ok (Null, Null))
  /\ (forall (Buffer Data : Type) toUpperCase (poalim : Utils.Vendor Buffer Data)
             (result : Poalim.PapaResult) (fileName : jsstring),
         (0 < Poalim.errors result)%nat ->
         Utils.analyzeCSVContent Buffer Data toUpperCase poalim result fileName
         = Ok (Null, Null)).
Proof.
  split; [|split].
  - intros. now apply analyzeCSVContent_unknown.
  - intros. now apply utils_no_match.
  - intros. now apply utils_parse_errors.
Qed.

Lemma csv_registry_no_match :
  Forall (no_match unit AnalysisResult (u "statement.csv")) csv_registry.
Proof.
  repeat constructor;
    (eexists; split; [reflexivity|]; intros results; eexists; split;
     [vm_compute; reflexivity | reflexivity]).
Qed.

(** A Poalim detector of utils, by the name and the header fields. *)
Definition utils_poalim : Utils.Vendor unit AnalysisResult :=
  mkVendor (u "Bank Hapoalim") (Fin 1 0) [u "POALIM Bank Statement"]
           Poalim.POALIM_FIELD_MAPPINGS None
           (Some (fun fileName headers =>
                    if startsWith (lower_ascii fileName) (u "shekel")
                       && forallb (fun h => existsb (str_eqb h) headers)
                            [u "תאריך"; u "תיאור הפעולה"; u "פרטים"; u "חובה";
                             u "זכות"; u "יתרה לאחר פעולה"]
                    then Ok (VStr (firstn 9 (skipn 6 fileName)))
                    else Ok VNull)).

Lemma csv_dispatch_without_match_witness :
  Analyzers.analyzeCSVContent unit AnalysisResult
    (fun _ _ => Ok unknown_rows) (fun _ _ => Ok []) csv_registry
    unknown_text (u "statement.csv")
  = Throw unknown_format
  /\ Utils.analyzeCSVContent unit AnalysisResult lower_ascii utils_poalim
       (Poalim.mkPapa unknown_rows 0 [u "day"; u "sum"]) (u "statement.csv")
     = Ok (Null, Null).
Proof.
  split.
  - apply (proj1 csv_dispatch_without_match).
    + intros. now eexists.
    + exact csv_registry_no_match.
  - apply (proj1 (proj2 csv_dispatch_without_match)).
    + intros detect H. inversion H. eexists. split; reflexivity.
    + reflexivity.
Defined.

(** Against C8 as stated: on the text file that no detector matches, the
    dispatch of analyzers/fileAnalyzer.ts throws; it returns no record. *)
Lemma csv_dispatch_counterexample :
  Forall (no_match unit AnalysisResult (u "statement.csv")) csv_registry
  /\ Analyzers.analyzeCSVContent unit AnalysisResult
       (fun _ _ => Ok unknown_rows) (fun _ _ => Ok []) csv_registry
       unknown_text (u "statement.csv")
     = Throw unknown_format
  /\ forall r,
      Analyzers.analyzeCSVContent unit AnalysisResult
        (fun _ _ => Ok unknown_rows) (fun _ _ => Ok []) csv_registry
        unknown_text (u "statement.csv") <> Ok r.
Proof.
  split; [exact csv_registry_no_match|].
  split; [vm_compute; reflexivity|].
  intros r H. vm_compute in H. discriminate.
Qed.

(** ** Extraction without a balance *)

Lemma forEach_total {A S} (l : list A) (body : S -> A -> outcome S) (s : S) :
  (forall s a, exists s', body s a = Ok s') -> exists s', forEach l body s = Ok s'.
Proof.
  intros T. revert s. induction l as [|a l IH]; intros s; simpl.
  - now eexists.
  - destruct (T s a) as (s' & E). rewrite E. cbn [bind]. apply IH.
Qed.

Lemma mizrahi_reapply_total (row t : object jsval) (col : jsstring) :
  col = Mizrahi.credit_column \/ col = Mizrahi.debit_column ->
  exists t', Mizrahi.reapply col row t = Ok t'.
Proof.
  intros [->| ->].
  - destruct (mizrahi_milliunits_total 1000
                (ToString (prop row Mizrahi.credit_column))) as (x & X).
    rewrite (mizrahi_reapply row t _ 1000 (VNum x)); eauto.
  - destruct (mizrahi_milliunits_total (-1000)
                (ToString (prop row Mizrahi.debit_column))) as (x & X).
    rewrite (mizrahi_reapply row t _ (-1000) (VNum x)); eauto.
Qed.

(** The Mizrahi row transform throws on no row. *)
Lemma mizrahi_transform_row_total (row : object jsval) :
  exists t, Mizrahi.transform_row row = Ok t.
Proof.
  unfold Mizrahi.transform_row. rewrite mizrahi_mappings. cbn [forEach].
  mizrahi_other t1 P1. mizrahi_other t2 P2.
  destruct (mizrahi_debit_step row t2
              (Mizrahi.populated row Mizrahi.credit_column)
              (Mizrahi.populated row Mizrahi.debit_column)) as (t3 & E3).
  rewrite E3. cbn [bind]. clear E3.
  destruct (mizrahi_credit_step row t3
              (Mizrahi.populated row Mizrahi.credit_column)
              (Mizrahi.populated row Mizrahi.debit_column)) as (t4 & E4).
  rewrite E4. cbn [bind]. clear E4.
  mizrahi_other t5 P5.
  destruct (Mizrahi.amount_is_zero t5 && Mizrahi.populated row Mizrahi.credit_column).
  - apply mizrahi_reapply_total. now left.
  - destruct (Mizrahi.amount_is_zero t5 && Mizrahi.populated row Mizrahi.debit_column).
    + apply mizrahi_reapply_total. now right.
    + now eexists.
Qed.

Lemma mizrahi_transformTransactions_total (rows : list (option (object jsval))) :
  exists txs, Mizrahi.transformTransactions rows = Ok txs.
Proof.
  apply mapM_total. intros row _. apply mizrahi_transform_row_total.
Qed.

Lemma mizrahi_sheets_present (wb : workbook) :
  Forall (fun name => obj_get (Sheets wb) name <> None) (SheetNames wb) ->
  forallb (fun name => match obj_get (Sheets wb) name with
                       | Some _ => true
                       | None => false
                       end) (SheetNames wb) = true.
Proof.
  intros H. apply forallb_forall. rewrite Forall_forall in H.
  intros name I. specialize (H name I). now destruct (obj_get (Sheets wb) name).
Qed.

(** Without a balance in the workbook Mizrahi returns the balance 0. *)
Lemma mizrahi_default_balance (T : Type)
      (extract : workbook -> list (option (object jsval))) (wb : workbook) :
  Forall (fun name => obj_get (Sheets wb) name <> None) (SheetNames wb) ->
  Mizrahi.findBalanceInWorkbook wb = VNull ->
  exists txs,
    Mizrahi.analyzeMizrahiTfahotFile extract (T := T) (Binary (Ok wb))
    = Ok (mkResult txs (VNum (num_of_Z 0))).
Proof.
  intros P B. unfold Mizrahi.analyzeMizrahiTfahotFile.
  rewrite (mizrahi_sheets_present wb P), B.
  destruct (mizrahi_transformTransactions_total (extract wb)) as (txs & E).
  rewrite E. now exists txs.
Qed.

(** So does Discount, for a workbook and for a text alike. *)
Lemma discount_default_balance
      (extract : option sheet -> list (object jsval))
      (transform : list (object jsval) -> list (object jsval)) (wb : workbook) :
  let firstSheet := obj_get (Sheets wb) (nth 0 (SheetNames wb) (u "undefined")) in
  Discount.extractBalanceFromSheet firstSheet = VNull ->
  Discount.analyzeDiscountFile extract transform (Binary (Ok wb))
  = Ok (mkResult (transform (extract firstSheet)) (VNum (num_of_Z 0)))
  /\ Discount.analyzeDiscountFile extract transform (Text (Ok wb))
     = Ok (mkResult (transform (extract firstSheet)) (VNum (num_of_Z 0))).
Proof.
  intros firstSheet B. unfold Discount.analyzeDiscountFile.
  fold firstSheet. rewrite B. split; reflexivity.
Qed.

(** *** Cal on a sheet read as text *)

(** A cell of a sheet read with [raw: false]: a string, or nothing. *)
Definition textual (v : jsval) : Prop :=
  match v with
  | VStr _ | VUndefined => True
  | _ => False
  end.

Lemma cal_normalize_total (v : jsval) :
  textual v -> exists r, Cal.normalizeHeaderString v = Ok r.
Proof.
  destruct v; intros H; try contradiction; unfold Cal.normalizeHeaderString.
  - now eexists.
  - destruct (truthy (VStr s)); now eexists.
Qed.

Lemma elem_textual (row : list jsval) (i : nat) :
  Forall textual row -> textual (elem row i).
Proof.
  intros H. unfold elem. revert i. induction H; intros [|i]; simpl; auto.
Qed.

Lemma cal_header_row_total (row : list jsval) :
  Forall textual row -> exists b, Cal.is_header_row row = Ok b.
Proof.
  intros H. unfold Cal.is_header_row.
  destruct (List.length row <? 2)%nat; [now eexists|].
  destruct (cal_normalize_total _ (elem_textual row 0 H)) as (a & A).
  destruct (cal_normalize_total _ (elem_textual row 1 H)) as (b & B).
  rewrite A, B. now eexists.
Qed.

Lemma findIndex_total {A} (p : A -> outcome bool) (l : list A) (i : nat) :
  (forall a, In a l -> exists b, p a = Ok b) ->
  exists r, findIndex p l i = Ok r.
Proof.
  revert i. induction l as [|a l IH]; intros i H; simpl.
  - now eexists.
  - destruct (H a (or_introl eq_refl)) as (b & Eb). rewrite Eb. cbn [bind].
    destruct b; [now eexists|]. apply IH. intros; apply H; now right.
Qed.

Lemma cal_date_total (v : jsval) : exists r, Cal.date_transform v = Ok r.
Proof.
  destruct v as [| | b | x | s]; try (eexists; reflexivity).
  unfold Cal.date_transform.
  destruct (negb (truthy (VStr s)) || negb (includes s [slash]));
    [eexists; reflexivity|].
  match goal with |- context [if ?c then _ else _] => destruct c end;
    eexists; reflexivity.
Qed.

Lemma cal_amount_total (v : jsval) : exists r, Cal.amount_transform v = Ok r.
Proof.
  unfold Cal.amount_transform.
  destruct v as [| | b | x | [|c s]]; try (eexists; reflexivity);
    match goal with |- context [if str_eqb ?a ?b then _ else _] =>
                    destruct (str_eqb a b) end;
    try (eexists; reflexivity);
    match goal with |- context [if num_is_nan ?a then _ else _] =>
                    destruct (num_is_nan a) end;
    eexists; reflexivity.
Qed.

Definition cal_date : FieldMapping :=
  mkMapping Cal.date_header (u "date") (Some Cal.date_transform).
Definition cal_payee : FieldMapping := mkMapping Cal.payee_header (u "payee_name") None.
Definition cal_amount : FieldMapping :=
  mkMapping (u "סכום חיוב") amount (Some Cal.amount_transform).
Definition cal_memo : FieldMapping := mkMapping (u "הערות") (u "memo") None.

Lemma cal_headerMapping :
  Cal.headerMapping
  = [ (Cal.date_header, cal_date); (Cal.payee_header, cal_payee);
      (u "סכום חיוב", cal_amount); (u "הערות", cal_memo) ].
Proof. reflexivity. Qed.

Lemma cal_mapping_total (k : jsstring) (m : FieldMapping) (v : jsval) :
  obj_get Cal.headerMapping k = Some m -> exists r, apply_mapping m v = Ok r.
Proof.
  rewrite cal_headerMapping. cbn [obj_get].
  repeat match goal with
         | |- context [if str_eqb ?a k then _ else _] => destruct (str_eqb a k)
         end; intros H; inversion H; subst; unfold apply_mapping; cbn [transform];
    try (eexists; reflexivity).
  - apply cal_date_total.
  - apply cal_amount_total.
Qed.

(** The Cal row transform throws on no record. *)
Lemma cal_transform_row_total (row : object jsval) :
  exists t, Cal.transform_row row = Ok t.
Proof.
  unfold Cal.transform_row.
  match goal with
  | |- context [forEach row ?body ?s] =>
    destruct (forEach_total row body s) as (t & E)
  end.
  - intros s [k v].
    destruct (obj_get Cal.headerMapping (Cal.normalize_str k)) as [m|] eqn:M;
      [|now eexists].
    destruct (cal_mapping_total _ m v M) as (r & R). rewrite R. now eexists.
  - rewrite E. cbn [bind].
    destruct (negb (truthy (prop t (u "memo")))); now eexists.
Qed.

(** On a sheet read as text [analyzeCalRows] returns, with the balance
    that [balance_of] finds. *)
Lemma cal_rows_total (sheetJson : list (list jsval)) :
  Forall (Forall textual) sheetJson ->
  exists txs, Cal.analyzeCalRows sheetJson
              = Ok (mkResult txs (Cal.balance_of sheetJson)).
Proof.
  intros H. unfold Cal.analyzeCalRows.
  destruct (findIndex_total Cal.is_header_row sheetJson 0) as (r & R).
  { intros row I. apply cal_header_row_total.
    rewrite Forall_forall in H. now apply H. }
  rewrite R. cbn [bind]. destruct r as [hi|]; [|now eexists].
  destruct (mapM_total Cal.normalizeHeaderString (nth hi sheetJson [])) as (hs & HS).
  { intros v I. apply cal_normalize_total.
    assert (T : Forall textual (nth hi sheetJson [])).
    { destruct (nth_in_or_default hi sheetJson []) as [J|J].
      - rewrite Forall_forall in H. now apply H.
      - rewrite J. constructor. }
    rewrite Forall_forall in T. now apply T. }
  rewrite HS. cbn [bind].
  match goal with
  | |- context [mapM Cal.transform_row ?raw] =>
    destruct (mapM_total Cal.transform_row raw) as (txs & TX)
  end.
  { intros row _. apply cal_transform_row_total. }
  rewrite TX. now eexists.
Qed.

(** C7, as the code has it.  When the balance is not found the extraction
    still returns: Mizrahi Tfahot and Discount then report the balance 0,
    which they put in the place of [null] before they return, and Cal
    reports [null]. *)
Theorem extraction_without_balance :
  (forall (T : Type) (extract : workbook -> list (option (object jsval)))
          (wb : workbook),
      Forall (fun name => obj_get (Sheets wb) name <> None) (SheetNames wb) ->
      Mizrahi.findBalanceInWorkbook wb = VNull ->
      exists txs,
        Mizrahi.analyzeMizrahiTfahotFile extract (T := T) (Binary (Ok wb))
        = Ok (mkResult txs (VNum (num_of_Z 0))))
  /\ (forall (extract : option sheet -> list (object jsval))
             (transform : list (object jsval) -> list (object jsval))
             (wb : workbook),
         Discount.extractBalanceFromSheet
           (obj_get (Sheets wb) (nth 0 (SheetNames wb) (u "undefined"))) = VNull ->
         exists txs,
           Discount.analyzeDiscountFile extract transform (Binary (Ok wb))
           = Ok (mkResult txs (VNum (num_of_Z 0)))
           /\ Discount.analyzeDiscountFile extract transform (Text (Ok wb))
              = Ok (mkResult txs (VNum (num_of_Z 0))))
  /\ (forall (T : Type) (sheetJson : list (list jsval)),
         Forall (Forall textual) sheetJson ->
         Cal.balance_of sheetJson = VNull ->
         exists txs,
           analyzeCalFile (T := T) (Binary (Ok sheetJson)) = Ok (mkResult txs VNull)).
Proof.
  split; [|split].
  - intros T extract wb P B. now apply mizrahi_default_balance.
  - intros extract transform wb B. eexists.
    now apply discount_default_balance.
  - intros T sheetJson H B. unfold analyzeCalFile. cbn [bind].
    destruct (cal_rows_total sheetJson H) as (txs & E).
    rewrite E, B. now eexists.
Qed.

(** A workbook of one sheet, as in the analyzer's test of the default
    balance, and the one raw transaction found in it. *)
Definition one_sheet : workbook :=
  mkWorkbook [u "Sheet1"] [(u "Sheet1", [(u "A1", VStr (u "תאריך"))])].

Definition salary_record : object jsval :=
  [ (u "תאריך", VStr (u "01/05/25")); (u "סוג תנועה", VStr (u "משכורת"));
    (Mizrahi.credit_column, VStr (u "5000")) ].

(** A Cal sheet without the balance phrase in its third row. *)
Definition cal_sheet : list (list jsval) :=
  [ [VStr (u "1234-5678-9012-3456")]; []; []; [];
    [VStr (u "תאריך עסקה"); VStr (u "שם בית עסק"); VStr (u "סכום חיוב");
     VStr (u "הערות")];
    [VStr (u "10/04/25"); VStr (u "סופר"); VStr (u "100"); VStr []];
    [VStr (u "12/04/25"); VStr (u "חנות"); VStr (u "לא מספר"); VStr []];
    [VStr (u "13/04/25"); VStr (u "תחבורה"); VStr (u "30"); VStr []] ].

Lemma cal_sheet_textual : Forall (Forall textual) cal_sheet.
Proof. repeat constructor. Qed.

Lemma extraction_without_balance_witness :
  (exists txs,
      Mizrahi.analyzeMizrahiTfahotFile (fun _ => [Some salary_record])
        (T := jsstring) (Binary (Ok one_sheet))
      = Ok (mkResult txs (VNum (num_of_Z 0))))
  /\ (exists txs,
         analyzeCalFile (T := jsstring) (Binary (Ok cal_sheet))
         = Ok (mkResult txs VNull)).
Proof.
  split.
  - apply (proj1 extraction_without_balance).
    + repeat constructor. discriminate.
    + reflexivity.
  - apply (proj2 (proj2 extraction_without_balance)).
    + exact cal_sheet_textual.
    + reflexivity.
Defined.

(** Against C7 as stated: no balance is found in the workbook of one sheet,
    and the balance Mizrahi returns is the number 0, neither [null] nor
    [undefined]; Discount does the same on a sheet without the cell E9. *)
Lemma extraction_without_balance_counterexample :
  Mizrahi.findBalanceInWorkbook one_sheet = VNull
  /\ Mizrahi.analyzeMizrahiTfahotFile (fun _ => [Some salary_record])
       (T := jsstring) (Binary (Ok one_sheet))
     = Ok (mkResult
             [[(u "date", VStr (u "2025-05-01"));
               (amount, VNum (num_of_Z 5000000));
               (u "payee_name", VStr (u "משכורת")); (u "memo", VStr [])]]
             (VNum (num_of_Z 0)))
  /\ Discount.extractBalanceFromSheet (obj_get (Sheets one_sheet) (u "Sheet1")) = VNull
  /\ Discount.analyzeDiscountFile (fun _ => []) (fun txs => txs) (Binary (Ok one_sheet))
     = Ok (mkResult [] (VNum (num_of_Z 0)))
  /\ VNum (num_of_Z 0) <> VNull /\ VNum (num_of_Z 0) <> VUndefined.
Proof.
  repeat split; try (vm_compute; reflexivity); discriminate.
Qed.

(** ** Rows whose amount cannot be read *)

Lemma forEach_app {A S} (l1 l2 : list A) (body : S -> A -> outcome S) (s : S) :
  forEach (l1 ++ l2) body s = (s' <- forEach l1 body s ;; forEach l2 body s').
Proof.
  revert s. induction l1 as [|a l1 IH]; intros s; simpl; [reflexivity|].
  destruct (body s a); cbn [bind]; [apply IH | reflexivity].
Qed.

(** The body of [Object.entries(row).forEach] in the Cal row transform. *)
Definition cal_entry (acc : object jsval) (kv : jsstring * jsval)
  : outcome (object jsval) :=
  let '(key, value) := kv in
  match obj_get Cal.headerMapping (Cal.normalize_str key) with
  | Some mapping =>
    v <- apply_mapping mapping value ;; Ok (obj_set acc (target mapping) v)
  | None => Ok acc
  end.

Lemma cal_transform_row_unfold (row : object jsval) :
  Cal.transform_row row
  = (transformedRow <- forEach row cal_entry Cal.initial_row ;;
     if negb (truthy (prop transformedRow (u "memo")))
     then Ok (obj_set transformedRow (u "memo") (VStr []))
     else Ok transformedRow).
Proof. reflexivity. Qed.

Definition cal_headers : list jsval :=
  [ VStr Cal.date_header; VStr Cal.payee_header; VStr (u "סכום חיוב");
    VStr (u "הערות") ].

Definition entry_if (v : jsval) (key : jsstring) : object jsval :=
  if truthy v then [(key, v)] else [].

(** The raw record of a row of four cells under the Cal headers: the cells
    that are not empty, under their headers. *)
Lemma cal_raw_record (d p a m : jsval) :
  raw_record cal_headers [d; p; a; m]
  = entry_if d Cal.date_header ++ entry_if p Cal.payee_header
    ++ entry_if a (u "סכום חיוב") ++ entry_if m (u "הערות").
Proof.
  unfold raw_record, cal_headers, entry_if.
  cbn [raw_record_from elem nth].
  destruct (truthy d), (truthy p), (truthy a), (truthy m); reflexivity.
Qed.

(** An entry of another column leaves the amount as it is. *)
Lemma cal_entry_other (acc : object jsval) (v : jsval) (key : jsstring)
      (m : FieldMapping) :
  obj_get Cal.headerMapping (Cal.normalize_str key) = Some m ->
  target m <> amount ->
  exists acc', forEach (entry_if v key) cal_entry acc = Ok acc'
               /\ prop acc' amount = prop acc amount.
Proof.
  intros M N. unfold entry_if. destruct (truthy v); cbn [forEach].
  - unfold cal_entry. rewrite M.
    destruct (cal_mapping_total _ m v M) as (r & R). rewrite R. cbn [bind].
    eexists. split; [reflexivity|]. now apply prop_set_other.
  - eexists. split; reflexivity.
Qed.

(** The record of a row whose amount cell gives [null]: it is there, and
    its amount is [null]. *)
Lemma cal_null_amount_record (d p a m : jsval) :
  truthy a = true ->
  Cal.amount_transform a = Ok VNull ->
  exists t, Cal.transform_row (raw_record cal_headers [d; p; a; m]) = Ok t
            /\ prop t amount = VNull.
Proof.
  intros Ta Na. rewrite cal_transform_row_unfold, cal_raw_record, forEach_app.
  destruct (cal_entry_other Cal.initial_row d Cal.date_header cal_date)
    as (t1 & E1 & _); [reflexivity | vm_compute; discriminate |].
  rewrite E1. cbn [bind]. rewrite forEach_app.
  destruct (cal_entry_other t1 p Cal.payee_header cal_payee)
    as (t2 & E2 & _); [reflexivity | vm_compute; discriminate |].
  rewrite E2. cbn [bind]. rewrite forEach_app.
  unfold entry_if at 1. rewrite Ta. cbn [forEach]. unfold cal_entry at 1.
  replace (obj_get Cal.headerMapping (Cal.normalize_str (u "סכום חיוב")))
    with (Some cal_amount) by reflexivity.
  unfold apply_mapping. cbn [transform target cal_amount]. rewrite Na. cbn [bind].
  destruct (cal_entry_other (obj_set t2 amount VNull) m (u "הערות") cal_memo)
    as (t4 & E4 & P4); [reflexivity | vm_compute; discriminate |].
  rewrite E4. cbn [bind]. rewrite prop_set_same in P4.
  destruct (negb (truthy (prop t4 (u "memo")))).
  - eexists. split; [reflexivity|].
    rewrite prop_set_other; [exact P4 | vm_compute; discriminate].
  - eexists. split; [reflexivity | exact P4].
Qed.

(** What the amount transform makes of a cell that is not a number. *)
Lemma cal_amount_not_a_number (s : jsstring) :
  s <> [] ->
  s = Cal.not_a_number
  \/ parseFloat (remove_all (fun c => (c =? shekel)%N || is_space c || (c =? comma)%N) s)
     = NaN ->
  Cal.amount_transform (VStr s) = Ok VNull.
Proof.
  intros N H. destruct s as [|c s]; [contradiction|].
  unfold Cal.amount_transform. cbn [ToString].
  destruct (str_eqb (c :: s) Cal.not_a_number) eqn:E; [reflexivity|].
  destruct H as [H|H].
  - rewrite H, str_eqb_refl in E. discriminate.
  - now rewrite H.
Qed.

(** Every row of the transaction block gives one record. *)
Lemma cal_keeps_every_row (sheetJson : list (list jsval)) (r : AnalysisResult)
      (hi : nat) :
  Cal.analyzeCalRows sheetJson = Ok r ->
  findIndex Cal.is_header_row sheetJson 0 = Ok (Some hi) ->
  List.length (transactions r)
  = List.length (block_rows (skipn (S hi) sheetJson)).
Proof.
  unfold Cal.analyzeCalRows. intros H F. rewrite F in H. cbn [bind] in H.
  destruct (mapM Cal.normalizeHeaderString (nth hi sheetJson [])) as [hs|];
    [|discriminate].
  cbn [bind] in H.
  match type of H with
  | context [mapM Cal.transform_row ?raw] =>
    destruct (mapM Cal.transform_row raw) as [txs|] eqn:TX; [|discriminate]
  end.
  cbn [bind] in H. inversion H. cbn [transactions].
  apply mapM_length in TX. rewrite TX. apply length_map.
Qed.

(** C6, as the code has it.  In Cal a row whose amount cell holds "לא מספר",
    or a text that [parseFloat] cannot read once the shekel sign, the white
    space and the commas are removed, is not dropped: its record is in the
    output with the amount [null], which is neither 0 nor [NaN], and every
    row of the transaction block gives one record. *)
Theorem cal_keeps_rows_without_amount :
  (forall s : jsstring,
      s <> [] ->
      s = Cal.not_a_number
      \/ parseFloat (remove_all (fun c => (c =? shekel)%N || is_space c
                                          || (c =? comma)%N) s) = NaN ->
      Cal.amount_transform (VStr s) = Ok VNull)
  /\ (forall d p a m : jsval,
         truthy a = true ->
         Cal.amount_transform a = Ok VNull ->
         exists t, Cal.transform_row (raw_record cal_headers [d; p; a; m]) = Ok t
                   /\ prop t amount = VNull
                   /\ prop t amount <> VNum (num_of_Z 0)
                   /\ prop t amount <> VNum NaN)
  /\ (forall (sheetJson : list (list jsval)) (r : AnalysisResult) (hi : nat),
         Cal.analyzeCalRows sheetJson = Ok r ->
         findIndex Cal.is_header_row sheetJson 0 = Ok (Some hi) ->
         List.length (transactions r)
         = List.length (block_rows (skipn (S hi) sheetJson))).
Proof.
  split; [exact cal_amount_not_a_number | split; [|exact cal_keeps_every_row]].
  intros d p a m Ta Na.
  destruct (cal_null_amount_record d p a m Ta Na) as (t & E & P).
  exists t. rewrite P. repeat split; [assumption | discriminate | discriminate].
Qed.

Lemma cal_keeps_rows_without_amount_witness :
  Cal.amount_transform (VStr Cal.not_a_number) = Ok VNull
  /\ (exists t,
         Cal.transform_row
           (raw_record cal_headers
              [VStr (u "12/04/25"); VStr (u "חנות"); VStr Cal.not_a_number; VStr []])
         = Ok t
         /\ prop t amount = VNull
         /\ prop t amount <> VNum (num_of_Z 0)
         /\ prop t amount <> VNum NaN).
Proof.
  split.
  - apply (proj1 cal_keeps_rows_without_amount).
    + discriminate.
    + now left.
  - apply (proj1 (proj2 cal_keeps_rows_without_amount)); reflexivity.
Defined.

(** Against C6 as stated: the Cal sheet with a row whose amount is
    "לא מספר" gives three records, the second with the date of that row and
    the amount [null]. *)
Lemma cal_row_not_dropped_counterexample :
  exists t1 t2 t3,
    Cal.analyzeCalRows cal_sheet = Ok (mkResult [t1; t2; t3] VNull)
    /\ prop t2 (u "date") = VStr (u "2025-04-12")
    /\ prop t2 (u "payee_name") = VStr (u "חנות")
    /\ prop t2 amount = VNull.
Proof.
  do 3 eexists. split; [vm_compute; reflexivity|]. repeat split.
Qed.

(** *** The filter of the Max sheet, for comparison *)

Lemma max_date_total (v : jsval) : exists r, Max.date_transform v = Ok r.
Proof.
  destruct v as [| | b | x | s]; try (eexists; reflexivity).
  unfold Max.date_transform.
  destruct (negb (truthy (VStr s)) || negb (includes s [dash])) eqn:E;
    [eexists; reflexivity|].
  apply orb_false_elim in E. destruct E as [_ E].
  apply negb_false_iff, includes_single in E.
  destruct (split_on_two dash s E) as (a & b & rest & S).
  rewrite S. eexists. reflexivity.
Qed.

Lemma first_writer_elsewhere (row acc : object jsval) (m : FieldMapping) :
  target m <> amount ->
  (forall v, exists r, apply_mapping m v = Ok r) ->
  exists acc', first_writer row acc m = Ok acc'
               /\ prop acc' amount = prop acc amount.
Proof.
  intros N T. unfold first_writer.
  destruct (negb (is_undefined (prop row (source m)))
            && negb (truthy (prop acc (target m)))).
  - destruct (T (prop row (source m))) as (r & R). rewrite R. cbn [bind].
    eexists. split; [reflexivity|]. now apply prop_set_other.
  - eexists. split; reflexivity.
Qed.

(** A Max record without an amount cell is dropped, ... *)
Lemma max_drops_missing_amount (row : object jsval) :
  prop row (u "סכום חיוב") = VUndefined -> Max.transform_row row = Ok None.
Proof.
  intros U. unfold Max.transform_row, Max.MAX_FIELD_MAPPINGS. cbn [forEach].
  destruct (first_writer_elsewhere row []
              (mkMapping (u "תאריך עסקה") (u "date") (Some Max.date_transform)))
    as (t1 & E1 & P1);
    [vm_compute; discriminate | intros v; apply max_date_total |].
  rewrite E1. cbn [bind].
  destruct (first_writer_elsewhere row t1
              (mkMapping (u "שם בית העסק") (u "payee_name") None))
    as (t2 & E2 & P2); [vm_compute; discriminate | intros v; now eexists |].
  rewrite E2. cbn [bind].
  rewrite first_writer_amount, U. cbn [is_undefined negb andb bind].
  destruct (first_writer_elsewhere row t2 (mkMapping (u "הערות") (u "memo") None))
    as (t4 & E4 & P4); [vm_compute; discriminate | intros v; now eexists |].
  rewrite E4. cbn [bind].
  rewrite P4, P2, P1. reflexivity.
Qed.

(** ... while a record whose amount is [null] passes [isNaN(null)] and
    stays. *)
Lemma max_keeps_null_amount :
  Max.processMaxSheet
    [ [VStr (u "תאריך עסקה"); VStr (u "שם בית העסק"); VStr (u "סכום חיוב");
       VStr (u "הערות")];
      [VStr (u "10-04-2025"); VStr (u "סופר"); VNum (num_of_Z 100)];
      [VStr (u "12-04-2025"); VStr (u "חנות"); VStr Cal.not_a_number];
      [VStr (u "13-04-2025"); VStr (u "תחבורה")] ]
  = Ok [ [(u "date", VStr (u "2025-04-10")); (u "payee_name", VStr (u "סופר"));
          (amount, VNum (num_of_Z (-100000)))];
         [(u "date", VStr (u "2025-04-12")); (u "payee_name", VStr (u "חנות"));
          (amount, VNull)] ].
Proof. vm_compute. reflexivity. Qed.

(** * Further properties

    Properties of the code around the claims: the functions the cited
    files hold besides the cited lines, what they call and what calls
    them. *)

(** ** The delimiter of a text file (analyzers/fileAnalyzer.ts) *)

Lemma count_le_length (c : N) (s : jsstring) :
  (Analyzers.count c s <= List.length s)%nat.
Proof. unfold Analyzers.count. apply filter_length_le. Qed.

(** X1.  [detectDelimiter] answers with the vertical bar for every text.
    The candidates are counted with [new RegExp(delimiter, 'g')], and for
    the last candidate, ['|'], that expression is an empty alternation: it
    matches once at every position of the first line, one more time than
    the line has characters, which no count of a character of the line
    reaches.  The comma, the semicolon and the tab are never chosen, not
    even for the empty text. *)
Theorem detectDelimiter_is_always_the_bar (csvText : jsstring) :
  Analyzers.detectDelimiter csvText = [124%N].
Proof.
  unfold Analyzers.detectDelimiter.
  set (firstLine := nth 0%nat (split_on 10%N csvText) []).
  pose proof (count_le_length comma firstLine) as C1.
  pose proof (count_le_length 59%N firstLine) as C2.
  pose proof (count_le_length 9%N firstLine) as C3.
  cbn [fold_left fst snd].
  match goal with
  | |- fst (if (snd ?best <? _)%nat then _ else _) = _ =>
    assert (snd best <= List.length firstLine)%nat as B
        by (repeat match goal with
                   | |- context [if ?c then _ else _] => destruct c
                   end; cbn [snd]; lia);
    destruct (Nat.ltb_spec (snd best) (S (List.length firstLine)));
    [reflexivity | lia]
  end.
Qed.

(** ** Vendors named in a text (utils/fileAnalyzer.ts) *)

Lemma startsWith_app_l (s p q : jsstring) :
  startsWith s (p ++ q) = true -> startsWith s p = true.
Proof.
  revert s. induction p as [|c p IH]; intros s H; [now destruct s|].
  destruct s as [|d s]; [discriminate|]. cbn [app startsWith] in *.
  apply andb_true_iff in H. destruct H as [H1 H2].
  rewrite H1. cbn [andb]. now apply IH.
Qed.

(** A text that includes a pattern includes every prefix of the pattern. *)
Lemma includes_app_l (s p q : jsstring) :
  includes s (p ++ q) = true -> includes s p = true.
Proof.
  induction s as [|d s IH]; cbn [includes]; intros H.
  - rewrite orb_false_r in *. now apply startsWith_app_l with q.
  - apply orb_true_iff in H. apply orb_true_iff. destruct H as [H|H].
    + left. now apply startsWith_app_l with q.
    + right. now apply IH.
Qed.

Lemma includes_longer_false (s p q : jsstring) :
  includes s p = false -> includes s (p ++ q) = false.
Proof.
  intros H. destruct (includes s (p ++ q)) eqn:E; [|reflexivity].
  apply includes_app_l in E. congruence.
Qed.

(** X2.  [findVendorInText] reports a vendor with the pattern that was
    found first, and six of the fifteen patterns are never reported:
    AMAZON.COM, NETFLIX.COM, SPOTIFY USA, APPLE.COM, GOOGLE * and
    GOOGLE.COM each stand behind a pattern they begin with, which is found
    in every text that holds them.  The vendor carries no analyzer of its
    own. *)
Theorem findVendorInText_reports_the_short_pattern
        (Buffer Data : Type) (toUpperCase : jsstring -> jsstring)
        (text : jsstring) (v : Utils.Vendor Buffer Data) :
  Utils.findVendorInText Buffer Data toUpperCase text = Some v ->
  In (name v, uniqueIdentifiers _ _ _ v)
     [ (u "AMAZON", [u "AMAZON"]); (u "AMAZON", [u "AMZN"]);
       (u "STARBUCKS", [u "STARBUCKS"]); (u "STARBUCKS", [u "SBUX"]);
       (u "NETFLIX", [u "NETFLIX"]); (u "SPOTIFY", [u "SPOTIFY"]);
       (u "APPLE", [u "APPLE"]); (u "APPLE", [u "ITUNES"]);
       (u "GOOGLE", [u "GOOGLE"]) ]
  /\ analyzeFile v = None /\ isVendorFile v = None.
Proof.
  unfold Utils.findVendorInText, Utils.VENDOR_IDENTIFIERS.
  set (t := toUpperCase text).
  cbn [fold_right find fst snd].
  assert (D : forall p q, includes t p = false -> includes t (p ++ q) = false)
    by (intros; now apply includes_longer_false).
  destruct (includes t (u "AMAZON")) eqn:A1;
    [intros [= <-]; cbn; auto 10|].
  destruct (includes t (u "AMZN")) eqn:A2;
    [intros [= <-]; cbn; auto 10|].
  change (u "AMAZON.COM") with (u "AMAZON" ++ u ".COM"). rewrite (D _ _ A1).
  destruct (includes t (u "STARBUCKS")) eqn:S1;
    [intros [= <-]; cbn; auto 10|].
  destruct (includes t (u "SBUX")) eqn:S2;
    [intros [= <-]; cbn; auto 10|].
  destruct (includes t (u "NETFLIX")) eqn:N1;
    [intros [= <-]; cbn; auto 10|].
  change (u "NETFLIX.COM") with (u "NETFLIX" ++ u ".COM"). rewrite (D _ _ N1).
  destruct (includes t (u "SPOTIFY")) eqn:P1;
    [intros [= <-]; cbn; auto 10|].
  change (u "SPOTIFY USA") with (u "SPOTIFY" ++ u " USA"). rewrite (D _ _ P1).
  destruct (includes t (u "APPLE")) eqn:L1;
    [intros [= <-]; cbn; auto 10|].
  change (u "APPLE.COM") with (u "APPLE" ++ u ".COM"). rewrite (D _ _ L1).
  destruct (includes t (u "ITUNES")) eqn:L2;
    [intros [= <-]; cbn; auto 10|].
  destruct (includes t (u "GOOGLE")) eqn:G1;
    [intros [= <-]; cbn; auto 20|].
  change (u "GOOGLE *") with (u "GOOGLE" ++ u " *"). rewrite (D _ _ G1).
  change (u "GOOGLE.COM") with (u "GOOGLE" ++ u ".COM"). rewrite (D _ _ G1).
  discriminate.
Qed.

(** A statement line that names the store's web address is reported under
    the pattern AMAZON. *)
Lemma findVendorInText_reports_the_short_pattern_witness :
  let v : Utils.Vendor unit unit :=
    mkVendor (u "AMAZON") (Fin 9 1) [u "AMAZON"] [] None None in
  In (name v, uniqueIdentifiers _ _ _ v)
     [ (u "AMAZON", [u "AMAZON"]); (u "AMAZON", [u "AMZN"]);
       (u "STARBUCKS", [u "STARBUCKS"]); (u "STARBUCKS", [u "SBUX"]);
       (u "NETFLIX", [u "NETFLIX"]); (u "SPOTIFY", [u "SPOTIFY"]);
       (u "APPLE", [u "APPLE"]); (u "APPLE", [u "ITUNES"]);
       (u "GOOGLE", [u "GOOGLE"]) ]
  /\ analyzeFile v = None /\ isVendorFile v = None.
Proof.
  intros v.
  apply (findVendorInText_reports_the_short_pattern
           unit unit (fun s => s) (u "AMAZON.COM*2K4 SEATTLE") v).
  vm_compute. reflexivity.
Defined.

(** ** The end of a transaction table (analyzers/calAnalyzer.ts,
    utils/maxAnalyzer.ts) *)

Lemma findIndex_bound {A} (p : A -> outcome bool) (l : list A) (i h : nat) :
  findIndex p l i = Ok (Some h) -> (i <= h < i + List.length l)%nat.
Proof.
  revert i. induction l as [|a l IH]; intros i H; [discriminate|].
  cbn [findIndex] in H. destruct (p a) as [[|]|e]; cbn [bind] in H.
  - injection H as <-. simpl. lia.
  - apply IH in H. simpl. lia.
  - discriminate.
Qed.

Lemma findIndex_app {A} (p : A -> outcome bool) (l l' : list A) (i h : nat) :
  findIndex p l i = Ok (Some h) -> findIndex p (l ++ l') i = Ok (Some h).
Proof.
  revert i. induction l as [|a l IH]; intros i H; [discriminate|].
  cbn [findIndex app] in *. destruct (p a) as [[|]|e]; cbn [bind] in *;
    [assumption | now apply IH | discriminate].
Qed.

(** The rows of a block stop at a row whose first cell is empty; what
    follows that row is not in the block. *)
Lemma block_rows_blank (rows rest : list (list jsval)) (blank : list jsval) :
  truthy (elem blank 0) = false ->
  block_rows (rows ++ blank :: rest) = block_rows rows.
Proof.
  intros B. induction rows as [|row rows IH]; cbn [app block_rows].
  - destruct blank as [|c blank]; [reflexivity|].
    unfold elem in B. cbn [nth] in B. now rewrite B.
  - destruct row as [|c row]; [reflexivity|].
    destruct (truthy c); [now rewrite IH | reflexivity].
Qed.

Lemma skipn_app_within {A} (n : nat) (l l' : list A) :
  (n <= List.length l)%nat -> skipn n (l ++ l') = skipn n l ++ l'.
Proof.
  intros H. rewrite skipn_app.
  replace (n - List.length l)%nat with 0%nat by lia. reflexivity.
Qed.

Lemma nth_app_within {A} (n : nat) (l l' : list A) (d : A) :
  (n < List.length l)%nat -> nth n (l ++ l') d = nth n l d.
Proof. intros H. now apply app_nth1. Qed.

(** X3.  A Cal sheet is read up to the first row after the header line
    whose first cell is empty.  Whatever the sheet holds below such a row -
    a second table of transactions, totals, notes - changes neither the
    transactions nor the balance of the result. *)
Theorem cal_sheet_is_read_up_to_the_first_blank_row
        (sheetJson rest : list (list jsval)) (blank : list jsval) (hi : nat) :
  findIndex Cal.is_header_row sheetJson 0 = Ok (Some hi) ->
  (2 < List.length sheetJson)%nat ->
  truthy (elem blank 0) = false ->
  Cal.analyzeCalRows (sheetJson ++ blank :: rest) = Cal.analyzeCalRows sheetJson.
Proof.
  intros H L B. unfold Cal.analyzeCalRows.
  pose proof (findIndex_bound _ _ _ _ H) as [_ Hb]. cbn [plus] in Hb.
  rewrite (findIndex_app _ _ (blank :: rest) _ _ H), H. cbn [bind].
  assert (E : Cal.balance_of (sheetJson ++ blank :: rest) = Cal.balance_of sheetJson).
  { unfold Cal.balance_of. now rewrite nth_error_app1 by lia. }
  rewrite E, nth_app_within by lia.
  rewrite skipn_app_within by lia.
  now rewrite block_rows_blank.
Qed.

(** A statement whose table is followed by an empty row and a second
    table. *)
Definition cal_two_tables : list (list jsval) :=
  [ [VStr (u "4580")];
    [];
    [VStr (u "עסקאות לחיוב ב-02/05/2025: 5,259.19 ₪")];
    [];
    [VStr (u "תאריך עסקה"); VStr (u "שם בית עסק"); VStr (u "סכום חיוב")];
    [VStr (u "1/4/25"); VStr (u "סופר"); VStr (u "₪ 100.00")] ].

Lemma cal_sheet_is_read_up_to_the_first_blank_row_witness :
  Cal.analyzeCalRows
    (cal_two_tables
       ++ [] :: [ [VStr (u "תאריך עסקה"); VStr (u "שם בית עסק"); VStr (u "סכום חיוב")];
                  [VStr (u "2/4/25"); VStr (u "חנות"); VStr (u "₪ 50.00")] ])
  = Cal.analyzeCalRows cal_two_tables.
Proof.
  apply (cal_sheet_is_read_up_to_the_first_blank_row cal_two_tables _ [] 4%nat).
  - reflexivity.
  - simpl. lia.
  - reflexivity.
Defined.

(** The header line of a Max sheet, as [processMaxSheet] looks for it. *)
Definition max_header_row (row : list jsval) : outcome bool :=
  Ok (Max.val_is (elem row 0) (u "תאריך עסקה")
      && Max.val_is (elem row 1) (u "שם בית העסק")).

(** X4.  A Max sheet, too, is read up to the first row after the header
    line whose first cell is empty; the rows below it are not looked at. *)
Theorem max_sheet_is_read_up_to_the_first_blank_row
        (sheetJson rest : list (list jsval)) (blank : list jsval) (hi : nat) :
  findIndex max_header_row sheetJson 0 = Ok (Some hi) ->
  truthy (elem blank 0) = false ->
  Max.processMaxSheet (sheetJson ++ blank :: rest) = Max.processMaxSheet sheetJson.
Proof.
  intros H B. unfold Max.processMaxSheet. fold max_header_row.
  pose proof (findIndex_bound _ _ _ _ H) as [_ Hb]. cbn [plus] in Hb.
  rewrite (findIndex_app _ _ (blank :: rest) _ _ H), H. cbn [bind].
  rewrite nth_app_within by lia.
  rewrite skipn_app_within by lia.
  now rewrite block_rows_blank.
Qed.

Definition max_one_table : list (list jsval) :=
  [ [VStr (u "תאריך עסקה"); VStr (u "שם בית העסק"); VStr (u "סכום חיוב")];
    [VStr (u "10-04-2025"); VStr (u "סופר"); VNum (num_of_Z 100)] ].

Lemma max_sheet_is_read_up_to_the_first_blank_row_witness :
  Max.processMaxSheet
    (max_one_table
       ++ [VStr []; VStr (u "סך הכל")]
       :: [ [VStr (u "12-04-2025"); VStr (u "חנות"); VNum (num_of_Z 50)] ])
  = Max.processMaxSheet max_one_table.
Proof.
  apply (max_sheet_is_read_up_to_the_first_blank_row max_one_table _ _ 0%nat).
  - reflexivity.
  - reflexivity.
Defined.

(** ** The amounts of the Max rows (utils/maxAnalyzer.ts) *)

Lemma mapM_keep_rows {A B} (f : A -> outcome (option B)) (P : B -> Prop)
      (l : list A) (rs : list (option B)) :
  (forall a b, f a = Ok (Some b) -> P b) ->
  mapM f l = Ok rs -> Forall P (keep_rows rs).
Proof.
  intros F. revert rs. induction l as [|a l IH]; intros rs H.
  - injection H as <-. constructor.
  - cbn [mapM] in H. destruct (f a) as [o|e] eqn:E; [|discriminate].
    cbn [bind] in H. destruct (mapM f l) as [os|e]; [|discriminate].
    cbn [bind] in H. injection H as <-.
    destruct o as [b|]; cbn [keep_rows]; [constructor|]; eauto.
Qed.

(** What the transform of the amount column can answer. *)
Lemma max_amount_classes (v r : jsval) :
  Max.amount_transform v = Ok r -> r = VNull \/ exists x, r = VNum x.
Proof.
  unfold Max.amount_transform.
  destruct (negb (truthy v)); [intros [= <-]; now left|].
  destruct v as [| | b | x | s]; intros [= <-]; try (now left).
  - right. now eexists.
  - match goal with |- context [if ?c then _ else _] => destruct c end;
      [now left | right; now eexists].
Qed.

(** The amount of a transformed Max row is [undefined] or what the amount
    transform answered. *)
Lemma max_row_amount (row t : object jsval) :
  forEach Max.MAX_FIELD_MAPPINGS (first_writer row) [] = Ok t ->
  prop t amount = VUndefined \/ prop t amount = VNull
  \/ exists x, prop t amount = VNum x.
Proof.
  unfold Max.MAX_FIELD_MAPPINGS. cbn [forEach].
  destruct (first_writer_elsewhere row []
              (mkMapping (u "תאריך עסקה") (u "date") (Some Max.date_transform)))
    as (t1 & E1 & P1);
    [vm_compute; discriminate | intros v; apply max_date_total |].
  rewrite E1. cbn [bind].
  destruct (first_writer_elsewhere row t1
              (mkMapping (u "שם בית העסק") (u "payee_name") None))
    as (t2 & E2 & P2); [vm_compute; discriminate | intros v; now eexists |].
  rewrite E2. cbn [bind].
  assert (U : prop t2 amount = VUndefined) by (rewrite P2, P1; reflexivity).
  rewrite first_writer_amount.
  destruct (negb (is_undefined (prop row (u "סכום חיוב")))
            && negb (truthy (prop t2 amount))).
  - destruct (Max.amount_transform (prop row (u "סכום חיוב"))) as [v|e] eqn:EA;
      cbn [bind]; [|discriminate].
    destruct (first_writer_elsewhere row (obj_set t2 amount v)
                (mkMapping (u "הערות") (u "memo") None))
      as (t4 & E4 & P4); [vm_compute; discriminate | intros w; now eexists |].
    rewrite E4. cbn [bind]. intros [= <-]. rewrite P4, prop_set_same.
    right. now apply max_amount_classes with (prop row (u "סכום חיוב")).
  - cbn [bind].
    destruct (first_writer_elsewhere row t2 (mkMapping (u "הערות") (u "memo") None))
      as (t4 & E4 & P4); [vm_compute; discriminate | intros w; now eexists |].
    rewrite E4. cbn [bind]. intros [= <-]. rewrite P4. now left.
Qed.

(** X5.  Every row that [processMaxSheet] returns has an amount, and the
    amount is [null] or a number other than [NaN]: a row without an amount
    cell is left out, a row whose amount cell cannot be read as a number
    stays, with the amount [null]. *)
Theorem max_rows_have_a_number_or_null_for_amount
        (sheetJson : list (list jsval)) (rows : list (object jsval)) :
  Max.processMaxSheet sheetJson = Ok rows ->
  Forall (fun r => prop r amount = VNull
                   \/ exists x, prop r amount = VNum x /\ num_is_nan x = false)
         rows.
Proof.
  unfold Max.processMaxSheet.
  destruct (findIndex _ sheetJson 0) as [[hi|]|e]; cbn [bind];
    [| intros [= <-]; constructor | discriminate].
  destruct (mapM Max.transform_row _) as [rs|e] eqn:M; cbn [bind];
    [|discriminate].
  intros [= <-]. revert M. apply mapM_keep_rows.
  intros row t. unfold Max.transform_row.
  destruct (forEach Max.MAX_FIELD_MAPPINGS (first_writer row) []) as [t'|e] eqn:F;
    cbn [bind]; [|discriminate].
  destruct (isNaN (prop t' amount)) eqn:N; intros [= <-].
  destruct (max_row_amount row t' F) as [U|[U|(x & U)]]; rewrite U in *.
  - discriminate.
  - now left.
  - right. exists x. split; [reflexivity | exact N].
Qed.

Lemma max_rows_have_a_number_or_null_for_amount_witness :
  Forall (fun r => prop r amount = VNull
                   \/ exists x, prop r amount = VNum x /\ num_is_nan x = false)
         [ [(u "date", VStr (u "2025-04-10")); (u "payee_name", VStr (u "סופר"));
            (amount, VNum (num_of_Z (-100000)))];
           [(u "date", VStr (u "2025-04-12")); (u "payee_name", VStr (u "חנות"));
            (amount, VNull)] ].
Proof.
  apply (max_rows_have_a_number_or_null_for_amount
           [ [VStr (u "תאריך עסקה"); VStr (u "שם בית העסק"); VStr (u "סכום חיוב");
              VStr (u "הערות")];
             [VStr (u "10-04-2025"); VStr (u "סופר"); VNum (num_of_Z 100)];
             [VStr (u "12-04-2025"); VStr (u "חנות"); VStr Cal.not_a_number];
             [VStr (u "13-04-2025"); VStr (u "תחבורה")] ]).
  vm_compute. reflexivity.
Defined.

(** ** The rows of an Isracard statement (utils/isracardAnalyzer.ts) *)

(** One step of the first-writer loop leaves the other fields alone ... *)
Lemma first_writer_keeps (row acc acc' : object jsval) (m : FieldMapping)
      (k : jsstring) :
  first_writer row acc m = Ok acc' -> target m <> k -> prop acc' k = prop acc k.
Proof.
  unfold first_writer. intros H N.
  destruct (negb (is_undefined (prop row (source m)))
            && negb (truthy (prop acc (target m)))).
  - destruct (apply_mapping m (prop row (source m))) as [v|e]; cbn [bind] in H;
      [|discriminate].
    injection H as <-. now apply prop_set_other.
  - now injection H as <-.
Qed.

(** ... and its own field is as before or holds what the mapping made of
    the cell. *)
Lemma first_writer_sets (row acc acc' : object jsval) (m : FieldMapping) :
  first_writer row acc m = Ok acc' ->
  prop acc' (target m) = prop acc (target m)
  \/ apply_mapping m (prop row (source m)) = Ok (prop acc' (target m)).
Proof.
  unfold first_writer. intros H.
  destruct (negb (is_undefined (prop row (source m)))
            && negb (truthy (prop acc (target m)))).
  - destruct (apply_mapping m (prop row (source m))) as [v|e]; cbn [bind] in H;
      [|discriminate].
    injection H as <-. right. now rewrite prop_set_same.
  - injection H as <-. now left.
Qed.

Lemma mapM_throws {A B} (f : A -> outcome B) (l : list A) (a : A) (e : exn) :
  In a l -> f a = Throw e -> exists e', mapM f l = Throw e'.
Proof.
  induction l as [|b l IH]; intros I F; [destruct I|].
  cbn [mapM]. destruct I as [->|I].
  - rewrite F. now eexists.
  - destruct (f b); cbn [bind]; [|now eexists].
    destruct (IH I F) as (e' & ->). now eexists.
Qed.

Local Abbreviation payee_name := (u "payee_name").

(** The four steps of the Isracard row transform, one after the other. *)
Lemma isracard_row_steps (row t : object jsval) :
  forEach Isracard.ISRACARD_FIELD_MAPPINGS (first_writer row) [] = Ok t ->
  (prop t amount = VUndefined \/ exists x, prop t amount = VNum x)
  /\ (prop t payee_name = VUndefined
      \/ prop t payee_name = prop row (u "שם בית עסק")).
Proof.
  unfold Isracard.ISRACARD_FIELD_MAPPINGS. cbn [forEach].
  destruct (first_writer row [] _) as [t1|e] eqn:E1; cbn [bind]; [|discriminate].
  destruct (first_writer row t1 _) as [t2|e] eqn:E2; cbn [bind]; [|discriminate].
  destruct (first_writer row t2 _) as [t3|e] eqn:E3; cbn [bind]; [|discriminate].
  destruct (first_writer row t3 _) as [t4|e] eqn:E4; cbn [bind]; [|discriminate].
  intros [= <-].
  pose proof (first_writer_keeps _ _ _ _ amount E1) as A1.
  pose proof (first_writer_keeps _ _ _ _ amount E2) as A2.
  pose proof (first_writer_sets _ _ _ _ E3) as A3.
  pose proof (first_writer_keeps _ _ _ _ amount E4) as A4.
  pose proof (first_writer_keeps _ _ _ _ payee_name E1) as P1.
  pose proof (first_writer_sets _ _ _ _ E2) as P2.
  pose proof (first_writer_keeps _ _ _ _ payee_name E3) as P3.
  pose proof (first_writer_keeps _ _ _ _ payee_name E4) as P4.
  cbn [target source transform apply_mapping] in *.
  rewrite A4, P4, P3 by (vm_compute; discriminate).
  rewrite A2, A1 in A3 by (vm_compute; discriminate).
  rewrite P1 in P2 by (vm_compute; discriminate).
  split.
  - destruct A3 as [A3|A3]; [left; exact A3|].
    right. unfold Isracard.amount_transform in A3. injection A3 as A3.
    eexists. symmetry. exact A3.
  - destruct P2 as [P2|P2]; [left; exact P2|].
    right. now injection P2 as ->.
Qed.

(** X6.  Every row that [analyzeIsracardFile] returns has a number other
    than [NaN] for its amount - never [null], and never no amount - and
    its payee is not the line that sums the card up. *)
Theorem isracard_rows_have_a_number_for_amount
        (sheetJson : list (list jsval)) (rows : list (object jsval)) :
  Isracard.analyzeIsracardRows sheetJson = Ok rows ->
  Forall (fun r => (exists x, prop r amount = VNum x /\ num_is_nan x = false)
                   /\ Isracard.payee_is_total (prop r payee_name) = Ok false)
         rows.
Proof.
  unfold Isracard.analyzeIsracardRows.
  destruct (findIndex Isracard.domestic_header sheetJson 0) as [ds|e];
    cbn [bind]; [|discriminate].
  destruct (findIndex Isracard.foreign_header sheetJson 0) as [fs|e];
    cbn [bind]; [|discriminate].
  destruct (mapM Isracard.transform_row _) as [rs|e] eqn:M; cbn [bind];
    [|discriminate].
  intros [= <-]. revert M. apply mapM_keep_rows.
  intros row t. unfold Isracard.transform_row.
  destruct (forEach _ (first_writer row) []) as [t'|e] eqn:F;
    cbn [bind]; [|discriminate].
  destruct (Isracard.payee_is_total (prop t' payee_name)) as [[|]|e] eqn:P;
    cbn [bind]; try discriminate.
  destruct (isNaN (prop t' amount)) eqn:N; intros [= <-].
  split; [|exact P].
  destruct (proj1 (isracard_row_steps row t' F)) as [U|(x & U)]; rewrite U in N.
  - discriminate.
  - exists x. split; [exact U | exact N].
Qed.

(** A statement with a purchase, a line without an amount, the line of
    the total and, in the table of purchases abroad, a line of daily
    totals. *)
Definition isracard_statement : list (list jsval) :=
  [ [VStr (u "תאריך רכישה"); VStr (u "שם בית עסק"); VStr (u "סכום חיוב")];
    [VStr (u "01/04/2025"); VStr (u "סופר"); VNum (Fin 1005 1)];
    [VStr (u "02/04/2025"); VStr (u "חנות")];
    [VStr (u "03/04/2025"); VStr Isracard.total_marker; VNum (Fin 1005 1)];
    [];
    [VStr (u "תאריך רכישה"); VStr (u "תאריך חיוב"); VStr (u "שם בית עסק");
     VStr (u "סכום חיוב")];
    [VStr (u "05/04/2025"); VStr (u "06/04/2025"); VStr (u "SHOP"); VNum (num_of_Z 20)];
    [VUndefined; VUndefined; VStr (u "TOTAL FOR DATE"); VNum (num_of_Z 20)];
    [VStr (u "07/04/2025"); VStr (u "08/04/2025"); VStr (u "CAFE"); VNum (num_of_Z 3)] ].

Lemma isracard_rows_have_a_number_for_amount_witness :
  Forall (fun r => (exists x, prop r amount = VNum x /\ num_is_nan x = false)
                   /\ Isracard.payee_is_total (prop r payee_name) = Ok false)
         [ [(u "date", VStr (u "2025-04-01")); (payee_name, VStr (u "סופר"));
            (amount, VNum (num_of_Z (-100500)))];
           [(u "date", VStr (u "2025-04-05")); (payee_name, VStr (u "SHOP"));
            (amount, VNum (num_of_Z (-20000)))];
           [(u "date", VStr (u "2025-04-07")); (payee_name, VStr (u "CAFE"));
            (amount, VNum (num_of_Z (-3000)))] ].
Proof.
  apply (isracard_rows_have_a_number_for_amount isracard_statement).
  vm_compute. reflexivity.
Defined.

Lemma first_writer_writes (row acc acc' : object jsval) (m : FieldMapping) :
  is_undefined (prop row (source m)) = false ->
  truthy (prop acc (target m)) = false ->
  first_writer row acc m = Ok acc' ->
  apply_mapping m (prop row (source m)) = Ok (prop acc' (target m)).
Proof.
  unfold first_writer. intros D F. rewrite D, F. cbn [negb andb].
  destruct (apply_mapping m (prop row (source m))) as [v|e]; cbn [bind];
    [|discriminate].
  intros [= <-]. now rewrite prop_set_same.
Qed.

(** A raw record whose merchant is a number cannot be transformed: the
    optional call [payee_name?.includes] guards against a missing payee,
    not against one that has no [includes]. *)
Lemma isracard_numeric_payee_throws (row : object jsval) (x : number) :
  prop row (u "שם בית עסק") = VNum x ->
  exists e, Isracard.transform_row row = Throw e.
Proof.
  intros H. unfold Isracard.transform_row, Isracard.ISRACARD_FIELD_MAPPINGS.
  cbn [forEach].
  destruct (first_writer row [] _) as [t1|e] eqn:E1; cbn [bind]; [|now eexists].
  destruct (first_writer row t1 _) as [t2|e] eqn:E2; cbn [bind]; [|now eexists].
  destruct (first_writer row t2 _) as [t3|e] eqn:E3; cbn [bind]; [|now eexists].
  destruct (first_writer row t3 _) as [t4|e] eqn:E4; cbn [bind]; [|now eexists].
  pose proof (first_writer_keeps _ _ _ _ payee_name E1) as P1.
  pose proof (first_writer_keeps _ _ _ _ payee_name E3) as P3.
  pose proof (first_writer_keeps _ _ _ _ payee_name E4) as P4.
  cbn [target] in *.
  rewrite P4, P3 by (vm_compute; discriminate).
  apply first_writer_writes in E2; cbn [source target apply_mapping transform] in *.
  - injection E2 as E2. rewrite <- E2, H. cbn [Isracard.payee_is_total bind].
    now eexists.
  - now rewrite H.
  - rewrite P1 by (vm_compute; discriminate). reflexivity.
Qed.

(** X7.  One purchase whose merchant cell holds a number - a shop whose
    name is written in digits comes out of the workbook as a number - and
    [analyzeIsracardFile] rejects: no row of the statement is returned. *)
Theorem isracard_numeric_payee_rejects_the_statement
        (sheetJson : list (list jsval)) (i : nat) (row : list jsval) (x : number) :
  findIndex Isracard.domestic_header sheetJson 0 = Ok (Some i) ->
  In row (block_rows (skipn (S i) sheetJson)) ->
  prop (raw_record (nth i sheetJson []) row) (u "שם בית עסק") = VNum x ->
  exists e,
    analyzeIsracardFile (T := unit) (Binary (Ok sheetJson)) = Throw e.
Proof.
  intros H I P. unfold analyzeIsracardFile. cbn [bind].
  unfold Isracard.analyzeIsracardRows. rewrite H. cbn [bind].
  destruct (findIndex Isracard.foreign_header sheetJson 0) as [fs|e];
    cbn [bind]; [|now eexists].
  destruct (isracard_numeric_payee_throws _ _ P) as (e & E).
  destruct (mapM_throws Isracard.transform_row
              (Isracard.table block_rows sheetJson (Some i)
               ++ Isracard.table Isracard.foreign_rows sheetJson fs)
              (raw_record (nth i sheetJson []) row) e) as (e' & M).
  - apply in_or_app. left. unfold Isracard.table. now apply in_map.
  - exact E.
  - rewrite M. now eexists.
Qed.

Lemma isracard_numeric_payee_rejects_the_statement_witness :
  exists e,
    analyzeIsracardFile (T := unit)
      (Binary (Ok [ [VStr (u "תאריך רכישה"); VStr (u "שם בית עסק"); VStr (u "סכום חיוב")];
                    [VStr (u "01/04/2025"); VStr (u "סופר"); VNum (Fin 1005 1)];
                    [VStr (u "02/04/2025"); VNum (num_of_Z 911); VNum (num_of_Z 40)] ]))
    = Throw e.
Proof.
  apply (isracard_numeric_payee_rejects_the_statement
           _ 0%nat [VStr (u "02/04/2025"); VNum (num_of_Z 911); VNum (num_of_Z 40)]
           (num_of_Z 911)).
  - reflexivity.
  - simpl. right. left. reflexivity.
  - reflexivity.
Defined.

(** ** Numbers written and read back

    [Number(x.toFixed(f))], the rounding that the Isracard, Mizrahi and
    Discount transforms of the amount apply. *)

(** The number that a string of decimal digits writes, after [acc]. *)
Fixpoint digits_value (acc : Z) (s : jsstring) : Z :=
  match s with
  | [] => acc
  | c :: s' => digits_value (acc * 10 + (Z.of_N c - 48)) s'
  end.

Lemma is_digit_cases (c : N) :
  is_digit c = true ->
  (c = 48 \/ c = 49 \/ c = 50 \/ c = 51 \/ c = 52 \/ c = 53 \/ c = 54 \/ c = 55
   \/ c = 56 \/ c = 57)%N.
Proof.
  unfold is_digit. intros H. apply andb_true_iff in H. destruct H as [H1 H2].
  apply N.leb_le in H1. apply N.leb_le in H2. lia.
Qed.

Lemma radix_digit_10 (c : N) :
  is_digit c = true -> radix_digit 10 c = Some (Z.of_N c - 48).
Proof.
  intros H. destruct (is_digit_cases c H) as [E|[E|[E|[E|[E|[E|[E|[E|[E|E]]]]]]]]];
    subst c; reflexivity.
Qed.

(** What stops the reading of decimal digits: the end, or a character that
    is no digit. *)
Definition stops (rest : jsstring) : Prop :=
  match rest with
  | [] => True
  | c :: _ => radix_digit 10 c = None
  end.

Lemma read_digits_app (d rest : jsstring) (acc : Z) (n : nat) :
  all_digits d -> stops rest ->
  read_digits 10 acc n (d ++ rest) = (digits_value acc d, (n + List.length d)%nat, rest).
Proof.
  intros D S. revert acc n. induction D as [|c d Hc D IH]; intros acc n.
  - cbn [app digits_value List.length]. rewrite Nat.add_0_r.
    destruct rest as [|c rest]; [reflexivity|].
    cbn [read_digits]. cbn [stops] in S. now rewrite S.
  - cbn [app read_digits digits_value List.length].
    rewrite (radix_digit_10 c Hc), IH. now rewrite Nat.add_succ_r.
Qed.

Lemma digits_value_app (a b : jsstring) (acc : Z) :
  digits_value acc (a ++ b) = digits_value (digits_value acc a) b.
Proof. revert acc. induction a as [|c a IH]; intros acc; [reflexivity|apply IH]. Qed.

Lemma digits_value_zeros (j : nat) (t : jsstring) :
  digits_value 0 (zeros j ++ t) = digits_value 0 t.
Proof. induction j as [|j IH]; [reflexivity | exact IH]. Qed.

(** The digits of a decimal numeral of the library, as code units. *)
Fixpoint uint_units (d : Decimal.uint) : jsstring :=
  match d with
  | Decimal.Nil => []
  | Decimal.D0 d' => 48%N :: uint_units d'
  | Decimal.D1 d' => 49%N :: uint_units d'
  | Decimal.D2 d' => 50%N :: uint_units d'
  | Decimal.D3 d' => 51%N :: uint_units d'
  | Decimal.D4 d' => 52%N :: uint_units d'
  | Decimal.D5 d' => 53%N :: uint_units d'
  | Decimal.D6 d' => 54%N :: uint_units d'
  | Decimal.D7 d' => 55%N :: uint_units d'
  | Decimal.D8 d' => 56%N :: uint_units d'
  | Decimal.D9 d' => 57%N :: uint_units d'
  end.

Lemma bytes_of_uint (d : Decimal.uint) :
  bytes_of (NilEmpty.string_of_uint d) = uint_units d.
Proof.
  unfold bytes_of.
  induction d; cbn [NilEmpty.string_of_uint list_ascii_of_string map uint_units];
    [reflexivity | now rewrite IHd ..].
Qed.

Lemma uint_units_digits (d : Decimal.uint) : all_digits (uint_units d).
Proof. induction d; cbn [uint_units]; constructor; auto. Qed.

Lemma uint_value_acc (d : Decimal.uint) (acc : positive) :
  digits_value (Zpos acc) (uint_units d) = Zpos (Pos.of_uint_acc d acc).
Proof.
  revert acc. induction d; intros acc; cbn [uint_units digits_value Pos.of_uint_acc];
    [reflexivity | ..];
    match goal with
    | |- digits_value ?z _ = Zpos (Pos.of_uint_acc _ ?p) =>
      replace z with (Zpos p)
        by (rewrite ?Pos2Z.inj_add, ?Pos2Z.inj_mul; change (Z.of_N 48) with 48;
            change (Z.of_N 49) with 49; change (Z.of_N 50) with 50;
            change (Z.of_N 51) with 51; change (Z.of_N 52) with 52;
            change (Z.of_N 53) with 53; change (Z.of_N 54) with 54;
            change (Z.of_N 55) with 55; change (Z.of_N 56) with 56;
            change (Z.of_N 57) with 57; lia);
      apply IHd
    end.
Qed.

Lemma uint_value (d : Decimal.uint) :
  digits_value 0 (uint_units d) = Z.of_N (Pos.of_uint d).
Proof.
  induction d; cbn [uint_units digits_value Pos.of_uint];
    [reflexivity | exact IHd | ..];
    match goal with
    | |- digits_value ?z _ = Z.of_N (N.pos (Pos.of_uint_acc _ ?p)) =>
      change z with (Zpos p); apply uint_value_acc
    end.
Qed.

Lemma digits_of_value (z : Z) : 0 <= z -> digits_value 0 (digits_of z) = z.
Proof.
  intros H. unfold digits_of. rewrite bytes_of_uint, uint_value.
  change (Pos.of_uint (N.to_uint (Z.to_N z))) with (N.of_uint (N.to_uint (Z.to_N z))).
  rewrite DecimalN.Unsigned.of_to. lia.
Qed.

Lemma digits_of_digits (z : Z) : all_digits (digits_of z).
Proof. unfold digits_of. rewrite bytes_of_uint. apply uint_units_digits. Qed.

Lemma digits_of_nonempty (z : Z) : digits_of z <> [].
Proof.
  unfold digits_of. rewrite bytes_of_uint.
  destruct (Z.to_N z) as [|p]; [discriminate|].
  cbn [N.to_uint]. pose proof (DecimalPos.Unsigned.to_uint_nonnil p) as H.
  destruct (Pos.to_uint p); [contradiction | discriminate ..].
Qed.

(** The characters of a number as [toFixed] writes it, and the slash of a
    date. *)
Definition plain (c : N) : bool :=
  is_digit c || (c =? dot)%N || (c =? dash)%N || (c =? slash)%N.

Lemma plain_cases (c : N) :
  plain c = true ->
  (c = 45 \/ c = 46 \/ c = 47 \/ c = 48 \/ c = 49 \/ c = 50 \/ c = 51 \/ c = 52
   \/ c = 53 \/ c = 54 \/ c = 55 \/ c = 56 \/ c = 57)%N.
Proof.
  unfold plain, dot, dash, slash. intros H.
  repeat (apply orb_true_iff in H; destruct H as [H|H]);
    try (apply N.eqb_eq in H; lia).
  apply is_digit_cases in H. lia.
Qed.

Ltac plain_case H :=
  destruct (plain_cases _ H) as [E|[E|[E|[E|[E|[E|[E|[E|[E|[E|[E|[E|E]]]]]]]]]]]];
  subst.

Lemma trim_without_spaces (s : jsstring) :
  Forall (fun c => is_space c = false) s -> trim s = s.
Proof.
  intros H.
  assert (T : forall t, Forall (fun c => is_space c = false) t -> trimStart t = t).
  { intros t [|c t' Hc Ht]; [reflexivity|]. cbn [trimStart]. now rewrite Hc. }
  unfold trim. rewrite (T s H), T by now apply Forall_rev.
  apply rev_involutive.
Qed.

Lemma plain_is_no_space (s : jsstring) :
  Forall (fun c => plain c = true) s -> Forall (fun c => is_space c = false) s.
Proof.
  apply Forall_impl. intros c H. plain_case H; reflexivity.
Qed.

(** [Number] on a string of such characters reads one decimal literal. *)
Lemma Number_of_plain (t : jsstring) :
  Forall (fun c => plain c = true) t -> t <> [] ->
  Number_of_string t
  = match read_decimal t with
    | Some (x, []) => x
    | _ => NaN
    end.
Proof.
  intros P N. unfold Number_of_string.
  rewrite trim_without_spaces by now apply plain_is_no_space.
  destruct t as [|c r]; [contradiction|].
  inversion P as [|? ? Hc Hr]; subst.
  plain_case Hc; try reflexivity.
  destruct r as [|d r]; [reflexivity|].
  inversion Hr as [|? ? Hd _]; subst.
  plain_case Hd; reflexivity.
Qed.

Lemma strip_sign_digit (c : N) (s : jsstring) :
  is_digit c = true -> strip_sign (c :: s) = (false, c :: s).
Proof.
  intros H. destruct (is_digit_cases c H) as [E|[E|[E|[E|[E|[E|[E|[E|[E|E]]]]]]]]];
    subst c; reflexivity.
Qed.

Lemma no_Infinity_at_digit (c : N) (s : jsstring) :
  is_digit c = true -> startsWith (c :: s) (u "Infinity") = false.
Proof.
  intros H. destruct (is_digit_cases c H) as [E|[E|[E|[E|[E|[E|[E|[E|[E|E]]]]]]]]];
    subst c; reflexivity.
Qed.

(** The decimal literal [a] or [a.b], with or without a minus sign, is
    read as a whole and as the number it writes. *)
Lemma read_decimal_digits (neg : bool) (a b : jsstring) :
  all_digits a -> a <> [] -> all_digits b ->
  read_decimal ((if neg then [dash] else [])
                  ++ a ++ match b with [] => [] | _ => dot :: b end)
  = Some (norm (signed neg (digits_value 0 (a ++ b))) (List.length b), []).
Proof.
  intros A N B. destruct a as [|c a]; [contradiction|].
  inversion A as [|? ? Hc Ha]; subst.
  set (tail := match b with [] => [] | _ => dot :: b end).
  assert (S : stops tail) by (subst tail; destruct b; [exact I | reflexivity]).
  assert (R : read_decimal ((if neg then [dash] else []) ++ (c :: a) ++ tail)
              = let '(ip, n1, r1) := read_digits 10 0 0 ((c :: a) ++ tail) in
                let '(m, n2, r2) :=
                  match r1 with
                  | 46%N :: r =>
                    let '(m, n2, r2) := read_digits 10 ip 0 r in
                    match n1, n2 with
                    | O, O => (ip, O, r1)
                    | _, _ => (m, n2, r2)
                    end
                  | _ => (ip, O, r1)
                  end in
                match n1, n2 with
                | O, O => None
                | _, _ =>
                  match read_exponent r2 with
                  | Some (ex, r3) => Some (scaled neg m n2 ex, r3)
                  | None => Some (scaled neg m n2 0, r2)
                  end
                end).
  { unfold read_decimal. destruct neg.
    - change (strip_sign ([dash] ++ (c :: a) ++ tail)) with (true, (c :: a) ++ tail).
      cbv beta iota. cbn [app]. now rewrite no_Infinity_at_digit.
    - cbn [app]. rewrite strip_sign_digit by assumption.
      cbv beta iota. now rewrite no_Infinity_at_digit. }
  rewrite R. rewrite (read_digits_app (c :: a) tail 0 0 A S).
  cbn [List.length plus]. subst tail.
  destruct b as [|d b].
  - cbn [read_exponent List.length]. unfold scaled. cbn [Z.leb Z.compare].
    rewrite app_nil_r. cbn [Z.pow]. now rewrite Z.mul_1_r.
  - pose proof (read_digits_app (d :: b) [] (digits_value 0 (c :: a)) 0 B I) as R2.
    rewrite app_nil_r in R2. unfold dot. rewrite R2.
    cbn [List.length plus read_exponent]. unfold scaled. cbn [Z.leb Z.compare].
    rewrite digits_value_app. cbn [Z.pow]. now rewrite Z.mul_1_r.
Qed.

(** The integer that [toFixed(f)] writes for [m / 10^e]: the nearest to
    [|m| * 10^f / 10^e], the larger one at a tie. *)
Definition rounded (m : Z) (e f : nat) : Z :=
  (2 * Z.abs m * pow10 f + pow10 e) / (2 * pow10 e).

Lemma pow10_pos (e : nat) : 0 < pow10 e.
Proof. unfold pow10. apply Z.pow_pos_nonneg; lia. Qed.

Lemma rounded_nonneg (m : Z) (e f : nat) : 0 <= rounded m e f.
Proof.
  unfold rounded. pose proof (pow10_pos e). pose proof (pow10_pos f).
  apply Z.div_pos; nia.
Qed.

Lemma all_digits_zeros (j : nat) : all_digits (zeros j).
Proof. induction j; constructor; auto. Qed.

(** [Number(x.toFixed(f))] is [x] rounded to [f] decimals, for [x] below
    10^21. *)
Lemma Number_toFixed (m : Z) (e f : nat) :
  Z.abs m < pow10 21 * pow10 e ->
  Number_of_string (toFixed (Fin m e) f)
  = norm (signed (m <? 0) (rounded m e f)) f.
Proof.
  intros Bd. unfold toFixed.
  destruct (Z.leb_spec (pow10 21 * pow10 e) (Z.abs m)) as [L|_]; [lia|].
  fold (rounded m e f).
  set (n := rounded m e f).
  set (s := zeros (S f - List.length (digits_of n)) ++ digits_of n).
  set (k := (List.length s - f)%nat).
  assert (Ds : all_digits s).
  { apply Forall_app. split; [apply all_digits_zeros | apply digits_of_digits]. }
  assert (Ls : (S f <= List.length s)%nat).
  { subst s. rewrite length_app. unfold zeros. rewrite repeat_length. lia. }
  assert (Vs : digits_value 0 s = n).
  { subst s. rewrite digits_value_zeros. apply digits_of_value, rounded_nonneg. }
  pose proof (firstn_skipn k s) as Es.
  set (a := firstn k s) in *. set (b := skipn k s) in *.
  assert (Lb : List.length b = f) by (subst b k; rewrite length_skipn; lia).
  assert (La : a <> []).
  { intros E. assert (List.length a = k) as La
        by (subst a; rewrite length_firstn; lia).
    rewrite E in La. cbn [List.length] in La. unfold k in La. lia. }
  assert (Da : all_digits a /\ all_digits b).
  { rewrite <- Es in Ds. now apply Forall_app in Ds. }
  destruct Da as [Da Db].
  assert (E : match f with O => [] | S _ => [dot] ++ b end
              = match b with [] => [] | _ => dot :: b end).
  { destruct f, b; try reflexivity; discriminate. }
  rewrite E.
  change (if m <? 0 then [45%N] else []) with (if m <? 0 then [dash] else []).
  rewrite Number_of_plain.
  - rewrite (read_decimal_digits (m <? 0) a b Da La Db), Es, Vs, Lb. reflexivity.
  - assert (P : forall t, all_digits t -> Forall (fun c => plain c = true) t).
    { intros t. apply Forall_impl. intros c H. unfold plain. now rewrite H. }
    apply Forall_app. split; [destruct (m <? 0); repeat constructor|].
    apply Forall_app. split; [now apply P|].
    destruct b; [constructor | constructor; [reflexivity | now apply P]].
  - destruct a; [contradiction|]. destruct (m <? 0); discriminate.
Qed.

(** A mantissa that is a multiple of [10^e] is an integer. *)
Lemma norm_exact (M : Z) (e : nat) :
  M mod pow10 e = 0 -> norm M e = Fin (M / pow10 e) 0.
Proof.
  revert M. induction e as [|e IH]; intros M H.
  - cbn [norm]. unfold pow10. cbn [Z.of_nat Z.pow]. now rewrite Z.div_1_r.
  - assert (P : pow10 (S e) = 10 * pow10 e).
    { unfold pow10. rewrite Nat2Z.inj_succ, Z.pow_succ_r by lia. reflexivity. }
    pose proof (pow10_pos e) as Pe.
    rewrite P in H. cbn [norm].
    assert (M10 : M mod 10 = 0).
    { apply Z.mod_divide in H; [|lia]. apply Z.mod_divide; [lia|].
      destruct H as [q H]. exists (q * pow10 e). lia. }
    rewrite M10. cbn [Z.eqb].
    rewrite IH.
    + rewrite P, Z.div_div by lia. reflexivity.
    + apply Z.mod_divide in H; [|lia]. apply Z.mod_divide; [lia|].
      destruct H as [q H]. exists q.
      apply Z.mod_divide in M10; [|lia]. destruct M10 as [r M10].
      rewrite M10, Z.div_mul by lia. lia.
Qed.

(** An integer survives [Number(z.toFixed(f))]. *)
Lemma Number_toFixed_integer (z : Z) (f : nat) :
  Z.abs z < pow10 21 -> Number_of_string (toFixed (Fin z 0) f) = Fin z 0.
Proof.
  intros B. rewrite Number_toFixed
    by (change (pow10 0) with 1; lia).
  pose proof (pow10_pos f) as Pf.
  assert (R : rounded z 0 f = Z.abs z * pow10 f).
  { unfold rounded. change (pow10 0) with 1.
    replace (2 * Z.abs z * pow10 f + 1) with (1 + (Z.abs z * pow10 f) * (2 * 1)) by lia.
    rewrite Z.div_add by lia. reflexivity. }
  rewrite R.
  assert (S : signed (z <? 0) (Z.abs z * pow10 f) = z * pow10 f).
  { unfold signed. destruct (Z.ltb_spec z 0); lia. }
  rewrite S, norm_exact by apply Z.mod_mul, Z.neq_sym, Z.lt_neq, Pf.
  rewrite Z.div_mul by lia. reflexivity.
Qed.

(** A decimal with at most three decimals, times a thousand, is an
    integer. *)
Lemma num_mulZ_milli (a : Z) (e : nat) (sgn : Z) :
  (e <= 3)%nat ->
  num_mulZ (Fin a e) (sgn * 1000) = Fin (sgn * a * pow10 (3 - e)) 0.
Proof.
  intros H. cbn [num_mulZ].
  assert (P : 1000 = pow10 (3 - e) * pow10 e).
  { destruct e as [|[|[|[|e]]]]; [reflexivity .. | lia]. }
  pose proof (pow10_pos e) as Pe.
  replace (a * (sgn * 1000)) with ((sgn * a * pow10 (3 - e)) * pow10 e)
    by (rewrite P; ring).
  rewrite norm_exact by (apply Z.mod_mul; lia).
  rewrite Z.div_mul by lia. reflexivity.
Qed.

Lemma pow10_le_1000 (e : nat) : (e <= 3)%nat -> 0 < pow10 (3 - e) <= 1000.
Proof. destruct e as [|[|[|[|e]]]]; intros; [cbv; split; congruence .. | lia]. Qed.

(** ** The amounts of Isracard, Mizrahi Tfahot and Discount *)



(** X9.  The Mizrahi Tfahot amounts.  A debit or credit cell whose text,
    trimmed and without its commas, reads as a number with at most three
    decimals becomes that number in thousandths, exactly: negated in the
    debit column, as it is in the credit column.  "1,234.56" is -1234560
    as a debit and 1234560 as a credit. *)
Theorem mizrahi_amounts_are_exact_to_the_thousandth
        (s : jsstring) (a : Z) (e : nat) :
  Number_of_string (remove_all (N.eqb comma) (trim s)) = Fin a e ->
  (e <= 3)%nat -> Z.abs a < 10 ^ 12 ->
  Mizrahi.milliunits (-1000) (VStr s) = Ok (VNum (num_of_Z (- a * pow10 (3 - e))))
  /\ Mizrahi.milliunits 1000 (VStr s) = Ok (VNum (num_of_Z (a * pow10 (3 - e)))).
Proof.
  intros N E B. pose proof (pow10_le_1000 e E) as P.
  assert (Z0 : trim s = [] -> a = 0).
  { intros T. rewrite T in N. now injection N. }
  unfold Mizrahi.milliunits.
  destruct s as [|c s].
  { rewrite Z0 by reflexivity. split; reflexivity. }
  cbn [truthy negb].
  destruct (str_eqb (trim (c :: s)) []) eqn:T1.
  { apply str_eqb_eq in T1. rewrite (Z0 T1). cbn [orb]. split; reflexivity. }
  destruct (str_eqb (trim (c :: s)) (u "&nbsp;")) eqn:T2.
  { apply str_eqb_eq in T2. rewrite T2 in N. vm_compute in N. discriminate. }
  cbn [orb]. rewrite N.
  change (-1000) with (-1 * 1000). change 1000 with (1 * 1000) at 2.
  rewrite !num_mulZ_milli by assumption.
  rewrite !Number_toFixed_integer by (change (pow10 21) with (10 ^ 21); nia).
  unfold num_of_Z. split; do 3 f_equal; lia.
Qed.

Lemma mizrahi_amounts_are_exact_to_the_thousandth_witness :
  Mizrahi.milliunits (-1000) (VStr (u " 1,234.56 "))
  = Ok (VNum (num_of_Z (- 123456 * pow10 (3 - 2))))
  /\ Mizrahi.milliunits 1000 (VStr (u " 1,234.56 "))
     = Ok (VNum (num_of_Z (123456 * pow10 (3 - 2)))).
Proof.
  apply (mizrahi_amounts_are_exact_to_the_thousandth (u " 1,234.56 ") 123456 2);
    [reflexivity | lia | reflexivity].
Defined.

(** ** The tabs of a Max workbook (utils/maxAnalyzer.ts) *)

(** X10.  [analyzeMaxFile] reads the first tab as the tab of domestic
    purchases, and then the first tab whose name holds the text of the
    tab of purchases abroad.  When the first tab of the workbook is itself
    that tab, it is read twice and each of its transactions is returned
    twice. *)
Theorem max_foreign_tab_in_first_place_is_read_twice
        (sheet_to_json : option sheet -> list (list jsval))
        (wb : workbook) (first : jsstring) (others : list jsstring)
        (sh : sheet) (txs : list (object jsval)) :
  SheetNames wb = first :: others ->
  includes first foreign_tab = true ->
  obj_get (Sheets wb) first = Some sh ->
  Max.processMaxSheet (sheet_to_json (Some sh)) = Ok txs ->
  analyzeMaxFile sheet_to_json (T := unit) (Binary (Ok wb)) = Ok (txs ++ txs).
Proof.
  intros N F S P. unfold analyzeMaxFile. cbn [bind].
  rewrite N. cbn [nth find]. rewrite F, S, P. reflexivity.
Qed.

(** The rows of a tab with one purchase. *)
Definition max_one_table_abroad : list (list jsval) :=
  [ [VStr (u "תאריך עסקה"); VStr (u "שם בית העסק"); VStr (u "סכום חיוב")];
    [VStr (u "10-04-2025"); VStr (u "SHOP"); VNum (num_of_Z 100)] ].

(** A workbook with the one tab of purchases abroad. *)
Definition max_foreign_only : workbook :=
  mkWorkbook [u "עסקאות " ++ foreign_tab]
             [(u "עסקאות " ++ foreign_tab, [(u "A1", VStr (u "תאריך עסקה"))])].

Lemma max_foreign_tab_in_first_place_is_read_twice_witness :
  let one := [ (u "date", VStr (u "2025-04-10")); (u "payee_name", VStr (u "SHOP"));
               (u "amount", VNum (num_of_Z (-100000))) ] in
  analyzeMaxFile (fun _ => max_one_table_abroad) (T := unit)
                 (Binary (Ok max_foreign_only))
  = Ok ([one] ++ [one]).
Proof.
  intros one.
  apply (max_foreign_tab_in_first_place_is_read_twice
           (fun _ => max_one_table_abroad) max_foreign_only
           (u "עסקאות " ++ foreign_tab) []
           [(u "A1", VStr (u "תאריך עסקה"))]);
    reflexivity.
Defined.

(** ** The detectors of Bank Hapoalim (utils/poalimAnalyzer.ts,
    analyzers/poalimAnalyzer.ts) *)

Lemma existsb_str_eqb (h : jsstring) (l : list jsstring) :
  existsb (str_eqb h) l = true <-> In h l.
Proof.
  rewrite existsb_exists. split.
  - intros (x & I & E). apply str_eqb_eq in E. now subst.
  - intros I. exists h. split; [assumption | apply str_eqb_refl].
Qed.

Lemma has_required_headers (headers : list jsstring) :
  forallb (fun header => existsb (str_eqb header) headers) Poalim.requiredHeaders = true
  <-> incl Poalim.requiredHeaders headers.
Proof.
  rewrite forallb_forall. unfold incl.
  split; intros H h I; apply existsb_str_eqb; auto.
Qed.

(** X11.  [isPoalimFile] of utils looks at the set of the column names
    only: a file whose name begins with "shekel", in any case of the
    letters, and whose columns include the six required ones - in any
    order, with any other columns among them - is a Poalim file, and no
    other file is.  The identifier is cut out of the name from its seventh
    character to its fifteenth, so it has at most nine characters, and it
    is the empty string, which callers take for no match, when the name
    has no seventh character. *)
Theorem poalim_detection_looks_at_the_set_of_columns
        (toLowerCase : jsstring -> jsstring) (fileName : jsstring)
        (headers : list jsstring) :
  (startsWith (toLowerCase fileName) (u "shekel") = true
   /\ incl Poalim.requiredHeaders headers ->
   exists identifier,
     Poalim.isPoalimFile toLowerCase fileName headers = VStr identifier
     /\ identifier = firstn 9 (skipn 6 fileName)
     /\ (List.length identifier <= 9)%nat
     /\ (truthy (VStr identifier) = true <-> (6 < List.length fileName)%nat))
  /\ (~ (startsWith (toLowerCase fileName) (u "shekel") = true
         /\ incl Poalim.requiredHeaders headers) ->
      Poalim.isPoalimFile toLowerCase fileName headers = VNull).
Proof.
  unfold Poalim.isPoalimFile, Poalim.substring. split.
  - intros [S I]. apply has_required_headers in I. rewrite S, I. cbn [andb].
    eexists. split; [reflexivity|]. split; [reflexivity|].
    split; [rewrite length_firstn; lia|].
    destruct (skipn 6 fileName) as [|c r] eqn:K.
    + cbn. split; [discriminate|]. intros L.
      apply (f_equal (@List.length N)) in K. rewrite length_skipn in K.
      cbn in K. lia.
    + cbn. split; [|reflexivity]. intros _.
      apply (f_equal (@List.length N)) in K. rewrite length_skipn in K.
      cbn in K. lia.
  - intros N.
    destruct (startsWith (toLowerCase fileName) (u "shekel")) eqn:S;
      [|reflexivity].
    destruct (forallb _ Poalim.requiredHeaders) eqn:I; [|reflexivity].
    exfalso. apply N. split; [reflexivity | now apply has_required_headers].
Qed.

Lemma poalim_detection_looks_at_the_set_of_columns_witness :
  (exists identifier,
      Poalim.isPoalimFile lower_ascii (u "Shekel123456789_2025.csv")
        [ u "זכות"; u "חובה"; u "הערה"; u "יתרה לאחר פעולה"; u "פרטים";
          u "תיאור הפעולה"; u "תאריך" ]
      = VStr identifier
      /\ identifier = firstn 9 (skipn 6 (u "Shekel123456789_2025.csv"))
      /\ (List.length identifier <= 9)%nat
      /\ (truthy (VStr identifier) = true
          <-> (6 < List.length (u "Shekel123456789_2025.csv"))%nat))
  /\ Poalim.isPoalimFile lower_ascii (u "Shekel123456789_2025.csv")
       [ u "תאריך"; u "תיאור הפעולה"; u "פרטים"; u "חובה"; u "זכות" ]
     = VNull.
Proof.
  split.
  - apply (proj1 (poalim_detection_looks_at_the_set_of_columns
                    lower_ascii (u "Shekel123456789_2025.csv") _)).
    split; [reflexivity|].
    intros h I. apply existsb_str_eqb.
    repeat (destruct I as [<-|I]; [vm_compute; reflexivity|]). destruct I.
  - apply (proj2 (poalim_detection_looks_at_the_set_of_columns
                    lower_ascii (u "Shekel123456789_2025.csv") _)).
    intros [_ I].
    assert (In (u "יתרה לאחר פעולה")
               [ u "תאריך"; u "תיאור הפעולה"; u "פרטים"; u "חובה"; u "זכות" ]) as K
        by (apply I; vm_compute; auto 10).
    apply existsb_str_eqb in K. vm_compute in K. discriminate.
Defined.

(** The text that [join] makes of rows begins with a bracket. *)
Lemma join_of_objects (rows : list (object jsval)) :
  Poalim.join (map (fun _ : object jsval => u "[object Object]") rows) = []
  \/ exists t,
      Poalim.join (map (fun _ : object jsval => u "[object Object]") rows)
      = 91%N :: t.
Proof.
  destruct rows as [|r rows]; [now left|]. right.
  cbn [map Poalim.join]. destruct (map _ rows); eexists; reflexivity.
Qed.

(** X12.  The Poalim detector that analyzers/poalimAnalyzer.ts registers
    never recognises a text file.  [analyzeCSVContent] hands it the array
    of the parsed rows; it takes [Object.values] of that array for the
    header names and compares their [join] with the header line of the
    bank, but the values are the rows, which [join] writes as
    [[object Object]], and not the names of the columns.  Whatever the
    file is called and whatever it holds, the answer is [null]. *)
Theorem poalim_registered_detector_never_matches
        (toLowerCase : jsstring -> jsstring) (fileName : jsstring)
        (rows : list (object jsval)) :
  Poalim.isVendorFile_of_rows toLowerCase fileName rows = VNull.
Proof.
  unfold Poalim.isVendorFile_of_rows.
  assert (H : exists t, Poalim.header_line = 1514%N :: t)
    by (eexists; vm_compute; reflexivity).
  destruct H as (t & H). rewrite H.
  rewrite str_eqb_neq; [now rewrite andb_false_r|].
  destruct (join_of_objects rows) as [E|(t' & E)]; rewrite E; discriminate.
Qed.

(** ** The detectors of Mizrahi Tfahot and Discount
    (analyzers/mizrahiTfahotAnalyzer.ts, discountAnalyzer.ts) *)

Lemma num_to_string_nonempty (x : number) : num_to_string x <> [].
Proof.
  destruct x as [|neg|m e]; [discriminate | now destruct neg |].
  unfold num_to_string.
  destruct (m =? 0); [discriminate|].
  destruct (strip_zeros _ (Z.abs m) 0) as [d z].
  pose proof (digits_of_nonempty d) as D.
  destruct (digits_of d) as [|c s]; [contradiction|].
  intros E. apply app_eq_nil in E. destruct E as [_ E].
  repeat match type of E with
         | (if ?c then _ else _) = [] => destruct c
         end;
    try discriminate;
    try (apply app_eq_nil in E; destruct E as [_ E]; discriminate);
    try (change (u "0.") with [48%N; 46%N] in E; discriminate).
Qed.

Lemma ToString_of_truthy (v : jsval) : truthy v = true -> ToString v <> [].
Proof.
  destruct v as [| | b | x | s]; cbn [truthy ToString]; try discriminate.
  - now destruct b.
  - intros _. apply num_to_string_nonempty.
  - now destruct s.
Qed.

(** X13.  The detectors of Mizrahi Tfahot and of Discount answer [null]
    or a string that is not empty: where the cell of the account number is
    missing or empty they fall back on a fixed name, so a file they
    recognise always has an identifier that callers can test and use as a
    key. *)
Theorem mizrahi_and_discount_identifiers_are_never_empty :
  (forall (sh : option sheet) (data : list (object jsval)),
      Mizrahi.isMizrahiTfahotFile sh data = VNull
      \/ exists c s, Mizrahi.isMizrahiTfahotFile sh data = VStr (c :: s))
  /\ (forall (fileName : jsstring) (sh : option sheet),
         Discount.isDiscountFile fileName sh = VNull
         \/ exists c s, Discount.isDiscountFile fileName sh = VStr (c :: s)).
Proof.
  split.
  - intros [sh|] data; [|now left]. unfold Mizrahi.isMizrahiTfahotFile.
    match goal with |- context [if ?c then _ else _] => destruct c end.
    + right. unfold Mizrahi.or_else.
      assert (F : exists c s, u "Mizrahi Tfahot Account" = c :: s)
        by (eexists; eexists; vm_compute; reflexivity).
      destruct F as (c0 & s0 & F). rewrite F.
      destruct (Mizrahi.cell_text sh (u "B3")) as [| | | |[|c s]];
        eexists; eexists; reflexivity.
    + destruct (prop sh (u "A1")); try (now left).
      match goal with |- context [if ?c then _ else _] => destruct c end;
        [right; eexists; eexists; vm_compute; reflexivity | now left].
  - intros fileName [sh|]; [|now left]. unfold Discount.isDiscountFile.
    match goal with |- context [if ?c then _ else _] => destruct c end;
      [|now left].
    right.
    destruct (truthy (prop sh (u "A2"))) eqn:T.
    + pose proof (ToString_of_truthy _ T) as N.
      destruct (ToString (prop sh (u "A2"))) as [|c s]; [contradiction|].
      now exists c, s.
    + eexists; eexists; vm_compute; reflexivity.
Qed.

(** ** The balance of a Discount and of a Mizrahi Tfahot workbook *)

(** X14.  The balance that [analyzeDiscountFile] returns is a number,
    whatever the workbook holds in E9: a number there is returned, a text
    is read as a number when its digits, points and minus signs say one,
    and everything else - no cell, a text that says no number, a
    boolean - is the balance 0. *)
Theorem discount_balance_is_a_number
        (extract : option sheet -> list (object jsval))
        (transform : list (object jsval) -> list (object jsval))
        (c : content (outcome workbook) workbook) (r : AnalysisResult) :
  Discount.analyzeDiscountFile extract transform c = Ok r ->
  exists x, finalBalance r = VNum x.
Proof.
  unfold Discount.analyzeDiscountFile.
  assert (B : forall sh, exists x,
               (if Mizrahi.is_null (Discount.extractBalanceFromSheet sh)
                then VNum (num_of_Z 0)
                else Discount.extractBalanceFromSheet sh) = VNum x).
  { intros [sh|]; [|now eexists]. unfold Discount.extractBalanceFromSheet.
    destruct (has_value sh (u "E9")); [|now eexists].
    destruct (prop sh (u "E9")); try (now eexists).
    match goal with |- context [if num_is_nan ?n then _ else _] =>
      destruct (num_is_nan n) end; now eexists. }
  destruct c as [[wb|e]|[wb|e]]; try discriminate; intros [= <-]; apply B.
Qed.

Lemma discount_balance_is_a_number_witness :
  exists x,
    finalBalance
      (mkResult [] (VNum (Fin 123456 2))) = VNum x.
Proof.
  apply (discount_balance_is_a_number
           (fun _ => []) (fun t => t)
           (Binary (Ok (mkWorkbook [u "Sheet1"]
                          [(u "Sheet1", [(u "E9", VStr (u "1,234.56 ₪"))])])))).
  vm_compute. reflexivity.
Defined.

(** X15.  The balance that [analyzeMizrahiTfahotFile] returns is the value
    of cell B1 of the second sheet as the workbook holds it: the analyzer
    does not pass it through [extractBalanceFromCell], so a balance that
    the workbook holds as a text is returned as that text, not as a
    number. *)
Theorem mizrahi_balance_is_the_cell_as_it_is
        (extract : workbook -> list (option (object jsval)))
        (wb : workbook) (first second : jsstring) (others : list jsstring)
        (sh : sheet) (v : jsval) :
  SheetNames wb = first :: second :: others ->
  Forall (fun name => obj_get (Sheets wb) name <> None) (SheetNames wb) ->
  obj_get (Sheets wb) second = Some sh ->
  prop sh (u "B1") = v ->
  is_undefined v = false -> Mizrahi.is_null v = false ->
  exists txs,
    Mizrahi.analyzeMizrahiTfahotFile extract (T := unit) (Binary (Ok wb))
    = Ok (mkResult txs v).
Proof.
  intros N P S B U L. unfold Mizrahi.analyzeMizrahiTfahotFile.
  rewrite (mizrahi_sheets_present wb P).
  unfold Mizrahi.findBalanceInWorkbook, has_value. rewrite N, S, B, U.
  cbn [negb]. rewrite L.
  destruct (mizrahi_transformTransactions_total (extract wb)) as (txs & E).
  rewrite E. now exists txs.
Qed.

Lemma mizrahi_balance_is_the_cell_as_it_is_witness :
  exists txs,
    Mizrahi.analyzeMizrahiTfahotFile (fun _ => []) (T := unit)
      (Binary (Ok (mkWorkbook [u "Sheet1"; u "Sheet2"]
                     [ (u "Sheet1", []);
                       (u "Sheet2", [(u "B1", VStr (u "1,234.56 ₪"))]) ])))
    = Ok (mkResult txs (VStr (u "1,234.56 ₪"))).
Proof.
  apply (mizrahi_balance_is_the_cell_as_it_is
           (fun _ => []) _ (u "Sheet1") (u "Sheet2") []
           [(u "B1", VStr (u "1,234.56 ₪"))]).
  - reflexivity.
  - repeat constructor; vm_compute; discriminate.
  - reflexivity.
  - reflexivity.
  - reflexivity.
  - reflexivity.
Defined.

(** ** The amounts and the dates of Discount (discountAnalyzer.ts) *)

Lemma trimStart_nil (s : jsstring) :
  trimStart s = [] -> Forall (fun c => is_space c = true) s.
Proof.
  induction s as [|c s IH]; [constructor|]. cbn [trimStart].
  destruct (is_space c) eqn:E; [|discriminate]. intros H. constructor; auto.
Qed.

Lemma trimStart_head (s : jsstring) :
  trimStart s = [] \/ exists c t, trimStart s = c :: t /\ is_space c = false.
Proof.
  induction s as [|c s IH]; [now left|]. cbn [trimStart].
  destruct (is_space c) eqn:E; [exact IH|]. right. now exists c, s.
Qed.

(** A string that [trim] empties holds white space only. *)
Lemma trim_nil (s : jsstring) :
  trim s = [] -> Forall (fun c => is_space c = true) s.
Proof.
  unfold trim. intros H.
  assert (R : trimStart (rev (trimStart s)) = []).
  { destruct (trimStart (rev (trimStart s))); [reflexivity|].
    apply (f_equal (@List.length N)) in H. rewrite length_rev in H.
    discriminate. }
  destruct (trimStart_head s) as [E|(c & t & E & Hc)].
  - now apply trimStart_nil.
  - rewrite E in R. apply trimStart_nil in R. apply Forall_rev in R.
    rewrite rev_involutive in R. inversion R; subst. congruence.
Qed.

Lemma Number_of_blank (s : jsstring) :
  trim s = [] -> Number_of_string (remove_all (N.eqb comma) s) = num_of_Z 0.
Proof.
  intros T. pose proof (trim_nil s T) as A.
  assert (E : remove_all (N.eqb comma) s = s).
  { unfold remove_all. apply forallb_filter_id. apply forallb_forall.
    rewrite Forall_forall in A. intros c I. apply A in I.
    destruct (N.eqb_spec comma c) as [<-|]; [discriminate | reflexivity]. }
  rewrite E. unfold Number_of_string. now rewrite T.
Qed.

(** X16.  The Discount amount.  A cell whose text, without its commas,
    reads as a number with at most three decimals becomes that number in
    thousandths, exactly and with its sign: "-1,234.56" is -1234560. *)
Theorem discount_amount_is_exact_to_the_thousandth
        (s : jsstring) (a : Z) (e : nat) :
  Number_of_string (remove_all (N.eqb comma) s) = Fin a e ->
  (e <= 3)%nat -> Z.abs a < 10 ^ 12 ->
  Discount.amount_transform (VStr s) = Ok (VNum (num_of_Z (a * pow10 (3 - e)))).
Proof.
  intros N E B. pose proof (pow10_le_1000 e E) as P.
  assert (Z0 : trim s = [] ->
               Ok (VNum (num_of_Z 0)) = Ok (VNum (num_of_Z (a * pow10 (3 - e))))).
  { intros T. rewrite (Number_of_blank s T) in N. injection N as <- <-.
    reflexivity. }
  unfold Discount.amount_transform.
  destruct s as [|c s]; [now apply Z0|].
  cbn [truthy negb].
  destruct (str_eqb (trim (c :: s)) []) eqn:T1.
  { apply str_eqb_eq in T1. now apply Z0. }
  rewrite N. change 1000 with (1 * 1000).
  rewrite num_mulZ_milli by assumption.
  rewrite Number_toFixed_integer by (change (pow10 21) with (10 ^ 21); nia).
  unfold num_of_Z. do 3 f_equal; lia.
Qed.

Lemma discount_amount_is_exact_to_the_thousandth_witness :
  Discount.amount_transform (VStr (u "-1,234.56"))
  = Ok (VNum (num_of_Z (-123456 * pow10 (3 - 2)))).
Proof.
  apply (discount_amount_is_exact_to_the_thousandth (u "-1,234.56") (-123456) 2);
    [reflexivity | lia | reflexivity].
Defined.

(** A text that begins with digits and a slash is no number. *)
Lemma Number_of_a_date (a rest : jsstring) :
  all_digits a -> a <> [] -> Forall (fun c => plain c = true) rest ->
  Number_of_string (a ++ slash :: rest) = NaN.
Proof.
  intros A N R.
  assert (P : Forall (fun c => plain c = true) (a ++ slash :: rest)).
  { apply Forall_app. split.
    - revert A. apply Forall_impl. intros c H. unfold plain. now rewrite H.
    - constructor; [reflexivity | assumption]. }
  rewrite Number_of_plain by (assumption || (destruct a; discriminate)).
  destruct a as [|c a]; [contradiction|].
  inversion A as [|? ? Hc Ha]; subst.
  unfold read_decimal. cbn [app]. rewrite strip_sign_digit by assumption.
  cbv beta iota. rewrite no_Infinity_at_digit by assumption.
  change (c :: a ++ slash :: rest) with ((c :: a) ++ slash :: rest).
  rewrite (read_digits_app (c :: a) (slash :: rest) 0 0 A)
    by reflexivity.
  cbn [List.length plus]. unfold slash. cbn [read_exponent]. reflexivity.
Qed.

(** X17.  The Discount date.  A text of three numbers between slashes is
    read as month, day and year: the first number goes to the place of
    the month and the second to the place of the day, both padded to two
    digits, and a year of two digits - and only such a year - gets "20"
    before it. *)
Theorem discount_date_reads_month_day_year
        (serial_date : number -> jsstring) (mo d y : jsstring) :
  all_digits mo -> all_digits d -> all_digits y ->
  mo <> [] ->
  Discount.date_transform serial_date (VStr (mo ++ slash :: d ++ slash :: y))
  = Ok (VStr ((if (List.length y =? 2)%nat then u "20" ++ y else y)
                ++ [dash] ++ padStart0 2 mo ++ [dash] ++ padStart0 2 d)).
Proof.
  intros Hm Hd Hy Nm. unfold Discount.date_transform, isNaN.
  cbn [ToNumber].
  assert (Pl : forall t, all_digits t -> Forall (fun c => plain c = true) t).
  { intros t. apply Forall_impl. intros c H. unfold plain. now rewrite H. }
  rewrite Number_of_a_date; [|assumption|assumption|].
  2:{ apply Forall_app. split; [now apply Pl|].
      constructor; [reflexivity | now apply Pl]. }
  cbn [num_is_nan negb]. rewrite includes_joined.
  rewrite trim_without_spaces.
  - rewrite split_three by (apply digits_free_of; auto). reflexivity.
  - apply plain_is_no_space. apply Forall_app. split; [now apply Pl|].
    constructor; [reflexivity|]. apply Forall_app. split; [now apply Pl|].
    constructor; [reflexivity | now apply Pl].
Qed.

Lemma discount_date_reads_month_day_year_witness :
  Discount.date_transform (fun _ => []) (VStr (u "25" ++ slash :: u "12" ++ slash :: u "24"))
  = Ok (VStr ((if (List.length (u "24") =? 2)%nat then u "20" ++ u "24" else u "24")
                ++ [dash] ++ padStart0 2 (u "25") ++ [dash] ++ padStart0 2 (u "12"))).
Proof.
  apply (discount_date_reads_month_day_year (fun _ => []) (u "25") (u "12") (u "24"));
    try (repeat constructor); discriminate.
Defined.

(** ** The columns that the Mizrahi Tfahot extraction reads
    (analyzers/mizrahiTfahotAnalyzer.ts) *)

Lemma flat_map_same {A B} (f g : A -> list B) (l : list A) :
  (forall a, In a l -> f a = g a) -> flat_map f l = flat_map g l.
Proof.
  induction l as [|a l IH]; intros H; [reflexivity|]. cbn [flat_map].
  rewrite (H a) by now left. rewrite IH; [reflexivity|].
  intros b I. apply H. now right.
Qed.

Section MizrahiColumns.

Variable decode_range : jsstring -> option (nat * nat).
Variable encode_cell : nat -> nat -> jsstring.
Variable sheet_to_json : sheet -> list (option (object jsval)).

(** Two sheets that hold the same in the columns before [bound]. *)
Definition same_before (bound : nat) (sh sh' : sheet) : Prop :=
  forall r c, (c < bound)%nat ->
              prop sh (encode_cell r c) = prop sh' (encode_cell r c).

Lemma headers_row_same (bound r : nat) (sh sh' : sheet) :
  same_before bound sh sh' ->
  Mizrahi.headers_row encode_cell sh bound r
  = Mizrahi.headers_row encode_cell sh' bound r.
Proof.
  intros H. unfold Mizrahi.headers_row.
  apply flat_map_same. intros c I. apply in_seq in I.
  unfold has_value. rewrite (H r c) by lia. reflexivity.
Qed.

Lemma find_headers_same (bound : nat) (rows : list nat) (sh sh' : sheet) :
  same_before bound sh sh' ->
  Mizrahi.find_headers encode_cell sh bound rows
  = Mizrahi.find_headers encode_cell sh' bound rows.
Proof.
  intros H. induction rows as [|r rows IH]; [reflexivity|].
  cbn [Mizrahi.find_headers]. rewrite (headers_row_same bound r sh sh' H).
  now rewrite IH.
Qed.

Lemma headers_row_length (bound r : nat) (sh : sheet) :
  (List.length (Mizrahi.headers_row encode_cell sh bound r) <= bound)%nat.
Proof.
  unfold Mizrahi.headers_row.
  assert (G : forall l : list nat,
             (List.length
                (flat_map (fun c =>
                             if has_value sh (encode_cell r c)
                             then [ToString (prop sh (encode_cell r c))]
                             else []) l) <= List.length l)%nat).
  { induction l as [|c l IH]; [reflexivity|]. cbn [flat_map].
    rewrite length_app. destruct (has_value sh (encode_cell r c)); simpl; lia. }
  specialize (G (seq 0 bound)). now rewrite length_seq in G.
Qed.

Lemma find_headers_length (bound : nat) (rows : list nat) (sh : sheet)
      (headers : list jsstring) (startRow : nat) :
  Mizrahi.find_headers encode_cell sh bound rows = Some (headers, startRow) ->
  (List.length headers <= bound)%nat.
Proof.
  induction rows as [|r rows IH]; [discriminate|]. cbn [Mizrahi.find_headers].
  destruct (Mizrahi.expected_headers _); [|exact IH].
  intros [= <- _]. apply headers_row_length.
Qed.

Lemma indexOf_bound (l : list jsstring) (x : jsstring) (i j : nat) :
  Mizrahi.indexOf l x i = Some j -> (j < i + List.length l)%nat.
Proof.
  revert i. induction l as [|h l IH]; intros i; [discriminate|].
  cbn [Mizrahi.indexOf List.length]. destruct (str_eqb h x).
  - intros [= <-]. lia.
  - intros H. apply IH in H. lia.
Qed.

Lemma cell_at_same (bound r : nat) (sh sh' : sheet) (headers : list jsstring)
      (x : jsstring) :
  same_before bound sh sh' -> (List.length headers <= bound)%nat ->
  Mizrahi.cell_at encode_cell sh r (Mizrahi.indexOf headers x 0)
  = Mizrahi.cell_at encode_cell sh' r (Mizrahi.indexOf headers x 0).
Proof.
  intros H L. destruct (Mizrahi.indexOf headers x 0) as [j|] eqn:E; [|reflexivity].
  apply indexOf_bound in E. cbn [Mizrahi.cell_at]. apply H. lia.
Qed.

Lemma transaction_of_same (bound r : nat) (sh sh' : sheet) (headers : list jsstring) :
  same_before bound sh sh' -> (List.length headers <= bound)%nat ->
  Mizrahi.transaction_of encode_cell sh headers r
  = Mizrahi.transaction_of encode_cell sh' headers r.
Proof.
  intros H L. unfold Mizrahi.transaction_of.
  rewrite !(cell_at_same bound r sh sh' headers _ H L).
  destruct (Mizrahi.indexOf headers (u "סוג תנועה") 0) as [j|] eqn:E.
  - apply indexOf_bound in E. cbn [Mizrahi.cell_at]. rewrite (H r j) by lia.
    reflexivity.
  - rewrite !(cell_at_same bound r sh sh' headers _ H L). reflexivity.
Qed.

(** X18.  The extraction of the Mizrahi Tfahot transactions never reads
    the last column of the sheet's range, nor any column after the
    fifteenth.  The scan for the header line stops before the last column
    ([c < Math.min(sheetRange.e.c, 15)], where [e.c] is the index of the
    last column), and the rows are read in the columns at the positions of
    the header names found.  When the header line is found, two sheets
    that hold the same in the columns before that bound give the same
    transactions: what stands in the last column, say the reference of
    each transaction in a sheet of five columns, is not in the result. *)
Theorem mizrahi_extraction_does_not_read_the_last_column
        (sh sh' : sheet) (ref : jsstring) (er ec : nat)
        (headers : list jsstring) (startRow : nat) :
  prop sh (u "!ref") = VStr ref -> prop sh' (u "!ref") = VStr ref ->
  decode_range ref = Some (er, ec) ->
  same_before (Nat.min ec 15) sh sh' ->
  Mizrahi.find_headers encode_cell sh (Nat.min ec 15) (seq 0 (Nat.min er 20))
  = Some (headers, startRow) ->
  Mizrahi.extract_sheet decode_range encode_cell sheet_to_json sh
  = Mizrahi.extract_sheet decode_range encode_cell sheet_to_json sh'.
Proof.
  intros R R' D S F. unfold Mizrahi.extract_sheet. rewrite R, R', D.
  rewrite <- (find_headers_same _ _ sh sh' S), F.
  destruct (truthy (VStr ref)); [|reflexivity].
  do 2 f_equal. apply map_ext. intros r.
  apply transaction_of_same with (bound := Nat.min ec 15); [assumption|].
  now apply find_headers_length in F.
Qed.

End MizrahiColumns.

(** A sheet of four columns and three rows below the header line, the
    names of its cells for the first twenty-six columns, and the same
    sheet with a fifth column that holds the references. *)
Definition cell_name (r c : nat) : jsstring :=
  [(65 + N.of_nat c)%N] ++ digits_of (Z.of_nat (S r)).

Definition mizrahi_four_columns : sheet :=
  [ (u "!ref", VStr (u "A1:E4"));
    (u "A1", VStr (u "תאריך")); (u "B1", VStr (u "סוג תנועה"));
    (u "C1", VStr (u "חובה")); (u "D1", VStr (u "זכות"));
    (u "A2", VStr (u "01/05/25")); (u "B2", VStr (u "משכורת"));
    (u "D2", VStr (u "5000")) ].

Definition mizrahi_five_columns : sheet :=
  (u "E1", VStr (u "אסמכתא")) :: (u "E2", VStr (u "12345")) :: mizrahi_four_columns.

Lemma mizrahi_extraction_does_not_read_the_last_column_witness :
  Mizrahi.extract_sheet (fun _ => Some (3, 4)%nat) cell_name (fun _ => [])
                        mizrahi_five_columns
  = Mizrahi.extract_sheet (fun _ => Some (3, 4)%nat) cell_name (fun _ => [])
                          mizrahi_four_columns.
Proof.
  apply (mizrahi_extraction_does_not_read_the_last_column
           (fun _ => Some (3, 4)%nat) cell_name (fun _ => [])
           mizrahi_five_columns mizrahi_four_columns (u "A1:E4") 3 4
           [u "תאריך"; u "סוג תנועה"; u "חובה"; u "זכות"] 1).
  - reflexivity.
  - reflexivity.
  - reflexivity.
  - intros r c H. unfold mizrahi_five_columns, prop. cbn [obj_get].
    assert (C : exists k, cell_name r c = k :: digits_of (Z.of_nat (S r))
                          /\ k <> 69%N).
    { change (Nat.min 4 15) with 4%nat in H.
      destruct c as [|[|[|[|c]]]]; [| | | |lia];
        eexists; (split; [reflexivity | discriminate]). }
    destruct C as (k & -> & K).
    assert (N1 : str_eqb (u "E1") (k :: digits_of (Z.of_nat (S r))) = false).
    { apply str_eqb_neq. change (u "E1") with [69%N; 49%N]. congruence. }
    assert (N2 : str_eqb (u "E2") (k :: digits_of (Z.of_nat (S r))) = false).
    { apply str_eqb_neq. change (u "E2") with [69%N; 50%N]. congruence. }
    now rewrite N1, N2.
  - vm_compute. reflexivity.
Defined.

(** ** What the upload component sends (components/FileUploadWithYNAB.tsx) *)










(** A file whose account is stored for the identifier [i]. *)
Definition stores (i : jsstring) (file : Upload.FileWithYNAB) : bool :=
  truthy (Upload.identifier file) && truthy (Upload.accountId file)
  && str_eqb (ToString (Upload.identifier file)) i.

Lemma find_last {A} (p : A -> bool) (l : list A) (a : A) :
  find p (l ++ [a])
  = match find p l with
    | Some x => Some x
    | None => if p a then Some a else None
    end.
Proof.
  induction l as [|b l IH]; [reflexivity|]. cbn [app find].
  destruct (p b); [reflexivity | exact IH].
Qed.

(** The account stored for an identifier is that of the last file that has
    the identifier and an account. *)
Lemma store_mappings_get (files : list Upload.FileWithYNAB) (m : object jsval)
      (i : jsstring) :
  obj_get (Upload.store_mappings files m) i
  = match find (stores i) (rev files) with
    | Some file => Some (Upload.accountId file)
    | None => obj_get m i
    end.
Proof.
  unfold Upload.store_mappings. revert m.
  induction files as [|file files IH]; intros m; [reflexivity|].
  cbn [fold_left rev]. rewrite IH, find_last.
  destruct (find (stores i) (rev files)); [reflexivity|].
  unfold stores.
  destruct (truthy (Upload.identifier file) && truthy (Upload.accountId file));
    cbn [andb]; [|reflexivity].
  destruct (str_eqb (ToString (Upload.identifier file)) i) eqn:E.
  - apply str_eqb_eq in E. subst i. apply obj_get_set_same.
  - apply obj_get_set_other. intros H. rewrite H, str_eqb_refl in E.
    discriminate.
Qed.

(** X21.  The account of an identifier is remembered from one submission
    to the next upload.  After [handleSendToYNAB] has stored the accounts
    of its files, a file that is analysed with an identifier gets, as its
    account, the account of the last of those files that had the same
    identifier and an account. *)
Theorem upload_remembers_the_account_of_an_identifier
        (Content Sheet : Type) (files : list Upload.FileWithYNAB)
        (storedMappings : object jsval) (primaryBudgetId : jsstring)
        (analysis : FileAnalysis Content Sheet Upload.Data)
        (file : Upload.FileWithYNAB) :
  truthy (Upload.found_identifier Content Sheet analysis) = true ->
  find (stores (ToString (Upload.found_identifier Content Sheet analysis)))
       (rev files) = Some file ->
  Upload.accountId
    (Upload.entry_of Content Sheet (Upload.store_mappings files storedMappings)
                     primaryBudgetId analysis)
  = Upload.accountId file.
Proof.
  intros T F. unfold Upload.entry_of. cbn [Upload.accountId].
  rewrite T. unfold prop. now rewrite store_mappings_get, F.
Qed.

Definition april_statement : Upload.FileWithYNAB :=
  Upload.mkEntry (u "shekel123456789_04.csv") (u "budget-1") (VStr (u "account-7"))
                 (VStr (u "123456789")) (Some 0%nat) (Some []) VNull.

Lemma upload_remembers_the_account_of_an_identifier_witness :
  Upload.accountId
    (Upload.entry_of unit unit (Upload.store_mappings [april_statement] [])
                     (u "budget-1")
                     (mkAnalysis (u "shekel123456789_05.csv") Null None Null VUndefined
                                 (Just (VStr (u "123456789")))))
  = Upload.accountId april_statement.
Proof.
  apply (upload_remembers_the_account_of_an_identifier
           unit unit [april_statement] [] (u "budget-1") _ april_statement);
    reflexivity.
Defined.

Lemma group_files_without_transactions (files : list Upload.FileWithYNAB)
      (st : object (list (object jsval)) * object Upload.UsedAccount) :
  Forall (fun file => Upload.transactions file = None) files ->
  fold_left Upload.group_file files st = st.
Proof.
  intros H. revert st. induction H as [|file files T _ IH]; intros st;
    [reflexivity|].
  cbn [fold_left]. unfold Upload.group_file at 2, Upload.ready.
  rewrite T. destruct st. apply IH.
Qed.

(** X22.  The component takes the transactions of a file from
    [analysis.data.transactions].  An analyzer that returns the bare array
    of its rows - as [analyzeIsracardFile] and [analyzeMaxFile] of utils
    do - leaves that property undefined: the file has no row count and no
    transactions, and whatever budget and account are chosen for it
    afterwards, [handleSendToYNAB] sends none of its rows. *)
Theorem upload_sends_nothing_of_an_analysis_that_is_an_array
        (Content Sheet : Type) (storedMappings : object jsval)
        (primaryBudgetId : jsstring)
        (choose : Upload.FileWithYNAB -> Upload.FileWithYNAB)
        (analyses : list (FileAnalysis Content Sheet Upload.Data)) :
  (forall file, Upload.transactions (choose file) = Upload.transactions file) ->
  Forall (fun analysis => exists rows, data analysis = Just (Upload.Rows rows))
         analyses ->
  Forall (fun analysis =>
            Upload.rowCount
              (Upload.entry_of Content Sheet storedMappings primaryBudgetId analysis)
            = None) analyses
  /\ Upload.group_files
       (map (fun analysis =>
               choose (Upload.entry_of Content Sheet storedMappings
                                       primaryBudgetId analysis))
            analyses)
     = ([], []).
Proof.
  intros C H. split.
  - revert H. apply Forall_impl. intros analysis (rows & D).
    unfold Upload.entry_of, Upload.found_transactions. cbn [Upload.rowCount].
    now rewrite D.
  - unfold Upload.group_files. apply group_files_without_transactions.
    apply Forall_map. revert H. apply Forall_impl. intros analysis (rows & D).
    rewrite C. unfold Upload.entry_of, Upload.found_transactions.
    cbn [Upload.transactions]. now rewrite D.
Qed.

Lemma upload_sends_nothing_of_an_analysis_that_is_an_array_witness :
  let analysis : FileAnalysis unit unit Upload.Data :=
    mkAnalysis (u "Export_4_2025.xlsx") Null None
               (Just (Upload.Rows
                        [ [(u "date", VStr (u "2025-04-01"));
                           (u "payee_name", VStr (u "סופר"));
                           (u "amount", VNum (num_of_Z (-100500)))] ]))
               VUndefined (Just (VStr (u "1234"))) in
  let choose := fun file =>
    Upload.mkEntry (Upload.file_name file) (u "budget-1") (VStr (u "account-7"))
                   (Upload.identifier file) (Upload.rowCount file)
                   (Upload.transactions file) (Upload.finalBalance file) in
  Forall (fun analysis =>
            Upload.rowCount (Upload.entry_of unit unit [] (u "budget-1") analysis)
            = None) [analysis]
  /\ Upload.group_files
       (map (fun analysis => choose (Upload.entry_of unit unit [] (u "budget-1") analysis))
            [analysis])
     = ([], []).
Proof.
  intros analysis choose.
  apply (upload_sends_nothing_of_an_analysis_that_is_an_array
           unit unit [] (u "budget-1") choose [analysis]).
  - reflexivity.
  - constructor; [eexists; reflexivity | constructor].
Defined.

(** ** The batch analysis of utils/fileAnalyzer.ts *)

Section UtilsPipeline.

Variables Buffer Data : Type.
Variable toUpperCase : jsstring -> jsstring.
Variable poalimVendorInfo : Utils.Vendor Buffer Data.
Variable toLowerCase : jsstring -> jsstring.
Variable papa : jsstring -> outcome Poalim.PapaResult.
Variable analyzeExcelContent :
  Buffer -> jsstring -> outcome (maybe (Utils.Vendor Buffer Data) * maybe jsval).
Variable finalBalance_of : Data -> jsval.

Let analyzeFile_try :=
  Utils.analyzeFile_try Buffer Data toUpperCase poalimVendorInfo toLowerCase papa
                        analyzeExcelContent finalBalance_of.
Let analyzeFile :=
  Utils.analyzeFile Buffer Data toUpperCase poalimVendorInfo toLowerCase papa
                    analyzeExcelContent finalBalance_of.
Let analyzeFiles :=
  Utils.analyzeFiles Buffer Data toUpperCase poalimVendorInfo toLowerCase papa
                     analyzeExcelContent finalBalance_of.

Lemma utils_analysed_record (name : jsstring) (content : Utils.Content Buffer)
      (analysis : maybe (Utils.Vendor Buffer Data) * maybe jsval)
      (r : Utils.Analysis Buffer Data) :
  Utils.analysed Buffer Data finalBalance_of name content analysis = Ok r ->
  fileName r = name /\ error r = None.
Proof.
  unfold Utils.analysed. destruct analysis as [[| |v] identifier];
    try (intros [= <-]; now split).
  match goal with |- context [match ?a with Some _ => _ | None => _ end] =>
    destruct a as [f|] end;
    [|intros [= <-]; now split].
  destruct (f content name); cbn [bind]; [|discriminate].
  intros [= <-]. now split.
Qed.

Lemma utils_analyzeFile_try_record (file : Analyzers.File Buffer)
      (r : Utils.Analysis Buffer Data) :
  analyzeFile_try file = Ok r ->
  fileName r = Analyzers.file_name Buffer file /\ error r = None.
Proof.
  unfold analyzeFile_try, Utils.analyzeFile_try.
  destruct (endsWith (Analyzers.file_name Buffer file) (u ".csv")).
  - destruct (Analyzers.text Buffer file) as [content|e]; cbn [bind];
      [|discriminate].
    destruct (papa content) as [result|e]; cbn [bind]; [|discriminate].
    destruct (Utils.analyzeCSVContent _ _ _ _ result _) as [analysis|e];
      cbn [bind]; [|discriminate].
    apply utils_analysed_record.
  - match goal with |- context [if ?c then _ else _] => destruct c end.
    + destruct (Analyzers.arrayBuffer Buffer file) as [buffer|e]; cbn [bind];
        [|discriminate].
      destruct (analyzeExcelContent buffer _) as [analysis|e]; cbn [bind];
        [|discriminate].
      apply utils_analysed_record.
    + intros [= <-]. now split.
Qed.

(** What [analyzeFile] fulfils with: the record of the [try] block, which
    has no error, or the record of its [catch] clause. *)
Definition reported (file : Analyzers.File Buffer) (r : Utils.Analysis Buffer Data)
  : Prop :=
  fileName r = Analyzers.file_name Buffer file
  /\ ((analyzeFile_try file = Ok r /\ error r = None)
      \/ exists e,
          analyzeFile_try file = Throw e
          /\ r = mkAnalysis (Analyzers.file_name Buffer file) Null
                            (Some (message_of e)) Undefined VUndefined Null).

Lemma utils_analyzeFile_reports (file : Analyzers.File Buffer) :
  exists r, analyzeFile file = Ok r /\ reported file r.
Proof.
  unfold analyzeFile, Utils.analyzeFile, try_catch, reported.
  fold analyzeFile_try.
  destruct (analyzeFile_try file) as [r|e] eqn:E.
  - exists r. destruct (utils_analyzeFile_try_record file r E) as [N R].
    repeat split; auto.
  - eexists. split; [reflexivity|]. split; [reflexivity|]. right.
    exists e. split; reflexivity.
Qed.

(** X23.  [analyzeFiles] of utils keeps the files of a batch apart.  It
    always fulfils, with one record for each file in the order of the
    files, each under the name of its file.  Whatever goes wrong with a
    file inside [analyzeFile] - its content cannot be read, the parser or
    a detector throws, the analyzer of the vendor rejects - is caught
    there and becomes the record [{fileName, vendorInfo: null, error,
    identifier: null}] with the message of the exception; every other
    record has no error.  Here the analysis of a text file takes place
    inside the [try] block, unlike in analyzers/fileAnalyzer.ts. *)
Theorem utils_analyzeFiles_reports_each_file_apart
        (files : list (Analyzers.File Buffer)) :
  exists results,
    analyzeFiles files = Ok results
    /\ Forall2 reported files results.
Proof.
  unfold analyzeFiles, Utils.analyzeFiles. fold analyzeFile.
  destruct (Promise_all_map analyzeFile files) as (rs & E & _ & F).
  { intros file. destruct (utils_analyzeFile_reports file) as (r & R & _).
    now exists r. }
  exists rs. split; [exact E|].
  revert F. apply Forall2_impl. intros file r R.
  destruct (utils_analyzeFile_reports file) as (r' & R' & P).
  rewrite R in R'. now injection R' as <-.
Qed.

End UtilsPipeline.

(** ** The rows and the balance of a Poalim file (utils/poalimAnalyzer.ts) *)

(** A cell as the parser of a text file gives it: a text, or nothing. *)
Definition text_or_absent (v : jsval) : Prop :=
  v = VUndefined \/ exists s, v = VStr s.

Lemma poalim_scaled_int_text (k : Z) (v : jsval) :
  text_or_absent v -> exists r, Poalim.scaled_int k v = Ok r.
Proof.
  intros [->|(s & ->)]; unfold Poalim.scaled_int; [now eexists|].
  destruct (negb (truthy (VStr s))); now eexists.
Qed.

Lemma poalim_transform_row_text (row : object jsval) :
  text_or_absent (prop row Poalim.debit_column) ->
  text_or_absent (prop row Poalim.credit_column) ->
  exists t, Poalim.transform_row row = Ok t.
Proof.
  intros D C. pose proof (poalim_amount_rule row) as R.
  unfold poalim_amount in R.
  destruct (poalim_scaled_int_text (-10) _ D) as (d & Ed).
  destruct (poalim_scaled_int_text 10 _ C) as (c & Ec).
  unfold Poalim.debit_transform, Poalim.credit_transform in R.
  rewrite Ed, Ec in R.
  destruct (is_undefined (prop row Poalim.debit_column)); cbn [bind] in R;
    match type of R with
    | context [if ?b then _ else _] => destruct b
    end;
    destruct R as (t & T & _); now exists t.
Qed.

(** The three ways [analyzePoalimFile] ends on a text. *)
Lemma poalim_file_rows
        (B : Type) (result : Poalim.PapaResult) :
  ((0 < Poalim.errors result)%nat ->
   Poalim.analyzePoalimFile (B := B) (Text result)
   = Throw (Error "Failed to parse CSV file"))
  /\ (Poalim.errors result = 0%nat -> Poalim.data result = [] ->
      exists e, Poalim.analyzePoalimFile (B := B) (Text result) = Throw e)
  /\ (Poalim.errors result = 0%nat ->
      forall lastRow,
        last (map Some (Poalim.data result)) None = Some lastRow ->
        Forall (fun row => text_or_absent (prop row Poalim.debit_column)
                           /\ text_or_absent (prop row Poalim.credit_column))
               (Poalim.data result) ->
        exists txs,
          Poalim.analyzePoalimFile (B := B) (Text result)
          = Ok (mkResult txs
                  (if truthy (prop lastRow Poalim.balance_column)
                   then VNum (parseFloat
                                (remove_first comma
                                   (ToString (prop lastRow Poalim.balance_column))))
                   else VNull))
          /\ List.length txs = List.length (Poalim.data result)).
Proof.
  unfold Poalim.analyzePoalimFile. split; [|split].
  - intros E. destruct (Nat.ltb_spec 0 (Poalim.errors result)); [reflexivity | lia].
  - intros E D. rewrite E, D. cbn. now eexists.
  - intros E lastRow L F. rewrite E. cbn [Nat.ltb Nat.leb].
    destruct (mapM_total Poalim.transform_row (Poalim.data result)) as (txs & T).
    { intros row I. rewrite Forall_forall in F. destruct (F row I) as [D C].
      now apply poalim_transform_row_text. }
    rewrite T. cbn [bind]. rewrite L.
    exists txs. split; [reflexivity|].
    now apply mapM_length in T.
Qed.

(** X24.  [analyzePoalimFile] on a text: it throws "Failed to parse CSV
    file" when the parser reported an error; it throws a [TypeError], and
    returns no empty list, when the parser found no row, because the
    balance is read from the last row; and otherwise, the cells being the
    texts that the parser gives, it returns one transaction for each row,
    none left out, with the balance [null] when the last row has no
    balance and the number read from that cell when it has one. *)
Theorem poalim_file_gives_one_transaction_for_each_row
        (B : Type) (result : Poalim.PapaResult) :
  ((0 < Poalim.errors result)%nat ->
   Poalim.analyzePoalimFile (B := B) (Text result)
   = Throw (Error "Failed to parse CSV file"))
  /\ (Poalim.errors result = 0%nat -> Poalim.data result = [] ->
      exists e, Poalim.analyzePoalimFile (B := B) (Text result) = Throw e)
  /\ (Poalim.errors result = 0%nat ->
      forall lastRow,
        last (map Some (Poalim.data result)) None = Some lastRow ->
        Forall (fun row => text_or_absent (prop row Poalim.debit_column)
                           /\ text_or_absent (prop row Poalim.credit_column))
               (Poalim.data result) ->
        exists txs,
          Poalim.analyzePoalimFile (B := B) (Text result)
          = Ok (mkResult txs
                  (if truthy (prop lastRow Poalim.balance_column)
                   then VNum (parseFloat
                                (remove_first comma
                                   (ToString (prop lastRow Poalim.balance_column))))
                   else VNull))
          /\ List.length txs = List.length (Poalim.data result)).
Proof. apply poalim_file_rows. Qed.

Definition poalim_credit_row : object jsval :=
  [ (u "תאריך", VStr (u "01/05/2025")); (u "תיאור הפעולה", VStr (u "משכורת"));
    (Poalim.debit_column, VStr []); (Poalim.credit_column, VStr (u "5000"));
    (Poalim.balance_column, VStr (u "15000")) ].

Definition poalim_debit_row : object jsval :=
  [ (u "תאריך", VStr (u "05/05/2025")); (u "תיאור הפעולה", VStr (u "סופרמרקט"));
    (Poalim.debit_column, VStr (u "200")); (Poalim.credit_column, VStr []);
    (Poalim.balance_column, VStr (u "14800")) ].

Lemma poalim_file_gives_one_transaction_for_each_row_witness :
  Poalim.analyzePoalimFile (B := unit) (Text (Poalim.mkPapa [] 1 []))
  = Throw (Error "Failed to parse CSV file")
  /\ (exists e,
         Poalim.analyzePoalimFile (B := unit) (Text (Poalim.mkPapa [] 0 [])) = Throw e)
  /\ exists txs,
      Poalim.analyzePoalimFile (B := unit)
        (Text (Poalim.mkPapa [poalim_credit_row; poalim_debit_row] 0 []))
      = Ok (mkResult txs
              (if truthy (prop poalim_debit_row Poalim.balance_column)
               then VNum (parseFloat
                            (remove_first comma
                               (ToString (prop poalim_debit_row Poalim.balance_column))))
               else VNull))
      /\ List.length txs = 2%nat.
Proof.
  split; [|split].
  - apply (proj1 (poalim_file_gives_one_transaction_for_each_row
                    unit (Poalim.mkPapa [] 1 []))).
    simpl. lia.
  - apply (proj1 (proj2 (poalim_file_gives_one_transaction_for_each_row
                           unit (Poalim.mkPapa [] 0 []))));
      reflexivity.
  - apply (proj2 (proj2 (poalim_file_gives_one_transaction_for_each_row
                           unit (Poalim.mkPapa [poalim_credit_row; poalim_debit_row]
                                               0 [])))).
    + reflexivity.
    + reflexivity.
    + constructor; [split; right; eexists; reflexivity|].
      constructor; [split; right; eexists; reflexivity | constructor].
Defined.

(** ** The balance of a Poalim file *)

Lemma remove_first_after (a b : jsstring) (c : N) :
  ~ In c a -> remove_first c (a ++ c :: b) = a ++ b.
Proof.
  induction a as [|d a IH]; intros H; cbn [app remove_first].
  - now rewrite N.eqb_refl.
  - destruct (N.eqb_spec d c) as [->|N]; [exfalso; apply H; now left|].
    rewrite IH; [reflexivity|]. intros I. apply H. now right.
Qed.

(** [parseFloat] reads the digits before a comma and stops there. *)
Lemma parseFloat_stops_at_comma (a rest : jsstring) :
  all_digits a -> a <> [] ->
  parseFloat (a ++ comma :: rest) = Fin (digits_value 0 a) 0.
Proof.
  intros A N. destruct a as [|c a]; [contradiction|].
  inversion A as [|? ? Hc Ha]; subst.
  unfold parseFloat. cbn [app trimStart].
  assert (S : is_space c = false).
  { destruct (is_digit_cases c Hc) as [E|[E|[E|[E|[E|[E|[E|[E|[E|E]]]]]]]]];
      subst c; reflexivity. }
  rewrite S. unfold read_decimal. rewrite strip_sign_digit by assumption.
  cbv beta iota. rewrite no_Infinity_at_digit by assumption.
  change (c :: a ++ comma :: rest) with ((c :: a) ++ comma :: rest).
  rewrite (read_digits_app (c :: a) (comma :: rest) 0 0 A) by reflexivity.
  cbn [List.length plus]. unfold comma. cbn [read_exponent].
  unfold scaled. cbn [Z.leb Z.compare norm Z.pow]. now rewrite Z.mul_1_r.
Qed.

(** X25.  The balance of a Poalim file is read with
    [parseFloat(String(cell).replace(',', ''))], which removes the first
    comma only.  A balance written with two separators of thousands is
    read up to the second one: for the groups of digits [a], [b] and
    whatever follows, the balance "a,b,..." is the number "ab"; the text
    "1,234,567.89" is the balance 1234. *)
Theorem poalim_balance_stops_at_the_second_comma
        (B : Type) (rows : list (object jsval)) (lastRow : object jsval)
        (a b rest : jsstring) :
  all_digits a -> a <> [] -> all_digits b ->
  Forall (fun row => text_or_absent (prop row Poalim.debit_column)
                     /\ text_or_absent (prop row Poalim.credit_column))
         (rows ++ [lastRow]) ->
  prop lastRow Poalim.balance_column = VStr (a ++ comma :: b ++ comma :: rest) ->
  exists txs,
    Poalim.analyzePoalimFile (B := B) (Text (Poalim.mkPapa (rows ++ [lastRow]) 0 []))
    = Ok (mkResult txs (VNum (num_of_Z (digits_value 0 (a ++ b))))).
Proof.
  intros A N Bd F P.
  destruct (proj2 (proj2 (poalim_file_rows B (Poalim.mkPapa (rows ++ [lastRow]) 0 [])))
              eq_refl lastRow) as (txs & E & _).
  - cbn [Poalim.data]. rewrite map_app. cbn [map]. apply last_last.
  - exact F.
  - exists txs. rewrite E, P. do 3 f_equal.
    rewrite truthy_joined. cbn [ToString].
    rewrite remove_first_after by (apply digits_free_of; [assumption | reflexivity]).
    rewrite app_assoc. rewrite parseFloat_stops_at_comma.
    + reflexivity.
    + apply Forall_app. now split.
    + destruct a; [contradiction | discriminate].
Qed.

Definition poalim_million_row : object jsval :=
  [ (u "תאריך", VStr (u "01/05/2025")); (u "תיאור הפעולה", VStr (u "משכורת"));
    (Poalim.credit_column, VStr (u "5000"));
    (Poalim.balance_column, VStr (u "1" ++ comma :: u "234" ++ comma :: u "567.89")) ].

Lemma poalim_balance_stops_at_the_second_comma_witness :
  exists txs,
    Poalim.analyzePoalimFile (B := unit)
      (Text (Poalim.mkPapa ([] ++ [poalim_million_row]) 0 []))
    = Ok (mkResult txs (VNum (num_of_Z (digits_value 0 (u "1" ++ u "234"))))).
Proof.
  apply (poalim_balance_stops_at_the_second_comma
           unit [] poalim_million_row (u "1") (u "234") (u "567.89")).
  - repeat constructor.
  - discriminate.
  - repeat constructor.
  - constructor; [|constructor]. split; [left; reflexivity | right; eexists; reflexivity].
  - reflexivity.
Defined.

(** ** Where a Hebrew phrase has an amount (analyzers/calAnalyzer.ts) *)

(** The loop of a quantifier, with the matcher of its body. *)
Section Quantifier.

Variable step : jsstring -> (jsstring -> option jsstring) -> option jsstring.
Variable k : jsstring -> option jsstring.

Fixpoint rep_from (fuel mn : nat) (mx : option nat) (s : jsstring) {struct fuel}
  : option jsstring :=
  let stop := match mn with O => k s | S _ => None end in
  match fuel with
  | O => stop
  | S fuel' =>
    let more :=
      match mx with
      | Some O => None
      | _ =>
        step s (fun s1 =>
                  if (List.length s1 <? List.length s)%nat
                  then rep_from fuel' (pred mn) (option_map pred mx) s1
                  else None)
      end in
    match more with
    | Some rest => Some rest
    | None => stop
    end
  end.

End Quantifier.

Lemma rmatch_rep (a : regex) (mn : nat) (mx : option nat) (s : jsstring)
      (k : jsstring -> option jsstring) :
  rmatch (RRep a mn mx) s k = rep_from (rmatch a) k (S (List.length s)) mn mx s.
Proof. reflexivity. Qed.

(** A match leaves the continuation a suffix of the input. *)
Lemma rmatch_sound (r : regex) :
  forall (s : jsstring) (k : jsstring -> option jsstring) (out : jsstring),
    rmatch r s k = Some out ->
    exists s1, (List.length s1 <= List.length s)%nat /\ k s1 = Some out.
Proof.
  induction r as [p | a IHa b IHb | a IHa b IHb | a IHa mn mx]; intros s k out.
  - cbn [rmatch]. destruct s as [|c s]; [discriminate|].
    destruct (p c); [|discriminate]. intros H. exists s. split; [simpl; lia | exact H].
  - cbn [rmatch]. intros H. apply IHa in H. destruct H as (s1 & L1 & H).
    apply IHb in H. destruct H as (s2 & L2 & H). exists s2. split; [lia | exact H].
  - cbn [rmatch]. destruct (rmatch a s k) eqn:E.
    + intros [= <-]. now apply IHa.
    + apply IHb.
  - rewrite rmatch_rep. generalize (S (List.length s)) as fuel.
    intros fuel. revert mn mx s.
    induction fuel as [|fuel IH]; intros mn mx s.
    + cbn [rep_from]. destruct mn; [|discriminate].
      intros H. exists s. split; [lia | exact H].
    + cbn [rep_from].
      assert (Stop : match mn with O => k s | S _ => None end = Some out ->
                     exists s1, (List.length s1 <= List.length s)%nat
                                /\ k s1 = Some out).
      { destruct mn; [|discriminate]. intros H. exists s. split; [lia | exact H]. }
      assert (More : rmatch a s
                       (fun s1 =>
                          if (List.length s1 <? List.length s)%nat
                          then rep_from (rmatch a) k fuel (pred mn)
                                        (option_map pred mx) s1
                          else None) = Some out ->
                     exists s1, (List.length s1 <= List.length s)%nat
                                /\ k s1 = Some out).
      { intros M. apply IHa in M. destruct M as (s1 & L1 & M).
        destruct (List.length s1 <? List.length s)%nat; [|discriminate].
        apply IH in M. destruct M as (s2 & L2 & M).
        exists s2. split; [lia | exact M]. }
      destruct mx as [[|mx]|].
      * exact Stop.
      * match goal with
        | |- match ?more with Some _ => _ | None => _ end = _ -> _ =>
          destruct more as [res|] eqn:M; [intros [= <-]; now apply More | exact Stop]
        end.
      * match goal with
        | |- match ?more with Some _ => _ | None => _ end = _ -> _ =>
          destruct more as [res|] eqn:M; [intros [= <-]; now apply More | exact Stop]
        end.
Qed.

Lemma rmatch_seq a b s k :
  rmatch (RSeq a b) s k = rmatch a s (fun s1 => rmatch b s1 k).
Proof. reflexivity. Qed.

Lemma rmatch_alt a b s k :
  rmatch (RAlt a b) s k
  = match rmatch a s k with Some rest => Some rest | None => rmatch b s k end.
Proof. reflexivity. Qed.

Lemma rmatch_set p c s k :
  rmatch (RSet p) (c :: s) k = if p c then k s else None.
Proof. reflexivity. Qed.

Lemma rep_from_next step k fuel mn mx s :
  rep_from step k (S fuel) (S mn) (Some (S mx)) s
  = match step s (fun s1 => if (List.length s1 <? List.length s)%nat
                            then rep_from step k fuel mn (Some mx) s1
                            else None) with
    | Some rest => Some rest
    | None => None
    end.
Proof. reflexivity. Qed.

(** A continuation that always answers. *)
Definition answers (k : jsstring -> option jsstring) : Prop :=
  forall t, k t <> None.

(** A quantifier that may match nothing never fails before such a
    continuation. *)
Lemma rmatch_optional (a : regex) (mx : option nat) (s : jsstring)
      (k : jsstring -> option jsstring) :
  answers k -> rmatch (RRep a 0%nat mx) s k <> None.
Proof.
  intros K. rewrite rmatch_rep. cbn [rep_from].
  match goal with
  | |- match ?more with Some _ => _ | None => _ end <> None =>
    destruct more; [discriminate | apply K]
  end.
Qed.

(** What follows the first digits in the first alternative of the regular
    expression: [(,\d{3})*(\.\d{1,2})?]. *)
Definition amount_tail : regex :=
  RSeq (RRep (RSeq (lit comma) (RRep digit 3%nat (Some 3%nat))) 0%nat None)
       (RRep (RSeq (lit dot) (RRep digit 1%nat (Some 2%nat))) 0%nat (Some 1%nat)).

Lemma amount_tail_answers : answers (fun s1 => rmatch amount_tail s1 Some).
Proof.
  intros t. unfold amount_tail. rewrite rmatch_seq. apply rmatch_optional.
  intros t'. apply rmatch_optional. intros t''. discriminate.
Qed.

(** Where a digit stands the regular expression matches, and the match
    takes the digit. *)
Lemma amount_matches_at_digit (c : N) (s : jsstring) :
  is_digit c = true ->
  exists rest,
    rmatch Cal.amount_regex (c :: s) Some = Some rest
    /\ (List.length rest <= List.length s)%nat.
Proof.
  intros D.
  assert (E : rmatch (RSeq (RRep digit 1%nat (Some 3%nat)) amount_tail) (c :: s) Some
              = rmatch (RRep digit 0%nat (Some 2%nat)) s
                       (fun s1 => rmatch amount_tail s1 Some)).
  { rewrite rmatch_seq, !rmatch_rep. cbn [List.length].
    rewrite rep_from_next. unfold digit at 1. rewrite rmatch_set, D.
    cbn [List.length].
    rewrite (proj2 (Nat.ltb_lt _ _) (Nat.lt_succ_diag_r _)).
    destruct (rep_from _ _ (S (List.length s)) 0%nat (Some 2%nat) s) eqn:R;
      [reflexivity|].
    exfalso. revert R. rewrite <- rmatch_rep.
    apply rmatch_optional, amount_tail_answers. }
  destruct (rmatch (RRep digit 0%nat (Some 2%nat)) s
                   (fun s1 => rmatch amount_tail s1 Some))
    as [rest|] eqn:R.
  - exists rest. split.
    + change Cal.amount_regex
        with (RAlt (RSeq (RRep digit 1%nat (Some 3%nat)) amount_tail)
                (RAlt (RSeq (RRep digit 1%nat None)
                            (RSeq (lit dot) (RRep digit 1%nat (Some 2%nat))))
                      (RSeq (RRep digit 1%nat None)
                            (RSeq (lit comma) (RRep digit 1%nat (Some 2%nat)))))).
      rewrite rmatch_alt, E. reflexivity.
    + apply rmatch_sound in R. destruct R as (s1 & L1 & R).
      apply rmatch_sound in R. destruct R as (s2 & L2 & R).
      injection R as <-. lia.
  - exfalso. revert R. apply rmatch_optional, amount_tail_answers.
Qed.

Lemma match_here_at_digit (c : N) (s : jsstring) :
  is_digit c = true ->
  exists m rest,
    match_here Cal.amount_regex (c :: s) = Some (c :: m, rest)
    /\ (List.length rest <= List.length s)%nat.
Proof.
  intros D. destruct (amount_matches_at_digit c s D) as (rest & R & L).
  unfold match_here. rewrite R.
  exists (firstn (List.length s - List.length rest) s), rest. split; [|exact L].
  cbn [List.length].
  replace (S (List.length s) - List.length rest)%nat
    with (S (List.length s - List.length rest)) by lia.
  reflexivity.
Qed.

Lemma match_here_elsewhere (c : N) (s : jsstring) :
  is_digit c = false -> match_here Cal.amount_regex (c :: s) = None.
Proof.
  intros D. unfold match_here. now rewrite amount_regex_needs_digit.
Qed.

(** A match of the regular expression: a text that begins with a digit. *)
Definition begins_with_digit (m : jsstring) : Prop :=
  exists c t, m = c :: t /\ is_digit c = true.

Lemma matches_begin_with_digits (fuel : nat) (s : jsstring) :
  Forall begins_with_digit (match_all_from fuel Cal.amount_regex s).
Proof.
  revert s. induction fuel as [|fuel IH]; intros s; [constructor|].
  destruct s as [|c s]; [constructor|].
  cbn [match_all_from].
  destruct (is_digit c) eqn:D.
  - destruct (match_here_at_digit c s D) as (m & rest & E & _). rewrite E.
    constructor; [now exists c, m | apply IH].
  - rewrite match_here_elsewhere by assumption. apply IH.
Qed.

Lemma matches_exist (s : jsstring) :
  forall fuel, (List.length s < fuel)%nat ->
               Exists (fun c => is_digit c = true) s ->
               match_all_from fuel Cal.amount_regex s <> [].
Proof.
  induction s as [|c s IH]; intros fuel L X; [inversion X|].
  destruct fuel as [|fuel]; [inversion L|]. cbn [match_all_from].
  destruct (is_digit c) eqn:D.
  - destruct (match_here_at_digit c s D) as (m & rest & E & _). rewrite E.
    discriminate.
  - rewrite match_here_elsewhere by assumption.
    apply IH; [simpl in L; lia|].
    inversion X; subst; [congruence | assumption].
Qed.

Lemma longest_begins_with_digit (matches : list jsstring) :
  matches <> [] -> Forall begins_with_digit matches ->
  begins_with_digit (Cal.longest matches).
Proof.
  unfold Cal.longest.
  assert (G : forall l acc,
             Forall begins_with_digit l ->
             acc = [] \/ begins_with_digit acc ->
             (acc <> [] \/ l <> []) ->
             begins_with_digit
               (fold_left (fun longestMatch m =>
                             if (List.length longestMatch <? List.length m)%nat
                             then m else longestMatch) l acc)).
  { induction l as [|m l IH]; intros acc F A N.
    - cbn [fold_left]. destruct A as [->|A]; [|exact A].
      destruct N; contradiction.
    - inversion F as [|? ? Pm Fl]; subst. cbn [fold_left].
      apply IH; [assumption | |].
      + destruct (List.length acc <? List.length m)%nat; [now right | exact A].
      + left. destruct (Nat.ltb_spec (List.length acc) (List.length m)).
        * destruct Pm as (c & t & -> & _). discriminate.
        * destruct Pm as (c & t & -> & _). destruct acc; [|discriminate].
          simpl in *. lia. }
  intros N F. apply G; [assumption | now left | now right].
Qed.

Lemma read_digits_count (radix acc : Z) (n : nat) (s : jsstring) :
  (n <= snd (fst (read_digits radix acc n s)))%nat.
Proof.
  revert acc n. induction s as [|c s IH]; intros acc n; cbn [read_digits].
  - simpl. lia.
  - destruct (radix_digit radix c); [|simpl; lia].
    specialize (IH (acc * radix + z) (S n)). lia.
Qed.

Lemma norm_is_a_number (M : Z) (e : nat) : num_is_nan (norm M e) = false.
Proof.
  revert M. induction e as [|e IH]; intros M; cbn [norm]; [reflexivity|].
  destruct (M mod 10 =? 0); [apply IH | reflexivity].
Qed.

(** [parseFloat] reads a number wherever a text begins with a digit. *)
Lemma parseFloat_at_digit (c : N) (t : jsstring) :
  is_digit c = true -> num_is_nan (parseFloat (c :: t)) = false.
Proof.
  intros D. unfold parseFloat. cbn [trimStart].
  assert (S : is_space c = false).
  { destruct (is_digit_cases c D) as [E|[E|[E|[E|[E|[E|[E|[E|[E|E]]]]]]]]];
      subst c; reflexivity. }
  rewrite S. unfold read_decimal. rewrite strip_sign_digit by assumption.
  cbv beta iota. rewrite no_Infinity_at_digit by assumption.
  pose proof (read_digits_count 10 (0 * 10 + (Z.of_N c - 48)) 1 t) as C.
  cbn [read_digits]. rewrite (radix_digit_10 c D).
  destruct (read_digits 10 (0 * 10 + (Z.of_N c - 48)) 1 t) as [[ip n1] r1].
  cbn [fst snd] in C. destruct n1 as [|n1]; [lia|].
  assert (Sc : forall neg m f ex, num_is_nan (scaled neg m f ex) = false).
  { intros. unfold scaled. destruct (0 <=? ex); apply norm_is_a_number. }
  assert (Fin_ : forall (r : option (Z * jsstring)) neg m f r2,
             num_is_nan
               match match r with
                     | Some (ex, r3) => Some (scaled neg m f ex, r3)
                     | None => Some (scaled neg m f 0, r2)
                     end with
               | Some (x, _) => x
               | None => NaN
               end = false).
  { intros [[ex r3]|] ? ? ? ?; apply Sc. }
  destruct r1 as [|d r1]; [apply Fin_|].
  destruct d as [|p]; [apply Fin_|].
  do 6 (try (destruct p as [p|p|]; try apply Fin_)).
  destruct (read_digits 10 ip 0 r1) as [[m n2] r2]. apply Fin_.
Qed.

Lemma digit_or_none (text : jsstring) :
  Forall (fun c => is_digit c = false) text
  \/ Exists (fun c => is_digit c = true) text.
Proof.
  induction text as [|c text [IH|IH]]; [left; constructor | |].
  - destruct (is_digit c) eqn:D; [right; now constructor | left; now constructor].
  - right. now apply Exists_cons_tl.
Qed.

(** X26 (analyzers/calAnalyzer.ts, [extractAmountFromHebrewText]): the
    function answers [null] exactly when the text holds no digit.  Wherever
    a digit stands the regular expression finds a match that begins with
    it, the longest match therefore begins with a digit, and [parseFloat]
    reads a number from it once the commas are taken out; the test
    [isNaN(amount)] never holds. *)
Theorem extract_amount_is_null_only_without_digits (text : jsstring) :
  Cal.extractAmountFromHebrewText text = VNull
  <-> Forall (fun c => is_digit c = false) text.
Proof.
  split; [|apply extract_amount_without_digits].
  intros E. destruct (digit_or_none text) as [F|X]; [exact F|exfalso].
  revert E. unfold Cal.extractAmountFromHebrewText.
  destruct text as [|c0 text0] eqn:T; [inversion X|]. rewrite <- T in *.
  pose proof (matches_exist text (S (List.length text)) (Nat.lt_succ_diag_r _) X) as N.
  pose proof (matches_begin_with_digits (S (List.length text)) text) as B.
  fold (match_all Cal.amount_regex text) in N, B.
  destruct (longest_begins_with_digit _ N B) as (c & t & L & D).
  destruct (match_all Cal.amount_regex text) as [|m ms] eqn:M; [congruence|].
  rewrite L. unfold remove_all. cbn [filter].
  assert (C : (comma =? c)%N = false).
  { destruct (is_digit_cases c D) as [E|[E|[E|[E|[E|[E|[E|[E|[E|E]]]]]]]]];
      subst c; reflexivity. }
  rewrite C. cbn [negb]. rewrite parseFloat_at_digit by assumption.
  discriminate.
Qed.
